(** * parte4/backend/api_server.py: the REST handlers over the SQLite store

    A shallow embedding of the four data routes of [api_server.py]
    ([listar_operadoras], [detalhes_operadora], [historico_despesas],
    [estatisticas]) together with the parts of Python, Flask and SQLite
    they rest on, followed by the properties of the handlers.

    Conventions of the embedding:
    - a Python [str] is the list of its code points ([pystr]);
    - a Python [int] is a [Z]; SQLite INTEGER is the signed 64-bit range,
      checked where [sqlite3] binds a parameter;
    - a REAL amount ([valor]) and a Python [float] are IEEE 754 binary64
      values, as [Floats.SpecFloat] of the Standard Library specifies them
      (precision 53, infinities at exponent 1024, operations rounded to
      nearest, ties to even); SUM and AVG accumulate in a C [double], in
      the order the statement visits the rows;
    - [datetime] values are microsecond counts;
    - a handler is a computation over the process state (the statistics
      cache and the log of statements sent to the store) that returns a
      response or raises. *)

From Stdlib Require Import String Ascii.
From Stdlib Require Import List ZArith NArith QArith Qabs Bool Lia.
From Stdlib Require Import Permutation Sorted.
From Stdlib Require Import Floats.SpecFloat.
Import ListNotations.
Local Open Scope Z_scope.

(* ================================================================== *)
(** ** Double precision numbers *)

Module Double.

(** A C [double]: IEEE 754 binary64. *)
Definition double := spec_float.

Definition prec : Z := 53.
Definition emax : Z := 1024.

Definition zero : double := S754_zero false.

(** [x + y] and [x / y], each rounded once to the nearest double. *)
Definition add : double -> double -> double := SFadd prec emax.
Definition div : double -> double -> double := SFdiv prec emax.

(** [(double) n], Python's [float(n)]: the double nearest to the integer. *)
Definition of_int (n : Z) : double := binary_normalize prec emax n 0 false.

Definition is_nan (x : double) : bool :=
  match x with S754_nan => true | _ => false end.

Definition is_zero (x : double) : bool :=
  match x with S754_zero _ => true | _ => false end.

(** [x <= y] *)
Definition leb : double -> double -> bool := SFleb.

(** The double nearest to the fraction [n / d], negated when [s] is set:
    the quotient of the two integers, rounded once. *)
Definition quotient (s : bool) (n d : positive) : double :=
  SFdiv prec emax (S754_finite s n 0) (S754_finite false d 0).

(** The rational a finite double stands for (0 for the others). *)
Definition exact (x : double) : Q :=
  match x with
  | S754_finite s m e =>
      let z := if s then Zneg m else Zpos m in
      if 0 <=? e then inject_Z (z * 2 ^ e)
      else z # Z.to_pos (2 ^ (- e))
  | _ => 0%Q
  end.

End Double.
Import Double.

(* ================================================================== *)
(** ** Python values and builtins *)

Module Py.

(** The exceptions the handlers can meet. *)
Inductive exn :=
| ValueError
| ZeroDivisionError
| OverflowError
| OperationalError
| ProgrammingError.

Inductive Result (A : Type) :=
| Ok (a : A)
| Raise (e : exn).
Arguments Ok {A} a.
Arguments Raise {A} e.

(** A [str]: its code points. *)
Definition pystr := list N.

Definition str (s : string) : pystr :=
  map N_of_ascii (list_ascii_of_string s).

Definition pystr_eqb (a b : pystr) : bool :=
  if list_eq_dec N.eq_dec a b then true else false.

Definition between (lo c hi : N) : bool := ((lo <=? c) && (c <=? hi))%N.

(** [str.isspace] on one character. *)
Definition isspace (c : N) : bool :=
  between 9 c 13 || between 28 c 32 || (c =? 133)%N || (c =? 160)%N
  || (c =? 5760)%N || between 8192 c 8202 || (c =? 8232)%N
  || (c =? 8233)%N || (c =? 8239)%N || (c =? 8287)%N || (c =? 12288)%N.

Fixpoint lstrip (s : pystr) : pystr :=
  match s with
  | c :: t => if isspace c then lstrip t else s
  | [] => []
  end.

Definition rstrip (s : pystr) : pystr := rev (lstrip (rev s)).

(** [s.strip()] *)
Definition strip (s : pystr) : pystr := rstrip (lstrip s).

(** *** [int(s)]

    [int] first maps every Unicode space to a blank and every Unicode
    decimal digit to its ASCII digit, then reads: blanks, an optional
    sign, digits with single underscores between them, blanks.  More
    than 4300 digits are refused (the default
    [sys.int_info.default_max_str_digits]). *)

(** First code point of each run of ten decimal digits (category Nd). *)
Definition digit_zeros : list N :=
  [48; 1632; 1776; 1984; 2406; 2534; 2662; 2790; 2918; 3046; 3174; 3302;
   3430; 3558; 3664; 3792; 3872; 4160; 4240; 6112; 6160; 6470; 6608; 6784;
   6800; 6992; 7088; 7232; 7248; 42528; 43216; 43264; 43472; 43504; 43600;
   44016; 65296; 66720; 68912; 69734; 69872; 69942; 70096; 70384; 70736;
   70864; 71248; 71360; 71472; 71904; 72016; 72784; 73040; 73120; 92768;
   92864; 93008; 120782; 120792; 120802; 120812; 120822; 123200; 123632;
   125264; 130032]%N.

Definition digit_value (c : N) : option Z :=
  match find (fun z => between z c (z + 9)) digit_zeros with
  | Some z => Some (Z.of_N (c - z))
  | None => None
  end.

(** The blanks [int] skips: the C locale's below 128, Unicode's above. *)
Definition int_isspace (c : N) : bool :=
  if (c <? 128)%N then between 9 c 13 || (c =? 32)%N else isspace c.

Fixpoint int_lstrip (s : pystr) : pystr :=
  match s with
  | c :: t => if int_isspace c then int_lstrip t else s
  | [] => []
  end.

Definition underscore : N := 95.

(** Reads the digits; [prev_us] tells whether the previous character was
    an underscore.  Returns the value, the number of digits, whether
    the run ended on an underscore, and what follows the run. *)
Fixpoint scan_digits (s : pystr) (prev_us : bool) (acc : Z) (n : N)
  : option (Z * N * bool * pystr) :=
  match s with
  | [] => Some (acc, n, prev_us, [])
  | c :: t =>
      if (c =? underscore)%N then
        if prev_us then None else scan_digits t true acc n
      else
        match digit_value c with
        | Some d => scan_digits t false (10 * acc + d) (n + 1)
        | None => Some (acc, n, prev_us, s)
        end
  end.

Definition max_str_digits : N := 4300.

Definition int (s : pystr) : Result Z :=
  let s1 := int_lstrip s in
  let '(sign, s2) :=
    match s1 with
    | 43%N :: t => (1, t)
    | 45%N :: t => (-1, t)
    | _ => (1, s1)
    end in
  match s2 with
  | [] => Raise ValueError
  | c :: _ =>
      if (c =? underscore)%N then Raise ValueError
      else
        match scan_digits s2 false 0 0 with
        | None => Raise ValueError
        | Some (v, n, ends_us, rest) =>
            if ends_us || (n =? 0)%N || (max_str_digits <? n)%N
            then Raise ValueError
            else
              match int_lstrip rest with
              | [] => Ok (sign * v)
              | _ :: _ => Raise ValueError
              end
        end
  end.

(** [a // b] on ints. *)
Definition floordiv (a b : Z) : Result Z :=
  if b =? 0 then Raise ZeroDivisionError else Ok (a / b).

(** A number of a response: an [int] or a [float]. *)
Inductive number :=
| PyInt (z : Z)
| PyFloat (x : double).

(** [x or 0] where [x] is a float or [None]: a float is false when it is
    a zero. *)
Definition or_zero (x : option double) : number :=
  match x with
  | Some d => if is_zero d then PyInt 0 else PyFloat d
  | None => PyInt 0
  end.

(** The integer nearest to [n / d] ([0 <= n], [0 < d]), ties to even. *)
Definition round_half_even (n d : Z) : Z :=
  let f := n / d in
  let r := n mod d in
  match 2 * r ?= d with
  | Lt => f
  | Gt => f + 1
  | Eq => if Z.even f then f else f + 1
  end.

(** [round(x, 2)] on a float: the value of [x] is rounded to a whole
    number [k] of hundredths (ties to even), and the answer is the double
    nearest to [k / 100], with the sign of [x]; infinities and NaN are
    returned as they are. *)
Definition float_round2 (x : double) : double :=
  match x with
  | S754_finite s m e =>
      let k := if 0 <=? e then Zpos m * 2 ^ e * 100
               else round_half_even (Zpos m * 100) (2 ^ (- e)) in
      match k with
      | Zpos p => quotient s p 100
      | _ => S754_zero s
      end
  | _ => x
  end.

(** [round(x, 2)]: an [int] is returned unchanged. *)
Definition round2 (x : number) : number :=
  match x with
  | PyInt z => PyInt z
  | PyFloat d => PyFloat (float_round2 d)
  end.

End Py.
Import Py.

(* ================================================================== *)
(** ** The part of SQLite the statements use *)

Module Sql.

(** A value bound to a [?]. *)
Inductive sqlval :=
| VInt (z : Z)
| VText (s : pystr).

Definition int64_min : Z := - 2 ^ 63.
Definition int64_max : Z := 2 ^ 63 - 1.

Definition fits_int64 (z : Z) : bool := (int64_min <=? z) && (z <=? int64_max).

(** [sqlite3] refuses an int outside INTEGER when it binds it. *)
Definition bind_param (v : sqlval) : Result sqlval :=
  match v with
  | VInt z => if fits_int64 z then Ok v else Raise OverflowError
  | VText _ => Ok v
  end.

Fixpoint bind_params (vs : list sqlval) : Result (list sqlval) :=
  match vs with
  | [] => Ok []
  | v :: t =>
      match bind_param v with
      | Raise e => Raise e
      | Ok v' =>
          match bind_params t with
          | Raise e => Raise e
          | Ok t' => Ok (v' :: t')
          end
      end
  end.

(** *** LIKE *)

Definition percent : N := 37.

(** LIKE folds the case of ASCII letters only. *)
Definition ascii_lower (c : N) : N :=
  if between 65 c 90 then (c + 32)%N else c.

Definition char_eq_nocase (a b : N) : bool :=
  (ascii_lower a =? ascii_lower b)%N.

(** LIKE reads both operands up to their first NUL. *)
Fixpoint c_str (s : pystr) : pystr :=
  match s with
  | [] => []
  | c :: t => if (c =? 0)%N then [] else c :: c_str t
  end.

(** [%] stands for any run of characters, [_] for one character. *)
Fixpoint like_match (p : pystr) : pystr -> bool :=
  match p with
  | [] => fun s => match s with [] => true | _ :: _ => false end
  | c :: p' =>
      if (c =? percent)%N then
        fix any (s : pystr) : bool :=
          like_match p' s
          || match s with [] => false | _ :: s' => any s' end
      else if (c =? underscore)%N then
        fun s => match s with [] => false | _ :: s' => like_match p' s' end
      else
        fun s =>
          match s with
          | [] => false
          | d :: s' => char_eq_nocase c d && like_match p' s'
          end
  end.

Definition utf8_len1 (c : N) : Z :=
  if (c <? 128)%N then 1
  else if (c <? 2048)%N then 2
  else if (c <? 65536)%N then 3
  else 4.

Definition utf8_len (s : pystr) : Z :=
  fold_right (fun c n => utf8_len1 c + n) 0 s.

(** SQLITE_MAX_LIKE_PATTERN_LENGTH, in bytes. *)
Definition max_like_pattern_length : Z := 50000.

(** [text LIKE pat], evaluated on one row. *)
Definition like (text pat : pystr) : Result bool :=
  if max_like_pattern_length <? utf8_len pat then Raise OperationalError
  else Ok (like_match (c_str pat) (c_str text)).

(** *** ORDER BY, LIMIT and OFFSET *)

Section Sorting.
Context {A : Type} (le : A -> A -> bool).

Fixpoint insert_sorted (x : A) (l : list A) : list A :=
  match l with
  | [] => [x]
  | y :: t => if le x y then x :: l else y :: insert_sorted x t
  end.

(** Rows that compare equal keep their order. *)
Definition order_by (l : list A) : list A :=
  fold_right insert_sorted [] l.
End Sorting.

(** The BINARY collation: code points compared from the left. *)
Fixpoint text_leb (a b : pystr) : bool :=
  match a, b with
  | [], _ => true
  | _ :: _, [] => false
  | x :: a', y :: b' =>
      if (x <? y)%N then true
      else if (y <? x)%N then false
      else text_leb a' b'
  end.

(** [LIMIT lim OFFSET off]: a negative limit is no limit, a negative
    offset is no offset. *)
Definition limit_offset {A : Type} (lim off : Z) (rows : list A) : list A :=
  let rest := skipn (Z.to_nat off) rows in
  if lim <? 0 then rest else firstn (Z.to_nat lim) rest.

(** *** GROUP BY *)

Section Grouping.
Context {A K : Type} (keq kle : K -> K -> bool) (key : A -> K).

Fixpoint distinct (l : list K) : list K :=
  match l with
  | [] => []
  | k :: t => k :: filter (fun k' => negb (keq k k')) (distinct t)
  end.

(** The rows go through a sorter on the key: the groups come out in the
    order [kle] of their keys, and the rows of a group in the order in
    which they went in. *)
Definition group_by (rows : list A) : list (K * list A) :=
  map (fun k => (k, filter (fun r => keq (key r) k) rows))
      (order_by kle (distinct (map key rows))).
End Grouping.

(** *** REAL results *)

(** [sqlite3_result_double]: a NaN becomes NULL. *)
Definition sql_real (x : double) : option double :=
  if is_nan x then None else Some x.

(** The accumulator of SUM and AVG over REAL values: a C [double] that
    starts at 0.0 and takes the values one after the other, each addition
    rounded (the plain accumulation of SQLite 3.40; later releases carry a
    compensation term along). *)
Definition rSum (l : list double) : double := fold_left add l zero.

(** How ORDER BY compares REAL results: NULL before every number, numbers
    by value.  (A NaN is never a value of the store, it reads as NULL.) *)
Definition real_leb (a b : option double) : bool :=
  match match a with Some x => sql_real x | None => None end,
        match b with Some y => sql_real y | None => None end with
  | None, _ => true
  | Some _, None => false
  | Some x, Some y => leb x y
  end.

End Sql.
Import Sql.

(* ================================================================== *)
(** ** The store: tables [operadoras] and [despesas] *)

Record Operadora := {
  cnpj : pystr;                    (* TEXT PRIMARY KEY *)
  razao_social : pystr;            (* TEXT NOT NULL *)
  registro_ans : option pystr;
  modalidade : option pystr;
  uf : option pystr
}.

Record Despesa := {
  id : Z;                          (* INTEGER PRIMARY KEY AUTOINCREMENT *)
  d_cnpj : pystr;                  (* TEXT NOT NULL *)
  trimestre : Z;
  ano : Z;
  valor : double                   (* REAL NOT NULL: never a NaN *)
}.

Record Store := {
  operadoras : list Operadora;
  despesas : list Despesa
}.

(** The key constraint of [operadoras]. *)
Definition primary_key (db : Store) : Prop :=
  NoDup (map cnpj (operadoras db)).

(** Rows as the statements return them. *)
Record DespesaRow := {
  r_trimestre : Z;
  r_ano : Z;
  r_valor : double
}.

Record TopRow := {
  t_cnpj : pystr;
  t_razao_social : pystr;
  t_total_despesas : option double
}.

Record UfRow := {
  u_uf : option pystr;
  u_num_operadoras : Z;
  u_total_despesas : option double
}.

(** *** The statements of the handlers *)

(** [WHERE razao_social LIKE ? OR cnpj LIKE ?] on one row: the left term
    first, the right one only when the left one is false. *)
Definition where_like (p1 p2 : pystr) (o : Operadora) : Result bool :=
  match like (razao_social o) p1 with
  | Raise e => Raise e
  | Ok true => Ok true
  | Ok false => like (cnpj o) p2
  end.

Fixpoint scan_where (p1 p2 : pystr) (rows : list Operadora)
  : Result (list Operadora) :=
  match rows with
  | [] => Ok []
  | o :: t =>
      match where_like p1 p2 o with
      | Raise e => Raise e
      | Ok b =>
          match scan_where p1 p2 t with
          | Raise e => Raise e
          | Ok l => Ok (if b then o :: l else l)
          end
      end
  end.

Definition by_razao_social (a b : Operadora) : bool :=
  text_leb (razao_social a) (razao_social b).

(** [LIMIT ? OFFSET ?] after [ORDER BY razao_social]; with a limit of 0
    the table is not read at all. *)
Definition select_page (wh : option (pystr * pystr)) (lim off : Z)
           (db : Store) : Result (list Operadora) :=
  if lim =? 0 then Ok []
  else
    match
      match wh with
      | Some (p1, p2) => scan_where p1 p2 (operadoras db)
      | None => Ok (operadoras db)
      end
    with
    | Raise e => Raise e
    | Ok rows => Ok (limit_offset lim off (order_by by_razao_social rows))
    end.

(** [SELECT cnpj, razao_social, registro_ans, modalidade, uf FROM operadoras
     {where_clause} ORDER BY razao_social LIMIT ? OFFSET ?].
    [where_clause] tells whether the WHERE text is present.  The number of
    values must be the number of [?]; the handler binds text to the
    patterns and ints to LIMIT and OFFSET, other typings are answered as a
    binding error here. *)
Definition query_operadoras (db : Store) (where_clause : bool)
           (params : list sqlval) : Result (list Operadora) :=
  if negb (length params =? (if where_clause then 4 else 2))%nat
  then Raise ProgrammingError
  else
    match bind_params params with
    | Raise e => Raise e
    | Ok [VText p1; VText p2; VInt lim; VInt off] =>
        select_page (Some (p1, p2)) lim off db
    | Ok [VInt lim; VInt off] => select_page None lim off db
    | Ok _ => Raise ProgrammingError
    end.

(** [SELECT COUNT( * ) as total FROM operadoras {where_clause}] *)
Definition count_operadoras (db : Store) (where_clause : bool)
           (params : list sqlval) : Result Z :=
  if negb (length params =? (if where_clause then 2 else 0))%nat
  then Raise ProgrammingError
  else
    match bind_params params with
    | Raise e => Raise e
    | Ok [VText p1; VText p2] =>
        match scan_where p1 p2 (operadoras db) with
        | Raise e => Raise e
        | Ok rows => Ok (Z.of_nat (length rows))
        end
    | Ok [] => Ok (Z.of_nat (length (operadoras db)))
    | Ok _ => Raise ProgrammingError
    end.

(** [SELECT * FROM operadoras WHERE cnpj = ?], [fetchone()] *)
Definition select_operadora (db : Store) (c : pystr) : option Operadora :=
  find (fun o => pystr_eqb (cnpj o) c) (operadoras db).

(** [SELECT razao_social FROM operadoras WHERE cnpj = ?], [fetchone()] *)
Definition select_razao_social (db : Store) (c : pystr) : option pystr :=
  option_map razao_social (select_operadora db c).

(** [ORDER BY ano DESC, trimestre DESC] *)
Definition by_periodo_desc (a b : Despesa) : bool :=
  (ano b <? ano a) || ((ano a =? ano b) && (trimestre b <=? trimestre a)).

Definition despesa_row (d : Despesa) : DespesaRow :=
  {| r_trimestre := trimestre d; r_ano := ano d; r_valor := valor d |}.

Definition despesas_de (db : Store) (c : pystr) : list Despesa :=
  filter (fun d => pystr_eqb (d_cnpj d) c) (despesas db).

(** [SELECT trimestre, ano, valor FROM despesas WHERE cnpj = ?
     ORDER BY ano DESC, trimestre DESC] *)
Definition select_despesas (db : Store) (c : pystr) : list DespesaRow :=
  map despesa_row (order_by by_periodo_desc (despesas_de db c)).

(** [SELECT SUM(valor) as total FROM despesas]: NULL over no rows. *)
Definition sum_valor (db : Store) : option double :=
  match despesas db with
  | [] => None
  | ds => sql_real (rSum (map valor ds))
  end.

(** [SELECT AVG(valor) as media FROM despesas]: the accumulated sum
    divided by the number of rows as a double; NULL over no rows. *)
Definition avg_valor (db : Store) : option double :=
  match despesas db with
  | [] => None
  | ds => sql_real (div (rSum (map valor ds)) (of_int (Z.of_nat (length ds))))
  end.

(** [FROM operadoras o INNER JOIN despesas d ON o.cnpj = d.cnpj], as the
    store runs it for the two statements below: [despesas] is scanned in
    storage order and the operator of each row is looked up by its key. *)
Definition joined (db : Store) : list (Operadora * Despesa) :=
  flat_map (fun d =>
              map (fun o => (o, d))
                  (filter (fun o => pystr_eqb (cnpj o) (d_cnpj d))
                          (operadoras db)))
           (despesas db).

Definition key_eqb (a b : pystr * pystr) : bool :=
  pystr_eqb (fst a) (fst b) && pystr_eqb (snd a) (snd b).

(** The order of the keys [(cnpj, razao_social)] in the sorter. *)
Definition key_leb (a b : pystr * pystr) : bool :=
  if pystr_eqb (fst a) (fst b) then text_leb (snd a) (snd b)
  else text_leb (fst a) (fst b).

Definition by_total_desc (a b : TopRow) : bool :=
  real_leb (t_total_despesas b) (t_total_despesas a).

Definition top_row (g : pystr * pystr * list (Operadora * Despesa)) : TopRow :=
  {| t_cnpj := fst (fst g);
     t_razao_social := snd (fst g);
     t_total_despesas := sql_real (rSum (map (fun od => valor (snd od)) (snd g))) |}.

(** [GROUP BY o.cnpj, o.razao_social] with [SUM(d.valor)] per group. *)
Definition totais_por_operadora (db : Store) : list TopRow :=
  map top_row
      (group_by key_eqb key_leb
                (fun od => (cnpj (fst od), razao_social (fst od)))
                (joined db)).

(** [... ORDER BY total_despesas DESC LIMIT 5]: rows of equal total stay
    in the order of their groups. *)
Definition select_top (db : Store) : list TopRow :=
  limit_offset 5 0 (order_by by_total_desc (totais_por_operadora db)).

Definition uf_eqb (a b : option pystr) : bool :=
  match a, b with
  | Some x, Some y => pystr_eqb x y
  | None, None => true
  | _, _ => false
  end.

Definition uf_row (g : option pystr * list (Operadora * Despesa)) : UfRow :=
  {| u_uf := fst g;
     u_num_operadoras :=
       Z.of_nat (length (distinct pystr_eqb
                                  (map (fun od => cnpj (fst od)) (snd g))));
     u_total_despesas := sql_real (rSum (map (fun od => valor (snd od)) (snd g))) |}.

Definition by_uf_total_desc (a b : UfRow) : bool :=
  real_leb (u_total_despesas b) (u_total_despesas a).

(** The order of the keys [uf] in the sorter of this statement: GROUP BY
    and ORDER BY have one term each, and the store then sorts the groups
    in the direction of the ORDER BY, descending, NULL last. *)
Definition uf_geb (a b : option pystr) : bool :=
  match a, b with
  | _, None => true
  | None, Some _ => false
  | Some x, Some y => text_leb y x
  end.

(** [SELECT o.uf, COUNT(DISTINCT o.cnpj), SUM(d.valor) ... GROUP BY o.uf
     ORDER BY total_despesas DESC] *)
Definition select_distribuicao_uf (db : Store) : list UfRow :=
  order_by by_uf_total_desc
           (map uf_row
                (group_by uf_eqb uf_geb (fun od => uf (fst od)) (joined db))).

(* ================================================================== *)
(** ** Responses *)

(** The envelope of [listar_operadoras]. *)
Record Pagina := {
  data : list Operadora;
  page : Z;
  limit : Z;
  total : Z;
  total_pages : Z
}.

Record Historico := {
  h_cnpj : pystr;
  h_razao_social : pystr;
  h_despesas : list DespesaRow
}.

Record Resumo := {
  total_despesas : number;
  media_despesas : number;
  num_operadoras : Z
}.

Record Estatisticas := {
  resumo : Resumo;
  top_operadoras : list TopRow;
  distribuicao_uf : list UfRow
}.

Inductive Body :=
| JErro (erro : pystr)
| JPagina (p : Pagina)
| JOperadora (o : Operadora)
| JHistorico (h : Historico)
| JEstatisticas (e : Estatisticas).

Record Response := {
  status : Z;
  body : Body
}.

(** [jsonify(b)] and [jsonify(b), code] *)
Definition jsonify (b : Body) : Response := {| status := 200; body := b |}.
Definition jsonify_with (b : Body) (code : Z) : Response :=
  {| status := code; body := b |}.

(** ['Operadora não encontrada'] *)
Definition operadora_nao_encontrada : pystr :=
  str "Operadora n" ++ [227%N] ++ str "o encontrada".

(* ================================================================== *)
(** ** Process state and handler computations *)

(** [cache_estatisticas]; [timestamp] and the clock count microseconds,
    [timeout] counts seconds. *)
Record Cache := {
  dados : option Estatisticas;
  timestamp : option Z;
  timeout : Z
}.

Definition cache_inicial : Cache :=
  {| dados := None; timestamp := None; timeout := 300 |}.

(** The statements a handler sends to the store. *)
Inductive Statement :=
| SelectPage (where_clause : bool) (params : list sqlval)
| SelectCount (where_clause : bool) (params : list sqlval)
| SelectOperadora (c : pystr)
| SelectRazaoSocial (c : pystr)
| SelectDespesas (c : pystr)
| SelectSum
| SelectAvg
| SelectTop
| SelectDistribuicaoUf.

Record World := {
  cache_estatisticas : Cache;
  executed : list Statement
}.

Definition M (A : Type) : Type := World -> Result A * World.

Definition ret {A} (a : A) : M A := fun w => (Ok a, w).

Definition bind {A B} (m : M A) (k : A -> M B) : M B :=
  fun w =>
    match m w with
    | (Ok a, w') => k a w'
    | (Raise e, w') => (Raise e, w')
    end.

Notation "x <- m ;; k" := (bind m (fun x => k))
  (at level 61, m at next level, right associativity).

Definition lift {A} (r : Result A) : M A := fun w => (r, w).

(** [conn.execute(...)]: the statement reaches the store and its answer
    (or its exception) comes back. *)
Definition execute {A} (s : Statement) (r : Result A) : M A :=
  fun w =>
    (r, {| cache_estatisticas := cache_estatisticas w;
           executed := executed w ++ [s] |}).

Definition get_cache : M Cache := fun w => (Ok (cache_estatisticas w), w).

Definition set_dados (d : Estatisticas) : M unit :=
  fun w =>
    (Ok tt,
     {| cache_estatisticas :=
          {| dados := Some d;
             timestamp := timestamp (cache_estatisticas w);
             timeout := timeout (cache_estatisticas w) |};
        executed := executed w |}).

Definition set_timestamp (t : Z) : M unit :=
  fun w =>
    (Ok tt,
     {| cache_estatisticas :=
          {| dados := dados (cache_estatisticas w);
             timestamp := Some t;
             timeout := timeout (cache_estatisticas w) |};
        executed := executed w |}).

(** [request.args]: the pairs of the query string, first value wins. *)
Definition Args := list (pystr * pystr).

Definition args_get (args : Args) (k : pystr) : option pystr :=
  option_map snd (find (fun kv => pystr_eqb (fst kv) k) args).

(** [int(request.args.get(k, default))] *)
Definition int_arg (args : Args) (k : pystr) (default : Z) : Result Z :=
  match args_get args k with
  | Some s => Py.int s
  | None => Ok default
  end.

(* ================================================================== *)
(** ** The handlers *)

(** [GET /api/operadoras] *)
Definition listar_operadoras (db : Store) (args : Args) : M Response :=
  page <- lift (int_arg args (str "page") 1) ;;
  limit0 <- lift (int_arg args (str "limit") 10) ;;
  let limit := Z.min limit0 100 in
  let offset := (page - 1) * limit in
  let busca :=
    strip (match args_get args (str "busca") with Some s => s | None => [] end) in
  let filtra := match busca with [] => false | _ :: _ => true end in
  let where_clause := filtra in
  let params :=
    if filtra
    then [VText ([percent] ++ busca ++ [percent]);
          VText ([percent] ++ busca ++ [percent])]
    else [] in
  let params := params ++ [VInt limit; VInt offset] in
  operadoras <- execute (SelectPage where_clause params)
                        (query_operadoras db where_clause params) ;;
  let count_params :=
    if filtra then firstn (length params - 2) params else [] in
  total <- execute (SelectCount where_clause count_params)
                   (count_operadoras db where_clause count_params) ;;
  total_pages <- lift (floordiv (total + limit - 1) limit) ;;
  ret (jsonify (JPagina {| data := operadoras;
                           page := page;
                           limit := limit;
                           total := total;
                           total_pages := total_pages |})).

(** [GET /api/operadoras/<cnpj>] *)
Definition detalhes_operadora (db : Store) (c : pystr) : M Response :=
  operadora <- execute (SelectOperadora c) (Ok (select_operadora db c)) ;;
  match operadora with
  | None => ret (jsonify_with (JErro operadora_nao_encontrada) 404)
  | Some o => ret (jsonify (JOperadora o))
  end.

(** [GET /api/operadoras/<cnpj>/despesas] *)
Definition historico_despesas (db : Store) (c : pystr) : M Response :=
  operadora <- execute (SelectRazaoSocial c) (Ok (select_razao_social db c)) ;;
  match operadora with
  | None => ret (jsonify_with (JErro operadora_nao_encontrada) 404)
  | Some nome =>
      despesas <- execute (SelectDespesas c) (Ok (select_despesas db c)) ;;
      ret (jsonify (JHistorico {| h_cnpj := c;
                                  h_razao_social := nome;
                                  h_despesas := despesas |}))
  end.

(** The cached value, when it may still be served at time [agora]. *)
Definition cache_valido (c : Cache) (agora : Z) : option Estatisticas :=
  match dados c, timestamp c with
  | Some d, Some t =>
      let tempo_decorrido := agora - t in
      if tempo_decorrido <? timeout c * 1000000 then Some d else None
  | _, _ => None
  end.

(** [GET /api/estatisticas]; [agora] is what [datetime.now()] reads. *)
Definition estatisticas (db : Store) (agora : Z) : M Response :=
  c <- get_cache ;;
  match cache_valido c agora with
  | Some d => ret (jsonify (JEstatisticas d))
  | None =>
      total <- execute SelectSum (Ok (sum_valor db)) ;;
      let total_despesas := or_zero total in
      media <- execute SelectAvg (Ok (avg_valor db)) ;;
      let media_despesas := or_zero media in
      top_operadoras <- execute SelectTop (Ok (select_top db)) ;;
      distribuicao_uf <-
        execute SelectDistribuicaoUf (Ok (select_distribuicao_uf db)) ;;
      let resultado :=
        {| resumo :=
             {| total_despesas := round2 total_despesas;
                media_despesas := round2 media_despesas;
                num_operadoras := Z.of_nat (length top_operadoras) |};
           top_operadoras := top_operadoras;
           distribuicao_uf := distribuicao_uf |} in
      _ <- set_dados resultado ;;
      _ <- set_timestamp agora ;;
      ret (jsonify (JEstatisticas resultado))
  end.

(** What the client sees of an exception: Flask answers 500. *)
Definition http_status (r : Result Response) : Z :=
  match r with
  | Ok resp => status resp
  | Raise _ => 500
  end.

Definition mundo_inicial : World :=
  {| cache_estatisticas := cache_inicial; executed := [] |}.

(* ================================================================== *)
(** ** Vocabulary of the statements about the handlers *)

(** The filter text of a request: [request.args.get('busca', '').strip()]. *)
Definition busca_de (args : Args) : pystr :=
  strip (match args_get args (str "busca") with Some s => s | None => [] end).

(** The pattern [f'%{busca}%']. *)
Definition padrao (busca : pystr) : pystr := [percent] ++ busca ++ [percent].

Definition padrao_aceito (busca : pystr) : Prop :=
  utf8_len (padrao busca) <= max_like_pattern_length.

(** The WHERE text is present exactly when the filter text is not empty,
    and then the pattern is bound twice. *)
Definition tem_busca (busca : pystr) : bool :=
  match busca with [] => false | _ :: _ => true end.

Definition params_busca (busca : pystr) : list sqlval :=
  if tem_busca busca
  then [VText (padrao busca); VText (padrao busca)]
  else [].

(** [razao_social LIKE '%busca%' OR cnpj LIKE '%busca%'] on one row. *)
Definition casa_like (busca : pystr) (o : Operadora) : bool :=
  like_match (c_str (padrao busca)) (c_str (razao_social o))
  || like_match (c_str (padrao busca)) (c_str (cnpj o)).

Definition filtradas (db : Store) (busca : pystr) : list Operadora :=
  filter (casa_like busca) (operadoras db).

Definition ordenadas (db : Store) (busca : pystr) : list Operadora :=
  order_by by_razao_social (filtradas db busca).

(** The predicate in the words of the specification: the filter text
    occurs in the column as a substring (letters compared as the store
    compares them, without regard to ASCII case). *)
Fixpoint spec_prefix (p s : pystr) : bool :=
  match p, s with
  | [], _ => true
  | _ :: _, [] => false
  | a :: p', b :: s' => char_eq_nocase a b && spec_prefix p' s'
  end.

Fixpoint spec_substring (p s : pystr) : bool :=
  spec_prefix p s
  || match s with [] => false | _ :: s' => spec_substring p s' end.

Definition spec_casa (busca : pystr) (o : Operadora) : bool :=
  spec_substring busca (razao_social o) || spec_substring busca (cnpj o).

(** Text free of the characters LIKE treats specially. *)
Definition literal (s : pystr) : Prop :=
  Forall (fun c => c <> percent /\ c <> underscore /\ c <> 0%N) s.

Definition sem_nul (s : pystr) : Prop := Forall (fun c => c <> 0%N) s.

(** The order of the history: later year first, later quarter first within
    a year. *)
Definition periodo_desc (a b : DespesaRow) : Prop :=
  r_ano b < r_ano a \/ (r_ano a = r_ano b /\ r_trimestre b <= r_trimestre a).

(** The expense records of the tax identifier [c], in the words of the
    specification: [registros_de c l r] when [r] holds the records of [l]
    that carry [c], all of them, in the order of [l]. *)
Inductive registros_de (c : pystr) : list Despesa -> list Despesa -> Prop :=
| registros_nil : registros_de c [] []
| registros_seu (d : Despesa) (l r : list Despesa) :
    d_cnpj d = c -> registros_de c l r -> registros_de c (d :: l) (d :: r)
| registros_alheio (d : Despesa) (l r : list Despesa) :
    d_cnpj d <> c -> registros_de c l r -> registros_de c (d :: l) r.

(** The three columns the history shows of a record. *)
Definition campos (d : Despesa) : DespesaRow :=
  {| r_trimestre := trimestre d; r_ano := ano d; r_valor := valor d |}.

(** Sums of rationals, and the sum of amounts as the rationals they
    stand for: the sum of the specification, free of rounding. *)
Definition qsum (l : list Q) : Q := fold_right Qplus 0%Q l.

Definition soma_exata (l : list double) : Q := qsum (map exact l).

(** The sum of the own expense amounts of a tax identifier. *)
Fixpoint soma_de (c : pystr) (ds : list Despesa) : Q :=
  match ds with
  | [] => 0%Q
  | d :: t =>
      if list_eq_dec N.eq_dec (d_cnpj d) c
      then (exact (valor d) + soma_de c t)%Q
      else soma_de c t
  end.

Definition soma_propria (db : Store) (o : Operadora) : Q :=
  soma_de (cnpj o) (despesas db).

(** An amount that is a whole number from 0 to below 2^53, the range in
    which every whole number is a double; a store of such amounts whose
    sum stays in that range. *)
Definition inteiro (x : double) : Prop :=
  exists n : Z, 0 <= n < 2 ^ 53 /\ x = of_int n.

Definition valores_inteiros (db : Store) : Prop :=
  Forall (fun d => inteiro (valor d)) (despesas db)
  /\ (soma_exata (map valor (despesas db)) < inject_Z (2 ^ 53))%Q.

(** The double of a whole number [0 < n < 2^53]: the 53-bit significand
    [n * 2^(52 - log2 n)] at the exponent [log2 n - 52]. *)
Definition whole (s : bool) (n : Z) : double :=
  S754_finite s (Z.to_pos (n * 2 ^ (52 - Z.log2 n))) (Z.log2 n - 52).

(** The place of a double in the order of [leb]: sign class, exponent and
    significand, compared from the left. *)
Definition rank (x : double) : Z * (Z * Z) :=
  match x with
  | S754_nan => (0, (0, 0))
  | S754_zero _ => (0, (0, 0))
  | S754_infinity true => (-2, (0, 0))
  | S754_infinity false => (2, (0, 0))
  | S754_finite true m e => (-1, (- e, - Zpos m))
  | S754_finite false m e => (1, (e, Zpos m))
  end.

Definition lex_le (a b : Z * (Z * Z)) : Prop :=
  fst a < fst b
  \/ (fst a = fst b
      /\ (fst (snd a) < fst (snd b)
          \/ (fst (snd a) = fst (snd b) /\ snd (snd a) <= snd (snd b)))).

(** The value of a number of a response. *)
Definition numero (x : number) : Q :=
  match x with
  | PyInt z => inject_Z z
  | PyFloat d => exact d
  end.

Definition total_exato (t : option double) : Q :=
  match t with
  | Some x => exact x
  | None => 0%Q
  end.




(** The rows of one operator as the statements select them. *)
Definition tem_despesas (db : Store) (o : Operadora) : bool :=
  match despesas_de db (cnpj o) with [] => false | _ :: _ => true end.

(** The row of the ranking for one operator. *)
Definition linha_total (db : Store) (o : Operadora) : TopRow :=
  {| t_cnpj := cnpj o;
     t_razao_social := razao_social o;
     t_total_despesas :=
       sql_real (rSum (map valor (despesas_de db (cnpj o)))) |}.

Definition com_despesas (db : Store) : list Operadora :=
  filter (tem_despesas db) (operadoras db).


(** What a recomputation of the statistics yields on a store. *)
Definition estatisticas_de (db : Store) : Estatisticas :=
  {| resumo :=
       {| total_despesas := round2 (or_zero (sum_valor db));
          media_despesas := round2 (or_zero (avg_valor db));
          num_operadoras := Z.of_nat (length (select_top db)) |};
     top_operadoras := select_top db;
     distribuicao_uf := select_distribuicao_uf db |}.

(** The statements of a recomputation, in the order they are sent. *)
Definition consultas_estatisticas : list Statement :=
  [SelectSum; SelectAvg; SelectTop; SelectDistribuicaoUf].


(* ================================================================== *)
(** ** Sample stores and requests *)

Definition operadora_ex (c r u : string) : Operadora :=
  {| cnpj := str c; razao_social := str r; registro_ans := None;
     modalidade := None; uf := Some (str u) |}.

Definition despesa_ex (i : Z) (c : string) (t a : Z) (v : Z) : Despesa :=
  {| id := i; d_cnpj := str c; trimestre := t; ano := a;
     valor := of_int v |}.

(** Operators A (expenses 100 and 200), B (none) and C (50). *)
Definition db_exemplo : Store :=
  {| operadoras := [operadora_ex "A" "Alfa" "SP"; operadora_ex "B" "Beta" "RJ";
                    operadora_ex "C" "Gama" "SP"];
     despesas := [despesa_ex 1 "A" 1 2024 100; despesa_ex 2 "A" 2 2024 200;
                  despesa_ex 3 "C" 1 2024 50] |}.

(** Operator X with records (Q1,2024), (Q3,2024), (Q2,2023). *)
Definition db_historico : Store :=
  {| operadoras := [operadora_ex "X" "Xis" "MG"];
     despesas := [despesa_ex 1 "X" 1 2024 10; despesa_ex 2 "X" 3 2024 30;
                  despesa_ex 3 "X" 2 2023 20] |}.



Definition pedido (l : list (string * string)) : Args :=
  map (fun kv => (str (fst kv), str (snd kv))) l.

(* ================================================================== *)
(** ** Vocabulary of the further properties *)

(** The slice of an answer of the listing; no rows when it raised. *)
Definition dados_de (r : Result Response) : list Operadora :=
  match r with
  | Ok {| body := JPagina pg |} => data pg
  | _ => []
  end.

(** Legal names in ascending order of the BINARY collation. *)
Definition razao_asc (a b : Operadora) : Prop :=
  text_leb (razao_social a) (razao_social b) = true.

(** Every expense row belongs to an operator of the store. *)
Definition integridade_referencial (db : Store) : Prop :=
  forall d, In d (despesas db) ->
            exists o, In o (operadoras db) /\ cnpj o = d_cnpj d.

Definition uf_total_desc (a b : UfRow) : Prop :=
  real_leb (u_total_despesas b) (u_total_despesas a) = true.

(** The operators of one region. *)
Definition operadoras_da_uf (db : Store) (u : option pystr) : list Operadora :=
  filter (fun o => uf_eqb (uf o) u) (operadoras db).

(** Successive calls of the statistics endpoint, one after the other;
    each call comes with the store as it is then and with the time its
    [datetime.now()] reads. *)
Fixpoint atender (calls : list (Store * Z)) (w : World)
  : list (Result Response) * World :=
  match calls with
  | [] => ([], w)
  | (db, agora) :: rest =>
      let (r, w1) := estatisticas db agora w in
      let (rs, w2) := atender rest w1 in
      (r :: rs, w2)
  end.

(** Five minutes, in microseconds. *)
Definition cinco_minutos : Z := 300 * 1000000.

(** What the cache holds was computed by an earlier call. *)
Definition cache_de (pre : list (Store * Z)) (w : World) : Prop :=
  timeout (cache_estatisticas w) = 300
  /\ forall d t,
      dados (cache_estatisticas w) = Some d ->
      timestamp (cache_estatisticas w) = Some t ->
      exists db, In (db, t) pre /\ d = estatisticas_de db.

(* ------------------------------------------------------------------ *)
(** *** [init_db] *)

(** [str(n)] for an int: decimal digits, a minus sign when negative;
    refused beyond 4300 digits like [int]. *)
Fixpoint uint_digits (u : Decimal.uint) : pystr :=
  match u with
  | Decimal.Nil => []
  | Decimal.D0 u' => 48%N :: uint_digits u'
  | Decimal.D1 u' => 49%N :: uint_digits u'
  | Decimal.D2 u' => 50%N :: uint_digits u'
  | Decimal.D3 u' => 51%N :: uint_digits u'
  | Decimal.D4 u' => 52%N :: uint_digits u'
  | Decimal.D5 u' => 53%N :: uint_digits u'
  | Decimal.D6 u' => 54%N :: uint_digits u'
  | Decimal.D7 u' => 55%N :: uint_digits u'
  | Decimal.D8 u' => 56%N :: uint_digits u'
  | Decimal.D9 u' => 57%N :: uint_digits u'
  end.

Definition py_str (z : Z) : Result pystr :=
  let ds := match z with
            | Z0 => [48%N]
            | Zpos p | Zneg p => uint_digits (Pos.to_uint p)
            end in
  if (max_str_digits <? N.of_nat (length ds))%N then Raise ValueError
  else Ok (match z with Zneg _ => 45%N :: ds | _ => ds end).

(** The database file: each table may not exist yet; [despesas] comes
    with the counter AUTOINCREMENT keeps for it (0 when never used). *)
Record Arquivo := {
  tab_operadoras : option (list Operadora);
  tab_despesas : option (list Despesa * Z)
}.

(** The store the handlers read, once both tables exist. *)
Definition store_de (f : Arquivo) : option Store :=
  match tab_operadoras f, tab_despesas f with
  | Some ops, Some (ds, _) => Some {| operadoras := ops; despesas := ds |}
  | _, _ => None
  end.

Definition semente (c r reg m u : pystr) : Operadora :=
  {| cnpj := c; razao_social := r; registro_ans := Some reg;
     modalidade := Some m; uf := Some u |}.

(** [operadoras_exemplo] *)
Definition operadoras_exemplo : list Operadora :=
  [ semente (str "12.345.678/0001-90")
            (str "Operadora Sa" ++ [250%N] ++ str "de Bem Estar Ltda")
            (str "123456") (str "Medicina de Grupo") (str "SP");
    semente (str "98.765.432/0001-10")
            (str "Plano Sa" ++ [250%N] ++ str "de Total S.A.")
            (str "654321") (str "Cooperativa M" ++ [233%N] ++ str "dica")
            (str "RJ");
    semente (str "11.222.333/0001-44")
            (str "Assist" ++ [234%N] ++ str "ncia M" ++ [233%N]
             ++ str "dica Premium")
            (str "111222") (str "Seguradora") (str "MG");
    semente (str "44.555.666/0001-77")
            (str "Sa" ++ [250%N] ++ str "de Plus Operadora")
            (str "444555") (str "Autogest" ++ [227%N] ++ str "o") (str "SP");
    semente (str "77.888.999/0001-33")
            (str "Vida Saud" ++ [225%N] ++ str "vel Planos")
            (str "777888") (str "Medicina de Grupo") (str "RJ") ].

(** [INSERT OR IGNORE INTO operadoras VALUES (?, ?, ?, ?, ?)]: a row whose
    [cnpj] is already in the table is skipped. *)
Definition insert_or_ignore (ops : list Operadora) (o : Operadora)
  : list Operadora :=
  if existsb (fun x => pystr_eqb (cnpj x) (cnpj o)) ops then ops
  else ops ++ [o].

(** A row of [despesas_exemplo]: cnpj, trimestre, ano, valor. *)
Record LinhaDespesa := {
  l_cnpj : pystr;
  l_trimestre : Z;
  l_ano : Z;
  l_valor : double
}.

Fixpoint sequence {A} (l : list (Result A)) : Result (list A) :=
  match l with
  | [] => Ok []
  | r :: t =>
      match r with
      | Raise e => Raise e
      | Ok a =>
          match sequence t with
          | Raise e => Raise e
          | Ok t' => Ok (a :: t')
          end
      end
  end.

Section InitDb.
(** Python's [hash] on strings, which differs from process to process. *)
Variable hash : pystr -> Z.

(** [valor = 100000.00 + (hash(cnpj + str(trimestre)) % 500000)]: the
    int is converted to a float and the two floats are added. *)
Definition linha_exemplo (c : pystr) (trimestre ano : Z) : Result LinhaDespesa :=
  match py_str trimestre with
  | Raise e => Raise e
  | Ok s =>
      Ok {| l_cnpj := c; l_trimestre := trimestre; l_ano := ano;
            l_valor := add (of_int 100000)
                           (of_int (hash (c ++ s) mod 500000)) |}
  end.

(** The three nested loops that fill [despesas_exemplo]. *)
Definition despesas_exemplo : Result (list LinhaDespesa) :=
  sequence
    (flat_map (fun o =>
       flat_map (fun trimestre =>
         map (fun ano => linha_exemplo (cnpj o) trimestre ano) [2024])
         [1; 2; 3])
       operadoras_exemplo).

(** [INSERT OR IGNORE INTO despesas (cnpj, trimestre, ano, valor) VALUES
    (?, ?, ?, ?)]: the id is one above the largest id the table holds or
    has ever held; when that is the largest INTEGER the insert fails (the
    table has no other constraint a row could violate). *)
Definition insert_despesa (st : list Despesa * Z) (l : LinhaDespesa)
  : Result (list Despesa * Z) :=
  let m := fold_right Z.max (snd st) (map id (fst st)) in
  if int64_max <=? m then Raise OperationalError
  else Ok (fst st ++ [{| id := m + 1; d_cnpj := l_cnpj l;
                         trimestre := l_trimestre l; ano := l_ano l;
                         valor := l_valor l |}],
           m + 1).

Fixpoint insert_despesas (st : list Despesa * Z) (ls : list LinhaDespesa)
  : Result (list Despesa * Z) :=
  match ls with
  | [] => Ok st
  | l :: t =>
      match insert_despesa st l with
      | Raise e => Raise e
      | Ok st' => insert_despesas st' t
      end
  end.

(** [init_db()]: both tables are created when missing; the inserts form
    one transaction, committed at the end and undone as a whole when a
    statement fails. *)
Definition init_db (f : Arquivo) : Result unit * Arquivo :=
  let ops0 := match tab_operadoras f with Some l => l | None => [] end in
  let des0 := match tab_despesas f with Some x => x | None => ([], 0) end in
  let criado := {| tab_operadoras := Some ops0; tab_despesas := Some des0 |} in
  let ops1 := fold_left insert_or_ignore operadoras_exemplo ops0 in
  match despesas_exemplo with
  | Raise e => (Raise e, criado)
  | Ok linhas =>
      match insert_despesas des0 linhas with
      | Raise e => (Raise e, criado)
      | Ok des1 =>
          (Ok tt, {| tab_operadoras := Some ops1; tab_despesas := Some des1 |})
      end
  end.
End InitDb.

(** The largest id the table [despesas] holds or has held. *)
Definition maior_id (f : Arquivo) : Z :=
  match tab_despesas f with
  | Some (ds, seq) => fold_right Z.max seq (map id ds)
  | None => 0
  end.

Definition linhas_de (f : Arquivo) : list Despesa :=
  match tab_despesas f with Some (ds, _) => ds | None => [] end.

Definition operadoras_de (f : Arquivo) : list Operadora :=
  match tab_operadoras f with Some l => l | None => [] end.

(** A file that does not exist yet. *)
Definition arquivo_novo : Arquivo :=
  {| tab_operadoras := None; tab_despesas := None |}.

(** The rows [ls] as they enter the table after id [m]: ids [m + 1],
    [m + 2], ... in order. *)
Fixpoint numerar (m : Z) (ls : list LinhaDespesa) : list Despesa :=
  match ls with
  | [] => []
  | l :: t =>
      {| id := m + 1; d_cnpj := l_cnpj l; trimestre := l_trimestre l;
         ano := l_ano l; valor := l_valor l |} :: numerar (m + 1) t
  end.

(** What every seeded expense row looks like. *)
Definition despesa_semeada (d : Despesa) : Prop :=
  In (d_cnpj d) (map cnpj operadoras_exemplo)
  /\ 1 <= trimestre d <= 3
  /\ ano d = 2024
  /\ exists n : Z, 100000 <= n < 600000 /\ valor d = of_int n.

(** What every row of [despesas_exemplo] looks like. *)
Definition linha_semeada (l : LinhaDespesa) : Prop :=
  In (l_cnpj l) (map cnpj operadoras_exemplo)
  /\ 1 <= l_trimestre l <= 3
  /\ l_ano l = 2024
  /\ exists n : Z, 100000 <= n < 600000 /\ l_valor l = of_int n.

(* ================================================================== *)
(** * Properties *)

(** ** Doubles: whole numbers below 2^53 are exact *)
(** The number of bits of a significand. *)
Lemma digits2_log2 (p : positive) :
  Zpos (digits2_pos p) = Z.log2 (Zpos p) + 1.
Proof.
  assert (H : forall q, digits2_pos q = Pos.size q).
  { induction q; simpl; congruence. }
  destruct p; simpl; rewrite ?H; lia.
Qed.

Lemma Zdigits2_log2 (m : Z) : 0 < m -> Zdigits2 m = Z.log2 m + 1.
Proof. destruct m; try lia. intros _. apply digits2_log2. Qed.

Lemma iter_pos_nat {A} (f : A -> A) (p : positive) (x : A) :
  iter_pos f p x = Nat.iter (Pos.to_nat p) f x.
Proof.
  revert x. induction p as [p IH|p IH|]; intros x; simpl iter_pos.
  - rewrite !IH, Pos2Nat.inj_xI.
    replace (S (2 * Pos.to_nat p)) with (Pos.to_nat p + (Pos.to_nat p + 1))%nat by lia.
    rewrite !Nat.iter_add. reflexivity.
  - rewrite !IH, Pos2Nat.inj_xO.
    replace (2 * Pos.to_nat p)%nat with (Pos.to_nat p + Pos.to_nat p)%nat by lia.
    rewrite Nat.iter_add. reflexivity.
  - reflexivity.
Qed.

Lemma shr_1_even (m : Z) :
  0 <= m ->
  shr_1 {| shr_m := 2 * m; shr_r := false; shr_s := false |}
  = {| shr_m := m; shr_r := false; shr_s := false |}.
Proof. destruct m; try lia; reflexivity. Qed.

Lemma iter_shr_1_exact (n : nat) (m : Z) :
  0 <= m ->
  Nat.iter n shr_1 {| shr_m := m * 2 ^ Z.of_nat n; shr_r := false; shr_s := false |}
  = {| shr_m := m; shr_r := false; shr_s := false |}.
Proof.
  revert m. induction n as [|n IH]; intros m Hm.
  - simpl. now rewrite Z.mul_1_r.
  - rewrite Nat2Z.inj_succ, Z.pow_succ_r by lia.
    rewrite Nat.iter_succ_r.
    replace (m * (2 * 2 ^ Z.of_nat n)) with (2 * (m * 2 ^ Z.of_nat n)) by ring.
    rewrite shr_1_even by (apply Z.mul_nonneg_nonneg; [lia | apply Z.pow_nonneg; lia]).
    now apply IH.
Qed.

(** Shifting out [j] zero bits loses nothing. *)
Lemma shr_exact (m e j : Z) :
  0 <= m -> 0 <= j ->
  shr {| shr_m := m * 2 ^ j; shr_r := false; shr_s := false |} e j
  = ({| shr_m := m; shr_r := false; shr_s := false |}, e + j).
Proof.
  intros Hm Hj. destruct j as [|p|p]; try lia.
  - simpl. now rewrite Z.mul_1_r, Z.add_0_r.
  - unfold shr. rewrite iter_pos_nat.
    rewrite <- (positive_nat_Z p) at 1.
    now rewrite iter_shr_1_exact.
Qed.

Lemma iter_xO (m d : positive) : Zpos (Pos.iter xO m d) = Zpos m * 2 ^ Zpos d.
Proof.
  induction d as [|d IH] using Pos.peano_ind.
  - simpl. lia.
  - rewrite Pos.iter_succ, Pos2Z.inj_xO, IH, Pos2Z.inj_succ, Z.pow_succ_r by lia.
    ring.
Qed.

Lemma fexp_normal (d : Z) : -1021 <= d -> fexp prec emax d = d - 53.
Proof. intros H. unfold fexp, emin, prec, emax. lia. Qed.

Lemma log2_scaled (n k : Z) : 0 < n -> 0 <= k -> Z.log2 (n * 2 ^ k) = Z.log2 n + k.
Proof. intros. rewrite Z.log2_mul_pow2 by lia. lia. Qed.

(** Rounding the whole number [n], given with [k] extra zero bits, yields
    its double: nothing is rounded away. *)
Lemma round_aux_scaled (s : bool) (n k : Z) :
  0 < n < 2 ^ 53 -> 52 - Z.log2 n <= k ->
  binary_round_aux prec emax s (n * 2 ^ k) (- k) loc_Exact = whole s n.
Proof.
  intros Hn Hk.
  assert (Hl : 0 <= Z.log2 n < 53).
  { split; [apply Z.log2_nonneg|]. apply Z.log2_lt_pow2; lia. }
  assert (Hk0 : 0 <= k) by lia.
  assert (Hpos : 0 < n * 2 ^ k) by (apply Z.mul_pos_pos; [lia | apply Z.pow_pos_nonneg; lia]).
  set (j := k - (52 - Z.log2 n)).
  set (m := n * 2 ^ (52 - Z.log2 n)).
  assert (Hm : 0 < m) by (apply Z.mul_pos_pos; [lia | apply Z.pow_pos_nonneg; lia]).
  assert (Hsplit : n * 2 ^ k = m * 2 ^ j).
  { unfold m, j. rewrite <- Z.mul_assoc, <- Z.pow_add_r by lia. f_equal. f_equal. lia. }
  unfold binary_round_aux, shr_fexp.
  rewrite (Zdigits2_log2 _ Hpos), log2_scaled by lia.
  rewrite fexp_normal by lia.
  replace (Z.log2 n + k + 1 + - k - 53 - - k) with j by (unfold j; lia).
  cbn [shr_record_of_loc]. rewrite Hsplit.
  rewrite shr_exact by (unfold j; lia).
  cbn [shr_m loc_of_shr_record round_nearest_even].
  assert (Hlm : Z.log2 m = 52) by (unfold m; rewrite log2_scaled by lia; lia).
  rewrite (Zdigits2_log2 _ Hm), Hlm.
  rewrite fexp_normal by (unfold j; lia).
  replace (52 + 1 + (- k + j) - 53 - (- k + j)) with 0 by lia.
  cbn [shr shr_m].
  destruct m as [|p|p] eqn:Em; try lia.
  replace (- k + j) with (Z.log2 n - 52) by (unfold j; lia).
  replace (Z.log2 n - 52 <=? emax - prec) with true
    by (symmetry; apply Z.leb_le; unfold emax, prec; lia).
  unfold whole. fold m. rewrite Em. reflexivity.
Qed.

Lemma round_scaled (s : bool) (n : Z) (M : positive) (k : Z) :
  0 < n < 2 ^ 53 -> 0 <= k -> Zpos M = n * 2 ^ k ->
  binary_round prec emax s M (- k) = whole s n.
Proof.
  intros Hn Hk HM.
  assert (Hl : 0 <= Z.log2 n < 53).
  { split; [apply Z.log2_nonneg|]. apply Z.log2_lt_pow2; lia. }
  unfold binary_round, shl_align.
  rewrite digits2_log2, HM, log2_scaled by lia.
  rewrite fexp_normal by lia.
  destruct (Z.log2 n + k + 1 + - k - 53 - - k) as [|p|p] eqn:E.
  - rewrite HM. apply round_aux_scaled; lia.
  - rewrite HM. apply round_aux_scaled; lia.
  - rewrite iter_xO, HM, <- Z.mul_assoc, <- Z.pow_add_r by lia.
    replace (k + Z.pos p) with (52 - Z.log2 n) by lia.
    replace (Z.log2 n + k + 1 + - k - 53) with (- (52 - Z.log2 n)) by lia.
    apply round_aux_scaled; lia.
Qed.

Lemma of_int_whole (n : Z) : 0 < n < 2 ^ 53 -> of_int n = whole false n.
Proof.
  intros Hn. unfold of_int, binary_normalize.
  destruct n as [|p|p]; try lia.
  apply (round_scaled false (Zpos p) p 0); try lia.
Qed.

Lemma of_int_0 : of_int 0 = zero.
Proof. reflexivity. Qed.

Lemma whole_mantissa (n : Z) :
  0 < n < 2 ^ 53 ->
  Zpos (Z.to_pos (n * 2 ^ (52 - Z.log2 n))) = n * 2 ^ (52 - Z.log2 n)
  /\ 0 <= Z.log2 n <= 52.
Proof.
  intros Hn.
  assert (Hl : 0 <= Z.log2 n < 53).
  { split; [apply Z.log2_nonneg|]. apply Z.log2_lt_pow2; lia. }
  split; [|lia]. apply Z2Pos.id.
  apply Z.mul_pos_pos; [lia | apply Z.pow_pos_nonneg; lia].
Qed.

Lemma shl_align_fst (m : positive) (e ez : Z) :
  ez <= e -> Zpos (fst (shl_align m e ez)) = Zpos m * 2 ^ (e - ez).
Proof.
  intros H. unfold shl_align.
  destruct (ez - e) as [|p|p] eqn:E; cbn [fst].
  - replace (e - ez) with 0 by lia. simpl. lia.
  - lia.
  - rewrite iter_xO. f_equal. f_equal. lia.
Qed.

(** The sum of two whole numbers is exact while it stays below 2^53. *)
Lemma add_whole (a b : Z) :
  0 <= a -> 0 <= b -> a + b < 2 ^ 53 ->
  add (of_int a) (of_int b) = of_int (a + b).
Proof.
  intros Ha Hb Hab.
  destruct (Z.eq_dec b 0) as [->|Hb0].
  { rewrite Z.add_0_r. destruct (Z.eq_dec a 0) as [->|Ha0]; [reflexivity|].
    now rewrite of_int_0, of_int_whole by lia. }
  destruct (Z.eq_dec a 0) as [->|Ha0].
  { now rewrite of_int_0, Z.add_0_l, of_int_whole by lia. }
  rewrite !of_int_whole by lia.
  destruct (whole_mantissa a ltac:(lia)) as [Hma Hla].
  destruct (whole_mantissa b ltac:(lia)) as [Hmb Hlb].
  unfold add, whole, SFadd.
  set (ez := Z.min (Z.log2 a - 52) (Z.log2 b - 52)).
  cbn [cond_Zopp].
  rewrite !shl_align_fst by (unfold ez; lia).
  rewrite Hma, Hmb, <- !Z.mul_assoc, <- !Z.pow_add_r by (unfold ez; lia).
  replace (52 - Z.log2 a + (Z.log2 a - 52 - ez)) with (- ez) by lia.
  replace (52 - Z.log2 b + (Z.log2 b - 52 - ez)) with (- ez) by lia.
  rewrite <- Z.mul_add_distr_r.
  assert (Hpos : 0 < (a + b) * 2 ^ (- ez)).
  { apply Z.mul_pos_pos; [lia | apply Z.pow_pos_nonneg; unfold ez; lia]. }
  destruct ((a + b) * 2 ^ (- ez)) as [|M|M] eqn:EM; try lia.
  unfold binary_normalize.
  fold (whole false (a + b)).
  replace (binary_round prec emax false M ez)
    with (binary_round prec emax false M (- (- ez))) by (f_equal; lia).
  apply round_scaled; [lia | unfold ez; lia | now rewrite EM].
Qed.

Lemma div_eucl_exact (q m : Z) : 0 < m -> Z.div_eucl (q * m) m = (q, 0).
Proof.
  intros Hm.
  pose proof (Z.div_mul q m ltac:(lia)) as Hd.
  pose proof (Z.mod_mul q m ltac:(lia)) as Hr.
  unfold Z.div, Z.modulo in Hd, Hr.
  destruct (Z.div_eucl (q * m) m). simpl in *. congruence.
Qed.

Lemma new_location_0 (m : Z) : new_location m 0 = loc_Exact.
Proof.
  unfold new_location, new_location_even, new_location_odd.
  destruct (Z.even m); reflexivity.
Qed.


(** The double nearest to [n * d / d] is the double of [n]. *)
Lemma quotient_whole (s : bool) (n : Z) (p d : positive) :
  0 < n < 2 ^ 53 -> Zpos d < 2 ^ 10 -> Zpos p = n * Zpos d ->
  quotient s p d = whole s n.
Proof.
  intros Hn Hd Hp.
  destruct (whole_mantissa n Hn) as [_ Hl].
  assert (Hlp : Z.log2 (Zpos p) <= Z.log2 n + 10).
  { rewrite Hp. rewrite <- log2_scaled by lia.
    apply Z.log2_le_mono. nia. }
  assert (Hlp2 : Z.log2 (Zpos p) <= Z.log2 n + Z.log2 (Zpos d) + 1).
  { rewrite Hp. apply Z.log2_mul_above; lia. }
  assert (Hlp' : Z.log2 n + Z.log2 (Zpos d) <= Z.log2 (Zpos p)).
  { rewrite Hp. apply Z.log2_mul_below; lia. }
  assert (Hld : 0 <= Z.log2 (Zpos d) < 10).
  { split; [apply Z.log2_nonneg|]. apply Z.log2_lt_pow2; lia. }
  unfold quotient, SFdiv, SFdiv_core_binary.
  rewrite !Zdigits2_log2 by lia.
  set (lp := Z.log2 (Zpos p)) in *. set (ld := Z.log2 (Zpos d)) in *.
  replace (lp + 1 + 0 - (ld + 1 + 0)) with (lp - ld) by lia.
  rewrite fexp_normal by lia.
  replace (Z.min (lp - ld - 53) (0 - 0)) with (lp - ld - 53) by lia.
  set (K := 53 - lp + ld).
  replace (0 - 0 - (lp - ld - 53)) with K by (unfold K; lia).
  assert (HK : 0 <= K) by (unfold K; lia).
  destruct K as [|k|k] eqn:EK; try lia.
  - rewrite Hp.
    replace (n * Zpos d) with ((n * 2 ^ 0) * Zpos d) by (simpl; ring).
    rewrite div_eucl_exact by lia.
    rewrite new_location_0, xorb_false_r.
    replace (lp - ld - 53) with (- 0) by lia.
    apply round_aux_scaled; [lia | lia].
  - rewrite Z.shiftl_mul_pow2 by lia.
    rewrite Hp.
    replace (n * Zpos d * 2 ^ Zpos k) with ((n * 2 ^ Zpos k) * Zpos d) by ring.
    rewrite div_eucl_exact by lia.
    rewrite new_location_0, xorb_false_r.
    replace (lp - ld - 53) with (- Zpos k) by lia.
    apply round_aux_scaled; [lia | lia].
Qed.

Lemma exact_whole (n : Z) : 0 < n < 2 ^ 53 -> (exact (whole false n) == inject_Z n)%Q.
Proof.
  intros Hn. destruct (whole_mantissa n Hn) as [Hm Hl].
  unfold exact, whole. rewrite Hm.
  destruct (0 <=? Z.log2 n - 52) eqn:E.
  - apply Z.leb_le in E. replace (Z.log2 n - 52) with 0 by lia.
    replace (52 - Z.log2 n) with 0 by lia. simpl. now rewrite !Z.mul_1_r.
  - unfold Qeq, inject_Z. cbn [Qnum Qden].
    rewrite Z2Pos.id by (apply Z.pow_pos_nonneg; lia).
    replace (- (Z.log2 n - 52)) with (52 - Z.log2 n) by lia. lia.
Qed.

(** The double of a whole number below 2^53 stands for that number. *)
Lemma exact_of_int (n : Z) : 0 <= n < 2 ^ 53 -> (exact (of_int n) == inject_Z n)%Q.
Proof.
  intros Hn. destruct (Z.eq_dec n 0) as [->|H0]; [reflexivity|].
  rewrite of_int_whole by lia. apply exact_whole. lia.
Qed.



(** [round(x, 2)] leaves a whole number as it is. *)
Lemma float_round2_of_int (n : Z) :
  0 <= n < 2 ^ 53 -> float_round2 (of_int n) = of_int n.
Proof.
  intros Hn. destruct (Z.eq_dec n 0) as [->|H0]; [reflexivity|].
  rewrite of_int_whole by lia.
  destruct (whole_mantissa n ltac:(lia)) as [Hm Hl].
  unfold float_round2, whole at 1. rewrite Hm.
  assert (Hk : (if 0 <=? Z.log2 n - 52
                then n * 2 ^ (52 - Z.log2 n) * 2 ^ (Z.log2 n - 52) * 100
                else round_half_even (n * 2 ^ (52 - Z.log2 n) * 100)
                                     (2 ^ (- (Z.log2 n - 52)))) = n * 100).
  { destruct (0 <=? Z.log2 n - 52) eqn:E.
    - apply Z.leb_le in E. replace (Z.log2 n - 52) with 0 by lia.
      replace (52 - Z.log2 n) with 0 by lia. simpl. lia.
    - replace (- (Z.log2 n - 52)) with (52 - Z.log2 n) by lia.
      assert (Hp : 0 < 2 ^ (52 - Z.log2 n)) by (apply Z.pow_pos_nonneg; lia).
      unfold round_half_even.
      replace (n * 2 ^ (52 - Z.log2 n) * 100)
        with (n * 100 * 2 ^ (52 - Z.log2 n)) by ring.
      rewrite Z.div_mul, Z.mod_mul by lia.
      destruct (2 * 0 ?= 2 ^ (52 - Z.log2 n)) eqn:C; try reflexivity.
      + apply Z.compare_eq in C. lia.
      + apply Z.compare_gt_iff in C. lia. }
  rewrite Hk. destruct (n * 100) as [|p|p] eqn:Ep; try lia.
  apply quotient_whole; [lia | reflexivity | lia].
Qed.

(** [leb] is the order of the ranks, a total preorder on the doubles
    that are not NaN. *)
Lemma leb_rank (x y : double) :
  is_nan x = false -> is_nan y = false ->
  (leb x y = true <-> lex_le (rank x) (rank y)).
Proof.
  intros Hx Hy. unfold leb, SFleb, lex_le.
  destruct x as [sx|sx| |sx mx ex]; try discriminate;
    destruct y as [sy|sy| |sy my ey]; try discriminate;
    try destruct sx; try destruct sy; cbn [SFcompare rank fst snd];
    try (split; [intros _; lia | reflexivity]);
    try (split; [discriminate | lia]).
  - change (Pos.compare_cont Eq mx my) with (Pos.compare mx my).
    rewrite Pos2Z.inj_compare.
    destruct (Z.compare_spec ex ey); destruct (Z.compare_spec (Zpos mx) (Zpos my));
      cbn [CompOpp]; split; intros H'; try reflexivity; try discriminate; lia.
  - change (Pos.compare_cont Eq mx my) with (Pos.compare mx my).
    rewrite Pos2Z.inj_compare.
    destruct (Z.compare_spec ex ey); destruct (Z.compare_spec (Zpos mx) (Zpos my));
      split; intros H'; try reflexivity; try discriminate; lia.
Qed.

Lemma leb_total (x y : double) :
  is_nan x = false -> is_nan y = false -> leb x y = false -> leb y x = true.
Proof.
  intros Hx Hy H. apply (leb_rank y x Hy Hx).
  assert (H' : ~ lex_le (rank x) (rank y)).
  { intros C. apply (leb_rank x y Hx Hy) in C. congruence. }
  unfold lex_le in *. lia.
Qed.

Lemma leb_trans (x y z : double) :
  is_nan x = false -> is_nan y = false -> is_nan z = false ->
  leb x y = true -> leb y z = true -> leb x z = true.
Proof.
  intros Hx Hy Hz H1 H2.
  apply (leb_rank x y Hx Hy) in H1. apply (leb_rank y z Hy Hz) in H2.
  apply (leb_rank x z Hx Hz). unfold lex_le in *. lia.
Qed.

(** Some doubles: 0.01, 0.02 and 116.67 are the doubles nearest to these
    decimals (0x1.47ae147ae147bp-7, 0x1.47ae147ae147bp-6 and
    0x1.d2ae147ae147bp+6); 0.01 + 0.02 is the double below 0.03, and half
    of it, the double below 0.015, rounds to 0.01; 2^53 + 1 is 2^53. *)
Example doubles_exemplo :
  quotient false 1 100 = S754_finite false 0x147ae147ae147b (-59)
  /\ quotient false 2 100 = S754_finite false 0x147ae147ae147b (-58)
  /\ quotient false 11667 100 = S754_finite false 0x1d2ae147ae147b (-46)
  /\ add (quotient false 1 100) (quotient false 2 100)
     = S754_finite false 0x1eb851eb851eb8 (-58)
  /\ div (add (quotient false 1 100) (quotient false 2 100)) (of_int 2)
     = S754_finite false 0x1eb851eb851eb8 (-59)
  /\ float_round2 (S754_finite false 0x1eb851eb851eb8 (-59))
     = quotient false 1 100
  /\ (exact (S754_finite false 0x1eb851eb851eb8 (-59)) < 15 # 1000)%Q
  /\ add (of_int (2 ^ 53)) (of_int 1) = of_int (2 ^ 53)
  /\ of_int 1 = S754_finite false 0x10000000000000 (-52).
Proof. repeat split; vm_compute; reflexivity. Qed.

(** ** ORDER BY, LIMIT, OFFSET *)

Section OrderByFacts.
Context {A : Type} (le : A -> A -> bool).

Lemma insert_sorted_perm (x : A) (l : list A) :
  Permutation (insert_sorted le x l) (x :: l).
Proof.
  induction l as [|y t IH]; simpl.
  - apply Permutation_refl.
  - destruct (le x y).
    + apply Permutation_refl.
    + apply Permutation_trans with (y :: x :: t).
      * now apply perm_skip.
      * apply perm_swap.
Qed.

Lemma order_by_perm (l : list A) : Permutation (order_by le l) l.
Proof.
  induction l as [|x t IH]; simpl.
  - constructor.
  - eapply Permutation_trans.
    + apply insert_sorted_perm.
    + now apply perm_skip.
Qed.

Lemma order_by_length (l : list A) : length (order_by le l) = length l.
Proof. apply Permutation_length, order_by_perm. Qed.

Lemma order_by_In (l : list A) (x : A) : In x (order_by le l) <-> In x l.
Proof.
  split; apply Permutation_in;
    [apply order_by_perm | apply Permutation_sym, order_by_perm].
Qed.

Hypothesis le_total : forall a b, le a b = false -> le b a = true.
Hypothesis le_trans :
  forall a b c, le a b = true -> le b c = true -> le a c = true.

Let R (a b : A) : Prop := le a b = true.

Lemma insert_sorted_sorted (x : A) (l : list A) :
  StronglySorted R l -> StronglySorted R (insert_sorted le x l).
Proof.
  induction 1 as [|y t Hs IH Hall]; simpl.
  - repeat constructor.
  - destruct (le x y) eqn:E.
    + constructor.
      * now constructor.
      * constructor; [exact E|].
        rewrite Forall_forall in *. intros z Hz.
        apply le_trans with y; [exact E | now apply Hall].
    + constructor; [exact IH|].
      rewrite Forall_forall in *. intros z Hz.
      apply (Permutation_in _ (insert_sorted_perm x t)) in Hz.
      destruct Hz as [<-|Hz]; [now apply le_total | now apply Hall].
Qed.

Lemma order_by_sorted (l : list A) : StronglySorted R (order_by le l).
Proof.
  induction l as [|x t IH]; simpl.
  - constructor.
  - now apply insert_sorted_sorted.
Qed.
End OrderByFacts.

Lemma limit_offset_length {A} (lim off : Z) (l : list A) :
  0 <= lim -> Z.of_nat (length (limit_offset lim off l)) <= lim.
Proof.
  intros H. unfold limit_offset.
  destruct (lim <? 0) eqn:E; [apply Z.ltb_lt in E; lia|].
  rewrite length_firstn. lia.
Qed.

Lemma limit_offset_beyond {A} (lim off : Z) (l : list A) :
  Z.of_nat (length l) <= off -> limit_offset lim off l = [].
Proof.
  intros H. unfold limit_offset.
  rewrite skipn_all2 by lia.
  destruct (lim <? 0); [reflexivity | apply firstn_nil].
Qed.

Lemma limit_offset_unbounded {A} (lim off : Z) (l : list A) :
  lim < 0 -> limit_offset lim off l = skipn (Z.to_nat off) l.
Proof.
  intros H. unfold limit_offset.
  destruct (lim <? 0) eqn:E; [reflexivity | apply Z.ltb_ge in E; lia].
Qed.

Lemma limit_offset_incl {A} (lim off : Z) (l : list A) (x : A) :
  In x (limit_offset lim off l) -> In x l.
Proof.
  assert (Hskip : forall n (y : A), In y (skipn n l) -> In y l).
  { intros n y Hy. rewrite <- (firstn_skipn n l). apply in_or_app. now right. }
  assert (Hfirst : forall n (m : list A) (y : A), In y (firstn n m) -> In y m).
  { intros n m y Hy. rewrite <- (firstn_skipn n m). apply in_or_app. now left. }
  unfold limit_offset. intros H.
  destruct (lim <? 0); eauto.
Qed.

(** ** Text equality *)

Lemma pystr_eqb_eq (a b : pystr) : pystr_eqb a b = true <-> a = b.
Proof.
  unfold pystr_eqb. destruct (list_eq_dec N.eq_dec a b); split; congruence.
Qed.

Lemma pystr_eqb_refl (a : pystr) : pystr_eqb a a = true.
Proof. now apply pystr_eqb_eq. Qed.

(** ** LIKE *)

Lemma like_percent_all (s : pystr) : like_match [percent] s = true.
Proof.
  induction s as [|c t IH].
  - reflexivity.
  - simpl in *. exact IH.
Qed.

Lemma like_percent_cons (p s : pystr) :
  like_match (percent :: p) s
  = like_match p s
    || match s with [] => false | _ :: s' => like_match (percent :: p) s' end.
Proof. destruct s; reflexivity. Qed.

Lemma casa_like_vazia (o : Operadora) : casa_like [] o = true.
Proof.
  unfold casa_like. change (c_str (padrao [])) with [percent; percent].
  rewrite (like_percent_cons [percent]), like_percent_all. reflexivity.
Qed.

Lemma filtradas_vazia (db : Store) : filtradas db [] = operadoras db.
Proof.
  unfold filtradas. induction (operadoras db) as [|o t IH]; simpl.
  - reflexivity.
  - rewrite casa_like_vazia. now f_equal.
Qed.

Lemma utf8_len_app (a b : pystr) :
  utf8_len (a ++ b) = utf8_len a + utf8_len b.
Proof.
  unfold utf8_len. induction a as [|c t IH]; simpl; [reflexivity | lia].
Qed.

Lemma utf8_len_padrao (busca : pystr) :
  utf8_len (padrao busca) = utf8_len busca + 2.
Proof.
  unfold padrao. rewrite !utf8_len_app.
  change (utf8_len [percent]) with 1. lia.
Qed.

Lemma scan_where_filter (busca : pystr) (rows : list Operadora) :
  padrao_aceito busca ->
  scan_where (padrao busca) (padrao busca) rows
  = Ok (filter (casa_like busca) rows).
Proof.
  intros Hp. unfold padrao_aceito in Hp.
  assert (Hlike : forall t, like t (padrao busca)
                            = Ok (like_match (c_str (padrao busca)) (c_str t))).
  { intros t. unfold like.
    destruct (max_like_pattern_length <? utf8_len (padrao busca)) eqn:E;
      [apply Z.ltb_lt in E; lia | reflexivity]. }
  induction rows as [|o t IH]; simpl.
  - reflexivity.
  - unfold where_like, casa_like. rewrite !Hlike, IH.
    destruct (like_match (c_str (padrao busca)) (c_str (razao_social o)));
      simpl; [reflexivity|].
    destruct (like_match (c_str (padrao busca)) (c_str (cnpj o))); reflexivity.
Qed.

(** ** The listing handler on a request the store accepts *)

(** What the handler does once both numbers are read and the store takes
    the parameters: the two statements it sends and the envelope (or the
    division error) it ends with. *)
Lemma listar_operadoras_run (db : Store) (args : Args) (w : World) (p l0 : Z) :
  int_arg args (str "page") 1 = Ok p ->
  int_arg args (str "limit") 10 = Ok l0 ->
  fits_int64 (Z.min l0 100) = true ->
  fits_int64 ((p - 1) * Z.min l0 100) = true ->
  padrao_aceito (busca_de args) ->
  let busca := busca_de args in
  let lim := Z.min l0 100 in
  let off := (p - 1) * lim in
  let tot := Z.of_nat (length (filtradas db busca)) in
  listar_operadoras db args w
  = (match floordiv (tot + lim - 1) lim with
     | Ok tp =>
         Ok (jsonify (JPagina
           {| data := if lim =? 0 then []
                      else limit_offset lim off (ordenadas db busca);
              page := p; limit := lim; total := tot; total_pages := tp |}))
     | Raise e => Raise e
     end,
     {| cache_estatisticas := cache_estatisticas w;
        executed :=
          (executed w
           ++ [SelectPage (tem_busca busca)
                          (params_busca busca ++ [VInt lim; VInt off])])
          ++ [SelectCount (tem_busca busca) (params_busca busca)] |}).
Proof.
  intros Hp Hl Hfl Hfo Hpat busca lim off tot.
  change (fits_int64 lim = true) in Hfl.
  change (fits_int64 off = true) in Hfo.
  change (padrao_aceito busca) in Hpat.
  unfold listar_operadoras, bind, lift. rewrite Hp, Hl.
  fold (busca_de args). fold busca. fold lim. fold off.
  unfold ordenadas, tot, params_busca, tem_busca.
  destruct busca as [|c t] eqn:Hb.
  - unfold execute, query_operadoras, count_operadoras, select_page. simpl.
    fold lim off. rewrite Hfl, Hfo. rewrite filtradas_vazia.
    destruct (lim =? 0);
      destruct (floordiv (Z.of_nat (length (operadoras db)) + lim - 1) lim);
      reflexivity.
  - unfold execute, query_operadoras, count_operadoras, select_page. simpl.
    fold lim off. rewrite Hfl, Hfo.
    change (percent :: c :: t ++ [percent]) with (padrao (c :: t)).
    rewrite (scan_where_filter (c :: t) (operadoras db) Hpat).
    fold (filtradas db (c :: t)).
    destruct (lim =? 0);
      destruct (floordiv (Z.of_nat (length (filtradas db (c :: t))) + lim - 1)
                         lim);
      reflexivity.
Qed.

Lemma listar_operadoras_ok (db : Store) (args : Args) (w : World) (p l0 : Z) :
  int_arg args (str "page") 1 = Ok p ->
  int_arg args (str "limit") 10 = Ok l0 ->
  fits_int64 (Z.min l0 100) = true ->
  fits_int64 ((p - 1) * Z.min l0 100) = true ->
  Z.min l0 100 <> 0 ->
  padrao_aceito (busca_de args) ->
  fst (listar_operadoras db args w)
  = Ok (jsonify (JPagina
      {| data := limit_offset (Z.min l0 100) ((p - 1) * Z.min l0 100)
                              (ordenadas db (busca_de args));
         page := p;
         limit := Z.min l0 100;
         total := Z.of_nat (length (filtradas db (busca_de args)));
         total_pages :=
           (Z.of_nat (length (filtradas db (busca_de args)))
            + Z.min l0 100 - 1) / Z.min l0 100 |})).
Proof.
  intros Hp Hl Hfl Hfo Hnz Hpat.
  rewrite (listar_operadoras_run db args w p l0 Hp Hl Hfl Hfo Hpat). simpl.
  unfold floordiv.
  destruct (Z.min l0 100 =? 0) eqn:E;
    [apply Z.eqb_eq in E; contradiction | reflexivity].
Qed.

Lemma fits_int64_range (z : Z) :
  fits_int64 z = true <-> int64_min <= z <= int64_max.
Proof. unfold fits_int64. rewrite andb_true_iff, !Z.leb_le. tauto. Qed.

(** Closes [padrao_aceito] on the pattern of a concrete request. *)
Ltac padrao_computado := unfold padrao_aceito; vm_compute; discriminate.

(** ** C1: the page of a valid request *)

(** C1, as stated, fails: [page = 2^63 + 1] with [limit = 1] is a valid
    request (page >= 1, limit in 1..100), yet the offset [2^63] is not an
    SQLite INTEGER, binding it raises [OverflowError] and no envelope (no
    empty slice, no total) comes back. *)
Lemma C1_page_overflow_counterexample :
  int_arg (pedido [("page", "9223372036854775809"); ("limit", "1")]%string)
          (str "page") 1 = Ok (2 ^ 63 + 1)
  /\ int_arg (pedido [("page", "9223372036854775809"); ("limit", "1")]%string)
             (str "limit") 10 = Ok 1
  /\ fst (listar_operadoras
            db_exemplo
            (pedido [("page", "9223372036854775809"); ("limit", "1")]%string)
            mundo_inicial)
     = Raise OverflowError.
Proof. repeat split; vm_compute; reflexivity. Qed.

(** C1 (amended): for every request with page >= 1, limit in 1..100, an
    offset [(page - 1) * limit] within SQLite's INTEGER range and a filter
    pattern within SQLite's LIKE length limit, the handler returns an
    envelope whose slice has at most [limit] rows, whose [total] is the
    number of rows passing the filter, whose [total_pages] is 0 when total
    is 0 and the ceiling of total / limit otherwise, and whose slice is
    empty when the page lies beyond the rows. *)
Theorem C1_listar_pagina (db : Store) (args : Args) (w : World) (p l : Z) :
  int_arg args (str "page") 1 = Ok p ->
  int_arg args (str "limit") 10 = Ok l ->
  1 <= p ->
  1 <= l <= 100 ->
  (p - 1) * l <= int64_max ->
  padrao_aceito (busca_de args) ->
  exists pg : Pagina,
    fst (listar_operadoras db args w) = Ok (jsonify (JPagina pg))
    /\ page pg = p
    /\ limit pg = l
    /\ data pg = firstn (Z.to_nat l)
                        (skipn (Z.to_nat ((p - 1) * l))
                               (ordenadas db (busca_de args)))
    /\ Z.of_nat (length (data pg)) <= l
    /\ total pg = Z.of_nat (length (filtradas db (busca_de args)))
    /\ (total pg = 0 -> total_pages pg = 0)
    /\ (0 < total pg ->
        (total_pages pg - 1) * l < total pg <= total_pages pg * l)
    /\ (total pg <= (p - 1) * l -> data pg = []).
Proof.
  intros Hp Hl Hp1 Hl1 Hoff Hpat.
  assert (Hmin : Z.min l 100 = l) by lia.
  assert (Hfl : fits_int64 (Z.min l 100) = true).
  { rewrite Hmin. apply fits_int64_range.
    unfold int64_min, int64_max. lia. }
  assert (Hfo : fits_int64 ((p - 1) * Z.min l 100) = true).
  { rewrite Hmin. apply fits_int64_range.
    unfold int64_min, int64_max in *. nia. }
  assert (Hnz : Z.min l 100 <> 0) by lia.
  eexists. split.
  { apply (listar_operadoras_ok db args w p l Hp Hl Hfl Hfo Hnz Hpat). }
  cbn [page limit data total total_pages]. rewrite Hmin.
  set (t := Z.of_nat (length (filtradas db (busca_de args)))).
  assert (Ht : 0 <= t) by (unfold t; lia).
  repeat split.
  - unfold limit_offset.
    destruct (l <? 0) eqn:E; [apply Z.ltb_lt in E; lia | reflexivity].
  - apply limit_offset_length. lia.
  - intros H0. rewrite H0. apply Z.div_small. lia.
  - pose proof (Z.mul_div_le (t + l - 1) l ltac:(lia)).
    pose proof (Z.mul_succ_div_gt (t + l - 1) l ltac:(lia)). nia.
  - pose proof (Z.mul_div_le (t + l - 1) l ltac:(lia)).
    pose proof (Z.mul_succ_div_gt (t + l - 1) l ltac:(lia)). nia.
  - intros Hbeyond. apply limit_offset_beyond.
    unfold ordenadas. rewrite order_by_length. exact Hbeyond.
Qed.

Lemma C1_listar_pagina_witness :
  exists pg : Pagina,
    fst (listar_operadoras db_exemplo
           (pedido [("page", "2"); ("limit", "2")]%string) mundo_inicial)
    = Ok (jsonify (JPagina pg))
    /\ page pg = 2
    /\ limit pg = 2
    /\ data pg = firstn (Z.to_nat 2)
                        (skipn (Z.to_nat ((2 - 1) * 2))
                               (ordenadas db_exemplo
                                  (busca_de (pedido [("page", "2");
                                                     ("limit", "2")]%string))))
    /\ Z.of_nat (length (data pg)) <= 2
    /\ total pg
       = Z.of_nat (length (filtradas db_exemplo
            (busca_de (pedido [("page", "2"); ("limit", "2")]%string))))
    /\ (total pg = 0 -> total_pages pg = 0)
    /\ (0 < total pg ->
        (total_pages pg - 1) * 2 < total pg <= total_pages pg * 2)
    /\ (total pg <= (2 - 1) * 2 -> data pg = []).
Proof.
  apply (C1_listar_pagina db_exemplo
           (pedido [("page", "2"); ("limit", "2")]%string) mundo_inicial 2 2).
  - reflexivity.
  - reflexivity.
  - lia.
  - lia.
  - unfold int64_max. lia.
  - padrao_computado.
Defined.

(** ** C6: a limit above 100 *)

Lemma args_get_other (args : Args) (k k' v : pystr) :
  pystr_eqb k' k = false -> args_get ((k', v) :: args) k = args_get args k.
Proof.
  intros H. unfold args_get. cbn [find fst]. now rewrite H.
Qed.

Lemma args_get_first (args : Args) (k v : pystr) :
  args_get ((k, v) :: args) k = Some v.
Proof.
  unfold args_get. cbn [find fst]. now rewrite pystr_eqb_refl.
Qed.

(** C6: a request whose limit reads above 100 is answered exactly as the
    same request with [limit=100] (same outcome, same statements sent), so
    100 is the limit everywhere and the size of the limit never makes the
    request fail.  Where the store accepts the offset [(page - 1) * 100]
    and the pattern, the answer is a 200 whose [limit] is 100, whose slice
    is the LIMIT 100 window at that offset, and whose [total_pages] is
    [(total + 100 - 1) // 100]. *)
Theorem C6_limit_capped_at_100 (db : Store) (args : Args) (w : World)
        (l0 : Z) :
  int_arg args (str "limit") 10 = Ok l0 ->
  100 < l0 ->
  listar_operadoras db args w
  = listar_operadoras db ((str "limit", str "100") :: args) w
  /\ forall p : Z,
      int_arg args (str "page") 1 = Ok p ->
      fits_int64 ((p - 1) * 100) = true ->
      padrao_aceito (busca_de args) ->
      exists pg : Pagina,
        fst (listar_operadoras db args w) = Ok (jsonify (JPagina pg))
        /\ http_status (fst (listar_operadoras db args w)) = 200
        /\ limit pg = 100
        /\ data pg = limit_offset 100 ((p - 1) * 100)
                                  (ordenadas db (busca_de args))
        /\ Z.of_nat (length (data pg)) <= 100
        /\ total_pages pg = (total pg + 100 - 1) / 100
        /\ In (SelectPage (tem_busca (busca_de args))
                          (params_busca (busca_de args)
                           ++ [VInt 100; VInt ((p - 1) * 100)]))
              (executed (snd (listar_operadoras db args w))).
Proof.
  intros Hl Hbig.
  assert (Hmin : Z.min l0 100 = 100) by lia.
  split.
  - unfold listar_operadoras, int_arg.
    rewrite args_get_first.
    rewrite !(args_get_other args _ (str "limit")) by reflexivity.
    unfold int_arg in Hl. rewrite Hl.
    change (Py.int (str "100")) with (@Ok Z 100).
    unfold bind, lift.
    destruct (match args_get args (str "page") with
              | Some s => Py.int s
              | None => Ok 1
              end) as [p|e]; [|reflexivity].
    rewrite Hmin. reflexivity.
  - intros p Hp Hfo Hpat.
    assert (Hfl : fits_int64 (Z.min l0 100) = true) by (now rewrite Hmin).
    rewrite <- Hmin in Hfo.
    pose proof (listar_operadoras_run db args w p l0 Hp Hl Hfl Hfo Hpat)
      as Hrun.
    cbv zeta in Hrun. rewrite Hmin in Hrun. rewrite Hrun.
    eexists. cbn [fst snd executed]. split; [reflexivity|].
    cbn [http_status status jsonify limit data total total_pages].
    repeat split.
    + apply limit_offset_length. lia.
    + apply in_or_app. left. apply in_or_app. right. now left.
Qed.

Lemma C6_limit_capped_at_100_witness :
  listar_operadoras db_exemplo (pedido [("limit", "500")]%string)
                    mundo_inicial
  = listar_operadoras db_exemplo
      ((str "limit", str "100") :: pedido [("limit", "500")]%string)
      mundo_inicial.
Proof.
  destruct (C6_limit_capped_at_100 db_exemplo
              (pedido [("limit", "500")]%string) mundo_inicial 500)
    as [H _].
  - reflexivity.
  - lia.
  - exact H.
Defined.

(** On the sample store, [limit=500] is answered with limit 100. *)
Example limit_500_exemplo :
  exists pg,
    fst (listar_operadoras db_exemplo (pedido [("limit", "500")]%string)
                           mundo_inicial)
    = Ok (jsonify (JPagina pg))
    /\ limit pg = 100 /\ total pg = 3 /\ total_pages pg = 1.
Proof. eexists. split; [vm_compute; reflexivity|]. repeat split; reflexivity. Qed.

(** ** C10: limits below 1 *)

(** C10: nothing keeps the limit above 0.  With [limit = 0] the total
    page count divides by zero: the handler raises [ZeroDivisionError]
    after both statements, which the client sees as a 500.  A negative
    limit goes through [min] unchanged, is bound as it is to the slice
    statement, where it means no limit: the slice is every filtered
    row from the offset on. *)
Theorem C10_limit_lower_bound_unchecked (db : Store) (args : Args) (w : World)
        (p l : Z) :
  int_arg args (str "page") 1 = Ok p ->
  int_arg args (str "limit") 10 = Ok l ->
  l <= 0 ->
  fits_int64 l = true ->
  fits_int64 ((p - 1) * l) = true ->
  padrao_aceito (busca_de args) ->
  (l = 0 ->
   fst (listar_operadoras db args w) = Raise ZeroDivisionError
   /\ http_status (fst (listar_operadoras db args w)) = 500)
  /\ (l < 0 ->
      exists pg : Pagina,
        fst (listar_operadoras db args w) = Ok (jsonify (JPagina pg))
        /\ limit pg = l
        /\ data pg = skipn (Z.to_nat ((p - 1) * l))
                           (ordenadas db (busca_de args))
        /\ In (SelectPage (tem_busca (busca_de args))
                          (params_busca (busca_de args)
                           ++ [VInt l; VInt ((p - 1) * l)]))
              (executed (snd (listar_operadoras db args w)))).
Proof.
  intros Hp Hl Hneg Hfl Hfo Hpat.
  assert (Hmin : Z.min l 100 = l) by lia.
  rewrite <- Hmin in Hfl, Hfo.
  pose proof (listar_operadoras_run db args w p l Hp Hl Hfl Hfo Hpat) as Hrun.
  cbv zeta in Hrun. rewrite Hmin in Hrun. rewrite Hrun. clear Hrun.
  split.
  - intros ->. split; reflexivity.
  - intros Hlt. unfold floordiv.
    destruct (l =? 0) eqn:E; [apply Z.eqb_eq in E; lia|].
    eexists. cbn [fst snd executed]. split; [reflexivity|].
    cbn [limit data]. repeat split.
    + now apply limit_offset_unbounded.
    + apply in_or_app. left. apply in_or_app. right. now left.
Qed.

Lemma C10_limit_lower_bound_unchecked_witness :
  fst (listar_operadoras db_exemplo (pedido [("limit", "0")]%string)
                         mundo_inicial)
  = Raise ZeroDivisionError
  /\ http_status (fst (listar_operadoras db_exemplo
                         (pedido [("limit", "0")]%string) mundo_inicial))
     = 500.
Proof.
  destruct (C10_limit_lower_bound_unchecked db_exemplo
              (pedido [("limit", "0")]%string) mundo_inicial 1 0) as [H _].
  - reflexivity.
  - reflexivity.
  - lia.
  - reflexivity.
  - reflexivity.
  - padrao_computado.
  - apply H. reflexivity.
Defined.

(** A negative limit on the sample store: all three rows come back on
    every page. *)
Example limit_negativo_exemplo :
  exists pg,
    fst (listar_operadoras db_exemplo
           (pedido [("limit", "-1"); ("page", "3")]%string) mundo_inicial)
    = Ok (jsonify (JPagina pg))
    /\ limit pg = -1 /\ length (data pg) = 3%nat /\ total_pages pg = -1.
Proof. eexists. split; [vm_compute; reflexivity|]. repeat split; reflexivity. Qed.

(** ** C7: missing and malformed page and limit *)

Lemma int_raises_ValueError (s : pystr) (e : exn) :
  Py.int s = Raise e -> e = ValueError.
Proof.
  unfold Py.int.
  destruct (match int_lstrip s with
            | 43%N :: t => (1, t)
            | 45%N :: t => (-1, t)
            | _ => (1, int_lstrip s)
            end) as [sign s2].
  destruct s2 as [|c t]; [congruence|].
  destruct (c =? underscore)%N; [congruence|].
  destruct (scan_digits (c :: t) false 0 0) as [[[[v n] u] rest]|];
    [|congruence].
  destruct (u || (n =? 0)%N || (max_str_digits <? n)%N); [congruence|].
  destruct (int_lstrip rest); congruence.
Qed.

(** C7, as stated, fails: [limit=abc] is not coerced to 10, [int] raises
    [ValueError] before any statement is sent and the client gets a 500. *)
Lemma C7_malformed_limit_counterexample :
  args_get (pedido [("limit", "abc")]%string) (str "limit") = Some (str "abc")
  /\ listar_operadoras db_exemplo (pedido [("limit", "abc")]%string)
                       mundo_inicial
     = (Raise ValueError, mundo_inicial)
  /\ http_status (fst (listar_operadoras db_exemplo
                         (pedido [("limit", "abc")]%string) mundo_inicial))
     = 500.
Proof. repeat split; vm_compute; reflexivity. Qed.

(** A value [int] refuses stops the handler before any statement. *)
Lemma listar_operadoras_malformed (db : Store) (args : Args) (w : World)
      (k s : pystr) (e : exn) :
  k = str "page" \/ k = str "limit" ->
  args_get args k = Some s ->
  Py.int s = Raise e ->
  listar_operadoras db args w = (Raise ValueError, w).
Proof.
  intros Hk Hget Hint.
  pose proof (int_raises_ValueError s e Hint) as ->.
  unfold listar_operadoras, bind, lift.
  destruct Hk as [-> | ->].
  - unfold int_arg. now rewrite Hget, Hint.
  - destruct (int_arg args (str "page") 1) as [p|e'] eqn:Ep.
    + unfold int_arg. now rewrite Hget, Hint.
    + unfold int_arg in Ep.
      destruct (args_get args (str "page")) as [s'|]; [|discriminate].
      now rewrite (int_raises_ValueError s' e' Ep).
Qed.

(** A parameter that is absent and the same parameter written out with
    its default are the same request to the handler. *)
Lemma listar_operadoras_default (db : Store) (args : Args) (w : World)
      (k v : pystr) (d : Z) :
  (k = str "page" /\ d = 1) \/ (k = str "limit" /\ d = 10) ->
  Py.int v = Ok d ->
  args_get args k = None ->
  listar_operadoras db args w = listar_operadoras db ((k, v) :: args) w.
Proof.
  intros Hk Hv Hnone. unfold listar_operadoras, int_arg.
  destruct Hk as [[-> ->] | [-> ->]].
  - rewrite args_get_first, Hnone, Hv.
    rewrite !(args_get_other args _ (str "page")) by reflexivity.
    reflexivity.
  - rewrite args_get_first, Hnone, Hv.
    rewrite !(args_get_other args _ (str "limit")) by reflexivity.
    reflexivity.
Qed.

(** C7 (amended): a missing [page] reads as 1 and a missing [limit] as 10:
    the request is answered exactly as the same request with [page=1]
    (with [limit=10]) written out, and where both are missing and the
    store accepts the filter pattern the answer is an envelope carrying
    page 1 and limit 10.  A parameter that is present goes through [int]:
    text [int] refuses is not replaced by the default, the handler raises
    [ValueError] (a 500 for the client) and sends nothing to the store. *)
Theorem C7_missing_defaults_malformed_raises
        (db : Store) (args : Args) (w : World) :
  (args_get args (str "page") = None ->
   int_arg args (str "page") 1 = Ok 1
   /\ listar_operadoras db args w
      = listar_operadoras db ((str "page", str "1") :: args) w)
  /\ (args_get args (str "limit") = None ->
      int_arg args (str "limit") 10 = Ok 10
      /\ listar_operadoras db args w
         = listar_operadoras db ((str "limit", str "10") :: args) w)
  /\ (args_get args (str "page") = None ->
      args_get args (str "limit") = None ->
      padrao_aceito (busca_de args) ->
      exists pg : Pagina,
        fst (listar_operadoras db args w) = Ok (jsonify (JPagina pg))
        /\ page pg = 1 /\ limit pg = 10
        /\ http_status (fst (listar_operadoras db args w)) = 200)
  /\ (forall (k s : pystr) (e : exn),
        k = str "page" \/ k = str "limit" ->
        args_get args k = Some s ->
        Py.int s = Raise e ->
        fst (listar_operadoras db args w) = Raise ValueError
        /\ executed (snd (listar_operadoras db args w)) = executed w
        /\ http_status (fst (listar_operadoras db args w)) = 500).
Proof.
  assert (Hdef : forall k d, args_get args k = None -> int_arg args k d = Ok d).
  { intros k d H. unfold int_arg. now rewrite H. }
  split; [|split; [|split]].
  - intros Hpg. split; [now apply Hdef|].
    apply (listar_operadoras_default db args w (str "page") (str "1") 1);
      [left; now split | reflexivity | exact Hpg].
  - intros Hlm. split; [now apply Hdef|].
    apply (listar_operadoras_default db args w (str "limit") (str "10") 10);
      [right; now split | reflexivity | exact Hlm].
  - intros Hpg Hlm Hpat.
    rewrite (listar_operadoras_ok db args w 1 10 (Hdef _ _ Hpg) (Hdef _ _ Hlm)
               eq_refl eq_refl ltac:(discriminate) Hpat).
    eexists. split; [reflexivity|]. repeat split.
  - intros k s e Hk Hget Hint.
    rewrite (listar_operadoras_malformed db args w k s e Hk Hget Hint).
    repeat split.
Qed.

Lemma C7_missing_defaults_malformed_raises_witness :
  listar_operadoras db_exemplo (pedido []) mundo_inicial
  = listar_operadoras db_exemplo ((str "page", str "1") :: pedido [])
                      mundo_inicial
  /\ exists pg : Pagina,
       fst (listar_operadoras db_exemplo (pedido []) mundo_inicial)
       = Ok (jsonify (JPagina pg))
       /\ page pg = 1 /\ limit pg = 10
       /\ http_status (fst (listar_operadoras db_exemplo (pedido [])
                                              mundo_inicial)) = 200.
Proof.
  destruct (C7_missing_defaults_malformed_raises db_exemplo (pedido [])
              mundo_inicial) as [H1 [_ [H3 _]]].
  split.
  - apply H1. reflexivity.
  - apply H3; [reflexivity | reflexivity | padrao_computado].
Defined.

(** ** C2: the filter of the slice and of the count *)

Lemma like_match_literal_cons (a : N) (p s : pystr) :
  a <> percent -> a <> underscore ->
  like_match (a :: p) s
  = match s with
    | [] => false
    | d :: s' => char_eq_nocase a d && like_match p s'
    end.
Proof.
  intros H1 H2. simpl.
  destruct (a =? percent)%N eqn:E1; [apply N.eqb_eq in E1; contradiction|].
  destruct (a =? underscore)%N eqn:E2; [apply N.eqb_eq in E2; contradiction|].
  reflexivity.
Qed.

Lemma like_literal_prefix (p s : pystr) :
  literal p -> like_match (p ++ [percent]) s = spec_prefix p s.
Proof.
  intros Hlit. revert s.
  induction Hlit as [|a p [H1 [H2 _]] _ IH]; intros s.
  - apply like_percent_all.
  - rewrite <- app_comm_cons, like_match_literal_cons by assumption.
    destruct s as [|d s']; simpl; [reflexivity | now rewrite IH].
Qed.

Lemma like_literal_substring (p s : pystr) :
  literal p -> like_match (padrao p) s = spec_substring p s.
Proof.
  intros Hlit. unfold padrao. change ([percent] ++ p ++ [percent])
    with (percent :: (p ++ [percent])).
  induction s as [|d s' IH].
  - rewrite like_percent_cons, like_literal_prefix by assumption.
    simpl. now rewrite orb_false_r.
  - rewrite like_percent_cons, like_literal_prefix by assumption.
    rewrite IH. reflexivity.
Qed.

Lemma c_str_sem_nul (s : pystr) : sem_nul s -> c_str s = s.
Proof.
  induction 1 as [|c t Hc _ IH]; simpl.
  - reflexivity.
  - destruct (c =? 0)%N eqn:E; [apply N.eqb_eq in E; contradiction|].
    now rewrite IH.
Qed.

Lemma literal_sem_nul (s : pystr) : literal s -> sem_nul (padrao s).
Proof.
  intros H. unfold sem_nul, padrao. apply Forall_app. split.
  - repeat constructor. discriminate.
  - apply Forall_app. split.
    + eapply Forall_impl; [|exact H]. simpl. tauto.
    + repeat constructor. discriminate.
Qed.

(** Without wildcards and NULs the LIKE filter is the substring test. *)
Lemma casa_like_literal (busca : pystr) (o : Operadora) :
  literal busca -> sem_nul (razao_social o) -> sem_nul (cnpj o) ->
  casa_like busca o = spec_casa busca o.
Proof.
  intros Hlit Hr Hc. unfold casa_like, spec_casa.
  rewrite (c_str_sem_nul _ (literal_sem_nul _ Hlit)).
  rewrite (c_str_sem_nul _ Hr), (c_str_sem_nul _ Hc).
  now rewrite !like_literal_substring.
Qed.

(** C2, as stated, fails: for [busca=_] the total is 3 on the sample
    store, although no legal name and no tax identifier there contains an
    underscore: LIKE reads [_] in the filter text as "any one character"
    (and [%] as "any run of characters"), not as itself. *)
Lemma C2_wildcard_counterexample :
  (exists pg : Pagina,
     fst (listar_operadoras db_exemplo (pedido [("busca", "_")]%string)
                            mundo_inicial)
     = Ok (jsonify (JPagina pg))
     /\ total pg = 3)
  /\ length (filter (spec_casa (busca_de (pedido [("busca", "_")]%string)))
                    (operadoras db_exemplo)) = 0%nat.
Proof.
  split.
  - eexists. split; [vm_compute; reflexivity | reflexivity].
  - vm_compute. reflexivity.
Qed.

(** C2 (amended): on every request the store accepts, the slice statement
    and the count statement carry the same WHERE text and the same bound
    pattern, [razao_social LIKE '%busca%' OR cnpj LIKE '%busca%'] with the
    trimmed busca; [total] is the number of rows that pass this LIKE test,
    whatever page and limit are, and [data] is the LIMIT/OFFSET window of
    exactly those rows in legal-name order.  The LIKE test is the
    (ASCII-case-blind) substring test when busca holds no [%], [_] or NUL
    and the two columns hold no NUL; [%] and [_] in busca act as
    wildcards. *)
Theorem C2_total_counts_like_filter (db : Store) (args : Args) (w : World)
        (p l0 : Z) :
  int_arg args (str "page") 1 = Ok p ->
  int_arg args (str "limit") 10 = Ok l0 ->
  fits_int64 (Z.min l0 100) = true ->
  fits_int64 ((p - 1) * Z.min l0 100) = true ->
  Z.min l0 100 <> 0 ->
  padrao_aceito (busca_de args) ->
  exists pg : Pagina,
    fst (listar_operadoras db args w) = Ok (jsonify (JPagina pg))
    /\ total pg
       = Z.of_nat (length (filter (casa_like (busca_de args))
                                  (operadoras db)))
    /\ data pg
       = limit_offset (limit pg) ((page pg - 1) * limit pg)
           (order_by by_razao_social
                     (filter (casa_like (busca_de args)) (operadoras db)))
    /\ executed (snd (listar_operadoras db args w))
       = executed w
         ++ [SelectPage (tem_busca (busca_de args))
                        (params_busca (busca_de args)
                         ++ [VInt (limit pg); VInt ((page pg - 1) * limit pg)]);
             SelectCount (tem_busca (busca_de args))
                         (params_busca (busca_de args))]
    /\ (literal (busca_de args) ->
        forall o : Operadora,
          sem_nul (razao_social o) -> sem_nul (cnpj o) ->
          casa_like (busca_de args) o = spec_casa (busca_de args) o).
Proof.
  intros Hp Hl Hfl Hfo Hnz Hpat.
  pose proof (listar_operadoras_run db args w p l0 Hp Hl Hfl Hfo Hpat) as Hrun.
  cbv zeta in Hrun. rewrite Hrun. clear Hrun.
  unfold floordiv.
  destruct (Z.min l0 100 =? 0) eqn:E; [apply Z.eqb_eq in E; contradiction|].
  eexists. cbn [fst snd executed]. split; [reflexivity|].
  cbn [total data limit page]. repeat split.
  - now rewrite <- app_assoc.
  - intros Hlit o Hr Hc. now apply casa_like_literal.
Qed.

Lemma C2_total_counts_like_filter_witness :
  exists pg : Pagina,
    fst (listar_operadoras db_exemplo
           (pedido [("busca", " a "); ("limit", "1")]%string) mundo_inicial)
    = Ok (jsonify (JPagina pg))
    /\ total pg
       = Z.of_nat (length (filter
            (casa_like (busca_de
               (pedido [("busca", " a "); ("limit", "1")]%string)))
            (operadoras db_exemplo))).
Proof.
  destruct (C2_total_counts_like_filter db_exemplo
              (pedido [("busca", " a "); ("limit", "1")]%string)
              mundo_inicial 1 1) as [pg [H1 [H2 _]]].
  - reflexivity.
  - reflexivity.
  - reflexivity.
  - reflexivity.
  - discriminate.
  - padrao_computado.
  - exists pg. split; assumption.
Defined.

(** ** C8 and C9: the lookups by tax identifier *)

Lemma select_operadora_absent (db : Store) (c : pystr) :
  (forall o, In o (operadoras db) -> cnpj o <> c) ->
  select_operadora db c = None.
Proof.
  intros H. unfold select_operadora.
  destruct (find (fun o => pystr_eqb (cnpj o) c) (operadoras db)) as [o|] eqn:E;
    [|reflexivity].
  apply find_some in E. destruct E as [Hin Heq].
  apply pystr_eqb_eq in Heq. now apply H in Hin.
Qed.

Lemma select_operadora_present (db : Store) (c : pystr) (o : Operadora) :
  In o (operadoras db) -> cnpj o = c ->
  exists o', select_operadora db c = Some o'
             /\ In o' (operadoras db) /\ cnpj o' = c.
Proof.
  intros Hin Hc. unfold select_operadora.
  destruct (find (fun o => pystr_eqb (cnpj o) c) (operadoras db)) as [o'|] eqn:E.
  - apply find_some in E. destruct E as [Hin' Heq].
    apply pystr_eqb_eq in Heq. eauto.
  - exfalso. apply (find_none _ _ E) in Hin.
    rewrite Hc, pystr_eqb_refl in Hin. discriminate.
Qed.

(** C8: for a tax identifier no operator row carries, the detail lookup
    and the history lookup both answer 404 with the [erro] message
    "Operadora não encontrada" (not a 200), and the history lookup has sent
    the operator statement only: the expense statement is not sent. *)
Theorem C8_unknown_cnpj_is_404 (db : Store) (c : pystr) (w : World) :
  (forall o, In o (operadoras db) -> cnpj o <> c) ->
  detalhes_operadora db c w
  = (Ok {| status := 404; body := JErro operadora_nao_encontrada |},
     {| cache_estatisticas := cache_estatisticas w;
        executed := executed w ++ [SelectOperadora c] |})
  /\ historico_despesas db c w
     = (Ok {| status := 404; body := JErro operadora_nao_encontrada |},
        {| cache_estatisticas := cache_estatisticas w;
           executed := executed w ++ [SelectRazaoSocial c] |})
  /\ ~ In (SelectDespesas c) [SelectRazaoSocial c].
Proof.
  intros H. pose proof (select_operadora_absent db c H) as Hnone.
  repeat split.
  - unfold detalhes_operadora, bind, execute. now rewrite Hnone.
  - unfold historico_despesas, bind, execute, select_razao_social.
    now rewrite Hnone.
  - intros [Hin|[]]. discriminate.
Qed.

Lemma C8_unknown_cnpj_is_404_witness :
  detalhes_operadora db_exemplo (str "Z") mundo_inicial
  = (Ok {| status := 404; body := JErro operadora_nao_encontrada |},
     {| cache_estatisticas := cache_inicial;
        executed := [SelectOperadora (str "Z")] |})
  /\ historico_despesas db_exemplo (str "Z") mundo_inicial
     = (Ok {| status := 404; body := JErro operadora_nao_encontrada |},
        {| cache_estatisticas := cache_inicial;
           executed := [SelectRazaoSocial (str "Z")] |})
  /\ ~ In (SelectDespesas (str "Z")) [SelectRazaoSocial (str "Z")].
Proof.
  apply (C8_unknown_cnpj_is_404 db_exemplo (str "Z") mundo_inicial).
  intros o Hin. unfold db_exemplo in Hin. cbn [operadoras In] in Hin.
  destruct Hin as [<-|[<-|[<-|[]]]]; vm_compute; discriminate.
Defined.

Lemma StronglySorted_map {A B} (f : A -> B) (R : B -> B -> Prop) (l : list A) :
  StronglySorted (fun x y => R (f x) (f y)) l -> StronglySorted R (map f l).
Proof.
  induction 1 as [|x t Hs IH Hall]; simpl; constructor.
  - exact IH.
  - rewrite Forall_forall in *. intros y Hy.
    apply in_map_iff in Hy. destruct Hy as [z [<- Hz]]. now apply Hall.
Qed.

Lemma StronglySorted_impl {A} (R R' : A -> A -> Prop) (l : list A) :
  (forall a b, R a b -> R' a b) -> StronglySorted R l -> StronglySorted R' l.
Proof.
  intros HR. induction 1 as [|x t Hs IH Hall]; constructor.
  - exact IH.
  - eapply Forall_impl; [|exact Hall]. intros b. apply HR.
Qed.

Lemma select_despesas_sorted (db : Store) (c : pystr) :
  StronglySorted periodo_desc (select_despesas db c).
Proof.
  unfold select_despesas. apply StronglySorted_map.
  apply StronglySorted_impl with (R := fun a b => by_periodo_desc a b = true).
  - intros a b Hab. unfold by_periodo_desc in Hab. unfold periodo_desc. simpl.
    apply orb_true_iff in Hab. destruct Hab as [Hlt|Heq].
    + left. now apply Z.ltb_lt in Hlt.
    + right. apply andb_true_iff in Heq. destruct Heq as [H1 H2].
      apply Z.eqb_eq in H1. apply Z.leb_le in H2. now split.
  - apply order_by_sorted.
    + intros a b. unfold by_periodo_desc.
      rewrite orb_false_iff, andb_false_iff, orb_true_iff, andb_true_iff.
      rewrite Z.ltb_ge, Z.eqb_neq, Z.leb_gt, Z.ltb_lt, Z.eqb_eq, Z.leb_le.
      lia.
    + intros a b d. unfold by_periodo_desc.
      rewrite !orb_true_iff, !andb_true_iff.
      rewrite !Z.ltb_lt, !Z.eqb_eq, !Z.leb_le. lia.
Qed.

(** The rows the statements select for a tax identifier are its records
    in the sense of the specification. *)
Lemma registros_de_despesas (c : pystr) (l : list Despesa) :
  registros_de c l (filter (fun d => pystr_eqb (d_cnpj d) c) l).
Proof.
  induction l as [|d t IH]; simpl.
  - constructor.
  - destruct (pystr_eqb (d_cnpj d) c) eqn:E.
    + apply registros_seu; [now apply pystr_eqb_eq | exact IH].
    + apply registros_alheio; [|exact IH].
      intros H. apply pystr_eqb_eq in H. congruence.
Qed.

Lemma registros_de_In (c : pystr) (l r : list Despesa) :
  registros_de c l r ->
  forall d, In d r <-> In d l /\ d_cnpj d = c.
Proof.
  induction 1 as [|d0 l r Hc _ IH|d0 l r Hc _ IH]; intros d; simpl.
  - tauto.
  - rewrite IH. split.
    + intros [<- | [H1 H2]]; auto.
    + intros [[<- | H1] H2]; auto.
  - rewrite IH. split.
    + intros [H1 H2]; auto.
    + intros [[<- | H1] H2]; [contradiction | auto].
Qed.

(** C9: for an operator present in the store, the history answer is a 200
    under the operator's name whose rows are the records of that tax
    identifier, all of them and nothing else: every record of the store
    that carries the identifier is among the rows, every row is such a
    record, the rows are a rearrangement of these records (as many rows
    as records, none cut off), and they come later year first and, within
    a year, later quarter first. *)
Theorem C9_history_complete_and_ordered
        (db : Store) (c : pystr) (w : World) (o : Operadora) :
  In o (operadoras db) -> cnpj o = c ->
  exists (h : Historico) (o' : Operadora) (ds : list Despesa),
    fst (historico_despesas db c w) = Ok (jsonify (JHistorico h))
    /\ In o' (operadoras db) /\ cnpj o' = c
    /\ h_cnpj h = c
    /\ h_razao_social h = razao_social o'
    /\ registros_de c (despesas db) ds
    /\ Permutation (h_despesas h) (map campos ds)
    /\ length (h_despesas h) = length ds
    /\ (forall d, In d (despesas db) -> d_cnpj d = c ->
                  In (campos d) (h_despesas h))
    /\ (forall r, In r (h_despesas h) ->
                  exists d, In d (despesas db) /\ d_cnpj d = c /\ r = campos d)
    /\ StronglySorted periodo_desc (h_despesas h).
Proof.
  intros Hin Hc.
  destruct (select_operadora_present db c o Hin Hc) as [o' [Hsel [Hin' Hc']]].
  exists {| h_cnpj := c; h_razao_social := razao_social o';
            h_despesas := select_despesas db c |}, o', (despesas_de db c).
  split.
  { unfold historico_despesas, bind, execute, select_razao_social.
    rewrite Hsel. reflexivity. }
  cbn [h_cnpj h_razao_social h_despesas].
  assert (Hreg : registros_de c (despesas db) (despesas_de db c))
    by apply registros_de_despesas.
  assert (Hperm : Permutation (select_despesas db c)
                              (map campos (despesas_de db c))).
  { unfold select_despesas. apply Permutation_map, order_by_perm. }
  repeat split; try assumption.
  - now rewrite (Permutation_length Hperm), length_map.
  - intros d Hd Hdc.
    apply (Permutation_in _ (Permutation_sym Hperm)), in_map.
    now apply (registros_de_In c _ _ Hreg).
  - intros r Hr. apply (Permutation_in _ Hperm) in Hr.
    apply in_map_iff in Hr. destruct Hr as [d [<- Hd]].
    apply (registros_de_In c _ _ Hreg) in Hd. exists d. tauto.
  - apply select_despesas_sorted.
Qed.

Lemma C9_history_complete_and_ordered_witness :
  exists (h : Historico) (o' : Operadora) (ds : list Despesa),
    fst (historico_despesas db_historico (str "X") mundo_inicial)
    = Ok (jsonify (JHistorico h))
    /\ In o' (operadoras db_historico) /\ cnpj o' = str "X"
    /\ h_cnpj h = str "X"
    /\ h_razao_social h = razao_social o'
    /\ registros_de (str "X") (despesas db_historico) ds
    /\ Permutation (h_despesas h) (map campos ds)
    /\ length (h_despesas h) = length ds.
Proof.
  destruct (C9_history_complete_and_ordered db_historico (str "X")
              mundo_inicial (operadora_ex "X" "Xis" "MG"))
    as [h [o' [ds [H1 [H2 [H3 [H4 [H5 [H6 [H7 [H8 _]]]]]]]]]]].
  - simpl. now left.
  - reflexivity.
  - exists h, o', ds. repeat split; assumption.
Defined.

(** The order of the specification's example: (Q1,2024), (Q3,2024),
    (Q2,2023) come back as (Q3,2024), (Q1,2024), (Q2,2023). *)
Example historico_exemplo :
  select_despesas db_historico (str "X")
  = [ {| r_trimestre := 3; r_ano := 2024; r_valor := of_int 30 |};
      {| r_trimestre := 1; r_ano := 2024; r_valor := of_int 10 |};
      {| r_trimestre := 2; r_ano := 2023; r_valor := of_int 20 |} ].
Proof. vm_compute. reflexivity. Qed.

(** ** C3: the statistics cache *)

Lemma estatisticas_hit (db : Store) (agora : Z) (w : World) (d : Estatisticas) :
  cache_valido (cache_estatisticas w) agora = Some d ->
  estatisticas db agora w = (Ok (jsonify (JEstatisticas d)), w).
Proof.
  intros H. unfold estatisticas, bind, get_cache. now rewrite H.
Qed.

Lemma estatisticas_miss (db : Store) (agora : Z) (w : World) :
  cache_valido (cache_estatisticas w) agora = None ->
  estatisticas db agora w
  = (Ok (jsonify (JEstatisticas (estatisticas_de db))),
     {| cache_estatisticas :=
          {| dados := Some (estatisticas_de db);
             timestamp := Some agora;
             timeout := timeout (cache_estatisticas w) |};
        executed := executed w ++ consultas_estatisticas |}).
Proof.
  intros H. unfold estatisticas, bind, get_cache. rewrite H.
  unfold execute, set_dados, set_timestamp, ret. cbn.
  rewrite <- !app_assoc. reflexivity.
Qed.

(** No call changes the time-to-live: it stays at the 300 seconds of the
    initial cache. *)
Lemma estatisticas_keeps_timeout (db : Store) (agora : Z) (w : World) :
  timeout (cache_estatisticas (snd (estatisticas db agora w)))
  = timeout (cache_estatisticas w).
Proof.
  destruct (cache_valido (cache_estatisticas w) agora) as [d|] eqn:E.
  - now rewrite (estatisticas_hit db agora w d E).
  - now rewrite (estatisticas_miss db agora w E).
Qed.

(** C3: with the time-to-live at 300 seconds, a call that finds a cached
    value younger than 300 seconds returns that value and leaves the whole
    process state as it was (no statement sent, cache untouched); a call
    that finds no value, no timestamp, or an age of 300 seconds or more
    sends the four aggregation statements, returns what they yield on the
    current store and overwrites the cached value with it and the
    timestamp with the current time. *)
Theorem C3_cache_hit_and_miss (db : Store) (agora : Z) (w : World) :
  timeout (cache_estatisticas w) = 300 ->
  (forall (d : Estatisticas) (t : Z),
      dados (cache_estatisticas w) = Some d ->
      timestamp (cache_estatisticas w) = Some t ->
      agora - t < 300 * 1000000 ->
      estatisticas db agora w = (Ok (jsonify (JEstatisticas d)), w))
  /\ (dados (cache_estatisticas w) = None
      \/ timestamp (cache_estatisticas w) = None
      \/ (exists t, timestamp (cache_estatisticas w) = Some t
                    /\ 300 * 1000000 <= agora - t) ->
      estatisticas db agora w
      = (Ok (jsonify (JEstatisticas (estatisticas_de db))),
         {| cache_estatisticas :=
              {| dados := Some (estatisticas_de db);
                 timestamp := Some agora;
                 timeout := 300 |};
            executed := executed w ++ consultas_estatisticas |})).
Proof.
  intros Hto. split.
  - intros d t Hd Ht Hage. apply estatisticas_hit.
    unfold cache_valido. rewrite Hd, Ht, Hto.
    destruct (agora - t <? 300 * 1000000) eqn:E;
      [reflexivity | apply Z.ltb_ge in E; lia].
  - intros H. rewrite estatisticas_miss; [now rewrite Hto|].
    unfold cache_valido. rewrite Hto.
    destruct H as [H | [H | [t [H Hage]]]]; rewrite H.
    + reflexivity.
    + now destruct (dados (cache_estatisticas w)).
    + destruct (dados (cache_estatisticas w)); [|reflexivity].
      destruct (agora - t <? 300 * 1000000) eqn:E;
        [apply Z.ltb_lt in E; lia | reflexivity].
Qed.

Lemma C3_cache_hit_and_miss_witness :
  estatisticas db_exemplo 0 mundo_inicial
  = (Ok (jsonify (JEstatisticas (estatisticas_de db_exemplo))),
     {| cache_estatisticas :=
          {| dados := Some (estatisticas_de db_exemplo);
             timestamp := Some 0;
             timeout := 300 |};
        executed := consultas_estatisticas |}).
Proof.
  destruct (C3_cache_hit_and_miss db_exemplo 0 mundo_inicial eq_refl)
    as [_ H].
  apply H. left. reflexivity.
Defined.

(** The three calls of the specification's scenario: population at T0, a
    hit at T0 + 100 s that returns the stored value although the store has
    changed meanwhile, a recomputation at T0 + 301 s. *)
Example cache_cenario (t0 : Z) :
  let w1 := snd (estatisticas db_exemplo t0 mundo_inicial) in
  let r2 := estatisticas db_historico (t0 + 100 * 1000000) w1 in
  let r3 := estatisticas db_historico (t0 + 301 * 1000000) (snd r2) in
  r2 = (Ok (jsonify (JEstatisticas (estatisticas_de db_exemplo))), w1)
  /\ fst r3 = Ok (jsonify (JEstatisticas (estatisticas_de db_historico)))
  /\ timestamp (cache_estatisticas (snd r3)) = Some (t0 + 301 * 1000000)
  /\ executed (snd r3) = consultas_estatisticas ++ consultas_estatisticas.
Proof.
  intros w1 r2 r3.
  assert (H1 : estatisticas db_exemplo t0 mundo_inicial
               = (Ok (jsonify (JEstatisticas (estatisticas_de db_exemplo))),
                  {| cache_estatisticas :=
                       {| dados := Some (estatisticas_de db_exemplo);
                          timestamp := Some t0; timeout := 300 |};
                     executed := consultas_estatisticas |})).
  { now rewrite estatisticas_miss. }
  assert (H2 : r2 = (Ok (jsonify (JEstatisticas (estatisticas_de db_exemplo))),
                     w1)).
  { unfold r2, w1. rewrite H1. cbn [snd]. apply estatisticas_hit.
    unfold cache_valido. cbn [cache_estatisticas dados timestamp timeout].
    destruct (t0 + 100 * 1000000 - t0 <? 300 * 1000000) eqn:E;
      [reflexivity | apply Z.ltb_ge in E; lia]. }
  split; [exact H2|].
  unfold r3. rewrite H2. cbn [snd]. unfold w1. rewrite H1. cbn [snd].
  rewrite estatisticas_miss.
  - repeat split.
  - unfold cache_valido. cbn [cache_estatisticas dados timestamp timeout].
    destruct (t0 + 301 * 1000000 - t0 <? 300 * 1000000) eqn:E;
      [apply Z.ltb_lt in E; lia | reflexivity].
Qed.

(** ** C5: the totals of the summary *)






Lemma exact_inteiro (x : double) :
  inteiro x -> exists n : Z, 0 <= n < 2 ^ 53 /\ x = of_int n
                             /\ (exact x == inject_Z n)%Q.
Proof.
  intros [n [Hn ->]]. exists n. repeat split; try lia.
  now apply exact_of_int.
Qed.

Lemma soma_exata_cons (x : double) (l : list double) :
  soma_exata (x :: l) = (exact x + soma_exata l)%Q.
Proof. reflexivity. Qed.

Lemma soma_exata_nonneg (l : list double) :
  Forall inteiro l -> (0 <= soma_exata l)%Q.
Proof.
  induction 1 as [|x t Hx _ IH]; [apply Qle_refl|].
  rewrite soma_exata_cons.
  destruct (exact_inteiro x Hx) as [n [Hn [_ He]]]. rewrite He.
  replace 0%Q with (0 + 0)%Q by reflexivity.
  apply Qplus_le_compat; [|exact IH].
  unfold Qle, inject_Z. cbn [Qnum Qden]. lia.
Qed.

Lemma Qlt_inject_Z (a b : Z) : (inject_Z a < inject_Z b)%Q <-> a < b.
Proof. unfold Qlt, inject_Z. cbn [Qnum Qden]. lia. Qed.

Lemma Qle_inject_Z (a b : Z) : (inject_Z a <= inject_Z b)%Q <-> a <= b.
Proof. unfold Qle, inject_Z. cbn [Qnum Qden]. lia. Qed.

(** Over whole numbers whose sum stays below 2^53 no addition of the
    accumulator rounds. *)
Lemma fold_add_inteiros (l : list double) (a : Z) :
  0 <= a -> Forall inteiro l ->
  (inject_Z a + soma_exata l < inject_Z (2 ^ 53))%Q ->
  exists S : Z,
    0 <= S /\ a + S < 2 ^ 53
    /\ (soma_exata l == inject_Z S)%Q
    /\ fold_left add l (of_int a) = of_int (a + S).
Proof.
  intros Ha Hl. revert a Ha.
  induction Hl as [|x t Hx Ht IH]; intros a Ha Hb.
  - exists 0. cbn [fold_left]. rewrite Z.add_0_r.
    change (soma_exata []) with 0%Q in *. rewrite Qplus_0_r in Hb.
    apply (proj1 (Qlt_inject_Z _ _)) in Hb.
    split; [lia|]. split; [exact Hb|]. split; reflexivity.
  - destruct (exact_inteiro x Hx) as [n [Hn [-> He]]].
    rewrite soma_exata_cons, He in Hb.
    pose proof (soma_exata_nonneg t Ht) as Hnn.
    assert (Hb' : (inject_Z (a + n) + soma_exata t < inject_Z (2 ^ 53))%Q).
    { rewrite inject_Z_plus. now rewrite <- Qplus_assoc. }
    assert (Han : a + n < 2 ^ 53).
    { apply (proj1 (Qlt_inject_Z _ _)). eapply Qle_lt_trans; [|exact Hb'].
      rewrite <- (Qplus_0_r (inject_Z (a + n))) at 1.
      apply Qplus_le_compat; [apply Qle_refl | exact Hnn]. }
    destruct (IH (a + n) ltac:(lia) Hb') as [S [HS [Hlt [Hs Hf]]]].
    exists (n + S). cbn [fold_left].
    rewrite add_whole by lia. rewrite Hf.
    split; [lia|]. split; [lia|]. split.
    + rewrite soma_exata_cons, He, Hs, inject_Z_plus. reflexivity.
    + f_equal. lia.
Qed.

Lemma rSum_inteiros (l : list double) :
  Forall inteiro l ->
  (soma_exata l < inject_Z (2 ^ 53))%Q ->
  exists S : Z,
    0 <= S < 2 ^ 53
    /\ (soma_exata l == inject_Z S)%Q
    /\ rSum l = of_int S.
Proof.
  intros Hl Hb.
  destruct (fold_add_inteiros l 0 ltac:(lia) Hl) as [S [HS [Hlt [Hs Hf]]]].
  { now rewrite Qplus_0_l. }
  exists S. split; [lia|]. split; [exact Hs|].
  unfold rSum. rewrite <- of_int_0. exact Hf.
Qed.

(** A whole number goes through [x or 0] and [round(x, 2)] unchanged. *)
Lemma round2_of_int (n : Z) :
  0 <= n < 2 ^ 53 ->
  (numero (round2 (or_zero (sql_real (of_int n)))) == inject_Z n)%Q.
Proof.
  intros Hn. destruct (Z.eq_dec n 0) as [->|H0]; [reflexivity|].
  assert (Hw : of_int n = whole false n) by (apply of_int_whole; lia).
  assert (Hr : round2 (or_zero (sql_real (of_int n))) = PyFloat (of_int n)).
  { rewrite <- (float_round2_of_int n Hn) at 2. rewrite Hw. reflexivity. }
  rewrite Hr. cbn [numero]. now apply exact_of_int.
Qed.


(** Over whole numbers the total of the summary is exact. *)
Lemma resumo_total_inteiro (db : Store) :
  valores_inteiros db ->
  (numero (round2 (or_zero (sum_valor db)))
   == soma_exata (map valor (despesas db)))%Q.
Proof.
  intros [Hint Hb]. unfold sum_valor.
  destruct (despesas db) as [|d ds] eqn:E; [reflexivity|].
  rewrite <- E in *.
  assert (Hmap : Forall inteiro (map valor (despesas db)))
    by (apply Forall_map; exact Hint).
  destruct (rSum_inteiros _ Hmap Hb) as [S [HS [Hs Hr]]].
  rewrite Hr, Hs. now apply round2_of_int.
Qed.



Lemma db_exemplo_inteiros : valores_inteiros db_exemplo.
Proof.
  split.
  - repeat constructor; cbn [valor despesa_ex];
      eexists; (split; [|reflexivity]); lia.
  - vm_compute. reflexivity.
Qed.


(** The specification's example: expenses 100, 200 and 50 give a total of
    350 and a mean of 116.67, the double nearest to that decimal. *)
Example resumo_exemplo :
  total_despesas (resumo (estatisticas_de db_exemplo)) = PyFloat (of_int 350)
  /\ media_despesas (resumo (estatisticas_de db_exemplo))
     = PyFloat (quotient false 11667 100).
Proof. split; vm_compute; reflexivity. Qed.

(** ** GROUP BY over the join, when [cnpj] is a key *)

Section GroupingFacts.
Context {K : Type} (keq : K -> K -> bool).
Hypothesis keq_refl : forall k, keq k k = true.

Lemma filter_keep_all (f : K -> bool) (l : list K) :
  (forall x, In x l -> f x = true) -> filter f l = l.
Proof.
  induction l as [|x t IH]; simpl; intros H.
  - reflexivity.
  - rewrite (H x) by now left. f_equal. apply IH.
    intros y Hy. apply H. now right.
Qed.

Lemma filter_none (f : K -> bool) (l : list K) :
  (forall x, In x l -> f x = false) -> filter f l = [].
Proof.
  induction l as [|x t IH]; simpl; intros H.
  - reflexivity.
  - rewrite (H x) by now left. apply IH.
    intros y Hy. apply H. now right.
Qed.
End GroupingFacts.

Section DistinctFacts.
Context {K : Type} (keq : K -> K -> bool).
Hypothesis keq_eq : forall a b, keq a b = true <-> a = b.

Lemma distinct_In (l : list K) (x : K) : In x (distinct keq l) <-> In x l.
Proof.
  induction l as [|k t IH]; simpl; [tauto|].
  rewrite filter_In, IH. split.
  - intros [H | [H _]]; auto.
  - intros [H | H]; [now left|].
    destruct (keq k x) eqn:E.
    + left. now apply keq_eq.
    + right. now split.
Qed.

Lemma distinct_NoDup (l : list K) : NoDup (distinct keq l).
Proof.
  induction l as [|k t IH]; simpl; constructor.
  - intros H. apply filter_In in H. destruct H as [_ H].
    rewrite (proj2 (keq_eq k k) eq_refl) in H. discriminate.
  - now apply NoDup_filter.
Qed.
End DistinctFacts.

Lemma key_eqb_eq (a b : pystr * pystr) : key_eqb a b = true <-> a = b.
Proof.
  unfold key_eqb. rewrite andb_true_iff, !pystr_eqb_eq.
  destruct a, b; simpl. split; [intros [-> ->] | intros [= -> ->]]; auto.
Qed.

Lemma key_eqb_refl (a : pystr * pystr) : key_eqb a a = true.
Proof. now apply key_eqb_eq. Qed.

Lemma NoDup_map_filter {A B} (g : A -> B) (f : A -> bool) (l : list A) :
  NoDup (map g l) -> NoDup (map g (filter f l)).
Proof.
  induction l as [|x t IH]; simpl; intros Hnd; [constructor|].
  inversion Hnd as [|y ys Hnotin Hnd']; subst.
  destruct (f x); [|now apply IH]. simpl. constructor; [|now apply IH].
  intros Hin. apply Hnotin. apply in_map_iff in Hin.
  destruct Hin as [z [Hz Hin]]. apply filter_In in Hin.
  rewrite <- Hz. apply in_map. tauto.
Qed.

(** With [cnpj] a key, the lookup of an operator by its identifier finds
    that operator alone. *)
Lemma operadora_unica (ops : list Operadora) (o : Operadora) :
  NoDup (map cnpj ops) -> In o ops ->
  filter (fun o' => pystr_eqb (cnpj o') (cnpj o)) ops = [o].
Proof.
  induction ops as [|a t IH]; intros Hnd Hin; [contradiction|].
  inversion Hnd as [|c cs Hnotin Hnd']; subst. cbn [filter].
  destruct Hin as [-> | Hin].
  - rewrite pystr_eqb_refl. f_equal.
    apply filter_none. intros x Hx.
    destruct (pystr_eqb (cnpj x) (cnpj o)) eqn:E; [|reflexivity].
    apply pystr_eqb_eq in E. exfalso. apply Hnotin. rewrite <- E.
    now apply in_map.
  - destruct (pystr_eqb (cnpj a) (cnpj o)) eqn:E.
    + apply pystr_eqb_eq in E. exfalso. apply Hnotin. rewrite E.
      now apply in_map.
    + now apply IH.
Qed.


Section JoinFacts.
Variable db : Store.

Let k (o : Operadora) : pystr * pystr := (cnpj o, razao_social o).
Let key (od : Operadora * Despesa) : pystr * pystr :=
  (cnpj (fst od), razao_social (fst od)).

Lemma joined_In (o : Operadora) (d : Despesa) :
  In (o, d) (joined db)
  <-> In o (operadoras db) /\ In d (despesas_de db (cnpj o)).
Proof.
  unfold joined, despesas_de. rewrite in_flat_map, filter_In. split.
  - intros [x [Hx Hin]]. apply in_map_iff in Hin.
    destruct Hin as [o' [[= -> ->] Ho]]. apply filter_In in Ho.
    destruct Ho as [Ho Hc]. apply pystr_eqb_eq in Hc.
    repeat split; [exact Ho | exact Hx |]. apply pystr_eqb_eq. congruence.
  - intros [Ho [Hd Hc]]. exists d. split; [exact Hd|].
    apply in_map_iff. exists o. split; [reflexivity|].
    apply filter_In. split; [exact Ho|].
    apply pystr_eqb_eq. apply pystr_eqb_eq in Hc. congruence.
Qed.

(** The rows of the join that carry the key of [o] are [o] with each of
    its expense records, in storage order. *)
Lemma rows_of_group (o : Operadora) :
  primary_key db -> In o (operadoras db) ->
  filter (fun r => key_eqb (key r) (k o)) (joined db)
  = map (pair o) (despesas_de db (cnpj o)).
Proof.
  intros Hpk Ho. unfold joined, despesas_de.
  induction (despesas db) as [|d t IH]; [reflexivity|].
  cbn [flat_map filter]. rewrite filter_app, IH.
  destruct (pystr_eqb (d_cnpj d) (cnpj o)) eqn:E.
  - apply pystr_eqb_eq in E. rewrite E.
    rewrite (operadora_unica _ o Hpk Ho). cbn [map filter].
    unfold key at 1. cbn [fst]. fold (k o). rewrite key_eqb_refl.
    reflexivity.
  - rewrite filter_none; [reflexivity|].
    intros [o' d'] Hx. apply in_map_iff in Hx.
    destruct Hx as [o'' [[= -> ->] Hin]]. apply filter_In in Hin.
    destruct Hin as [_ Hc]. apply pystr_eqb_eq in Hc.
    destruct (key_eqb (key (o', d')) (k o)) eqn:Ek; [|reflexivity].
    apply key_eqb_eq in Ek. unfold key, k in Ek. cbn [fst] in Ek.
    injection Ek as E1 E2. rewrite <- Hc, E1, pystr_eqb_refl in E.
    discriminate.
Qed.

Lemma NoDup_keys (ops : list Operadora) :
  NoDup (map cnpj ops) -> NoDup (map k ops).
Proof.
  induction ops as [|o t IH]; simpl; intros Hnd; [constructor|].
  inversion Hnd as [|c cs Hnotin Hnd']; subst. constructor; [|now apply IH].
  intros Hin. apply Hnotin. apply in_map_iff in Hin.
  destruct Hin as [o' [Hk Ho']]. unfold k in Hk. injection Hk as E1 E2.
  rewrite <- E1. now apply in_map.
Qed.

(** The keys of the groups are those of the operators that have expense
    records. *)
Lemma chaves_dos_grupos :
  primary_key db ->
  Permutation (distinct key_eqb (map key (joined db)))
              (map k (com_despesas db)).
Proof.
  intros Hpk. apply NoDup_Permutation.
  - apply (distinct_NoDup key_eqb key_eqb_eq).
  - apply NoDup_keys. unfold com_despesas. now apply NoDup_map_filter.
  - intros x. rewrite (distinct_In key_eqb key_eqb_eq), !in_map_iff. split.
    + intros [[o d] [Hx Hin]]. apply joined_In in Hin.
      destruct Hin as [Ho Hd]. exists o. split; [exact Hx|].
      apply filter_In. split; [exact Ho|].
      unfold tem_despesas. destruct (despesas_de db (cnpj o));
        [contradiction | reflexivity].
    + intros [o [Hx Hin]]. apply filter_In in Hin. destruct Hin as [Ho Ht].
      unfold tem_despesas in Ht.
      destruct (despesas_de db (cnpj o)) as [|d ds] eqn:E; [discriminate|].
      exists (o, d). split; [exact Hx|]. apply joined_In.
      split; [exact Ho|]. rewrite E. now left.
Qed.

(** With [cnpj] a key, the groups are the operators that have expense
    records, each with the total of its own records. *)
Lemma totais_por_operadora_key :
  primary_key db ->
  Permutation (totais_por_operadora db)
              (map (linha_total db) (com_despesas db)).
Proof.
  intros Hpk. unfold totais_por_operadora, group_by. fold key.
  rewrite map_map.
  eapply Permutation_trans;
    [apply Permutation_map, order_by_perm|].
  eapply Permutation_trans;
    [apply Permutation_map, (chaves_dos_grupos Hpk)|].
  rewrite map_map.
  assert (Hext : map (fun o => top_row (k o,
                        filter (fun r => key_eqb (key r) (k o)) (joined db)))
                     (com_despesas db)
                 = map (linha_total db) (com_despesas db)).
  { apply map_ext_in. intros o Ho. apply filter_In in Ho.
    destruct Ho as [Ho _]. rewrite (rows_of_group o Hpk Ho).
    unfold top_row, linha_total, k. cbn [fst snd]. now rewrite map_map. }
  rewrite <- Hext. apply Permutation_refl.
Qed.
End JoinFacts.

(** ** C4: the ranking of the five largest sums *)


Lemma StronglySorted_app_left {A} (R : A -> A -> Prop) (l1 l2 : list A) :
  StronglySorted R (l1 ++ l2) -> StronglySorted R l1.
Proof.
  induction l1 as [|a t IH]; simpl; intros Hs; [constructor|].
  inversion Hs as [|a' l' Hs' Hall]; subst. constructor.
  - now apply IH.
  - apply Forall_app in Hall. tauto.
Qed.


(** The comparison of REAL results is total and transitive. *)
Lemma real_leb_total (a b : option double) :
  real_leb a b = false -> real_leb b a = true.
Proof.
  unfold real_leb, sql_real.
  destruct a as [x|], b as [y|]; try discriminate; try reflexivity;
    destruct (is_nan x) eqn:Ex; try discriminate; try reflexivity;
    destruct (is_nan y) eqn:Ey; try discriminate; try reflexivity.
  now apply leb_total.
Qed.

Lemma real_leb_trans (a b c : option double) :
  real_leb a b = true -> real_leb b c = true -> real_leb a c = true.
Proof.
  unfold real_leb, sql_real.
  destruct a as [x|], b as [y|], c as [z|]; try discriminate; try reflexivity;
    try (destruct (is_nan x) eqn:Ex); try discriminate; try reflexivity;
    try (destruct (is_nan y) eqn:Ey); try discriminate; try reflexivity;
    try (destruct (is_nan z) eqn:Ez); try discriminate; try reflexivity.
  now apply leb_trans.
Qed.

Lemma select_top_firstn (db : Store) :
  select_top db = firstn 5 (order_by by_total_desc (totais_por_operadora db)).
Proof. reflexivity. Qed.



Lemma soma_de_filter (c : pystr) (l : list Despesa) :
  soma_de c l
  = soma_exata (map valor (filter (fun d => pystr_eqb (d_cnpj d) c) l)).
Proof.
  induction l as [|d t IH]; [reflexivity|].
  cbn [soma_de filter]. unfold pystr_eqb at 1.
  destruct (list_eq_dec N.eq_dec (d_cnpj d) c).
  - cbn [map]. rewrite soma_exata_cons. now rewrite IH.
  - exact IH.
Qed.

Lemma soma_de_le (c : pystr) (l : list Despesa) :
  Forall (fun d => inteiro (valor d)) l ->
  (0 <= soma_de c l)%Q /\ (soma_de c l <= soma_exata (map valor l))%Q.
Proof.
  induction 1 as [|d t Hd _ [IH0 IH]]; [split; apply Qle_refl|].
  cbn [soma_de map]. rewrite soma_exata_cons.
  destruct (exact_inteiro _ Hd) as [n [Hn [_ He]]].
  assert (H0 : (0 <= exact (valor d))%Q).
  { rewrite He. apply (proj2 (Qle_inject_Z 0 n)). lia. }
  destruct (list_eq_dec N.eq_dec (d_cnpj d) c).
  - split.
    + replace 0%Q with (0 + 0)%Q by reflexivity. now apply Qplus_le_compat.
    + apply Qplus_le_compat; [apply Qle_refl | exact IH].
  - split; [exact IH0|].
    rewrite <- (Qplus_0_l (soma_de c t)).
    now apply Qplus_le_compat.
Qed.

Lemma is_nan_of_int (n : Z) : 0 <= n < 2 ^ 53 -> is_nan (of_int n) = false.
Proof.
  intros Hn. destruct (Z.eq_dec n 0) as [->|H0]; [reflexivity|].
  now rewrite of_int_whole by lia.
Qed.

(** Over whole numbers the total of an operator is exact. *)
Lemma total_inteiro (db : Store) (c : pystr) :
  valores_inteiros db ->
  exists S : Z,
    0 <= S < 2 ^ 53
    /\ (soma_de c (despesas db) == inject_Z S)%Q
    /\ sql_real (rSum (map valor (despesas_de db c))) = Some (of_int S).
Proof.
  intros [Hint Hb].
  assert (Hsub : Forall inteiro (map valor (despesas_de db c))).
  { apply Forall_map. unfold despesas_de.
    rewrite Forall_forall in *. intros d Hd. apply filter_In in Hd.
    now apply Hint. }
  assert (Hlt : (soma_exata (map valor (despesas_de db c))
                 < inject_Z (2 ^ 53))%Q).
  { unfold despesas_de. rewrite <- soma_de_filter.
    eapply Qle_lt_trans; [apply (soma_de_le c _ Hint) | exact Hb]. }
  destruct (rSum_inteiros _ Hsub Hlt) as [S [HS [Hs Hr]]].
  exists S. split; [exact HS|]. split.
  - rewrite soma_de_filter. exact Hs.
  - rewrite Hr. unfold sql_real. now rewrite is_nan_of_int.
Qed.




Lemma db_exemplo_primary_key : primary_key db_exemplo.
Proof.
  unfold primary_key. vm_compute.
  repeat constructor; simpl; intuition discriminate.
Qed.


(** The specification's example: B has no expense and is left out, A
    (300) ranks above C (50), and [num_operadoras] is 2 although the
    store holds 3 operators. *)
Example ranking_exemplo :
  top_operadoras (estatisticas_de db_exemplo)
  = [ {| t_cnpj := str "A"; t_razao_social := str "Alfa";
         t_total_despesas := Some (of_int 300) |};
      {| t_cnpj := str "C"; t_razao_social := str "Gama";
         t_total_despesas := Some (of_int 50) |} ]
  /\ num_operadoras (resumo (estatisticas_de db_exemplo)) = 2
  /\ length (operadoras db_exemplo) = 3%nat.
Proof. repeat split; vm_compute; reflexivity. Qed.


(* ================================================================== *)
(** * Further properties of the handlers *)

(** ** The listing: order, coverage, edges *)

Lemma text_leb_total (a b : pystr) : text_leb a b = false -> text_leb b a = true.
Proof.
  revert b. induction a as [|x a IH]; intros [|y b]; simpl; try congruence.
  destruct (x <? y)%N eqn:E1; [congruence|].
  destruct (y <? x)%N eqn:E2; [congruence|]. apply IH.
Qed.

Lemma text_leb_trans (a b c : pystr) :
  text_leb a b = true -> text_leb b c = true -> text_leb a c = true.
Proof.
  revert b c. induction a as [|x a IH]; intros [|y b] [|z c]; simpl;
    try congruence.
  destruct (x <? y)%N eqn:E1, (y <? x)%N eqn:E2,
           (y <? z)%N eqn:E3, (z <? y)%N eqn:E4,
           (x <? z)%N eqn:E5, (z <? x)%N eqn:E6;
    try congruence;
    rewrite ?N.ltb_lt, ?N.ltb_ge in *; try lia.
  apply IH.
Qed.

Lemma text_leb_antisym (a b : pystr) :
  text_leb a b = true -> text_leb b a = true -> a = b.
Proof.
  revert b. induction a as [|x a IH]; intros [|y b]; simpl; try congruence.
  destruct (x <? y)%N eqn:E1, (y <? x)%N eqn:E2; try congruence;
    rewrite ?N.ltb_lt, ?N.ltb_ge in *; try lia.
  intros H1 H2. f_equal; [lia | now apply IH].
Qed.

Lemma StronglySorted_app_right {A} (R : A -> A -> Prop) (l1 l2 : list A) :
  StronglySorted R (l1 ++ l2) -> StronglySorted R l2.
Proof.
  induction l1 as [|a t IH]; simpl; intros Hs; [exact Hs|].
  inversion Hs; subst. now apply IH.
Qed.

Lemma limit_offset_sorted {A} (R : A -> A -> Prop) (lim off : Z) (l : list A) :
  StronglySorted R l -> StronglySorted R (limit_offset lim off l).
Proof.
  intros Hs. unfold limit_offset.
  assert (Hskip : StronglySorted R (skipn (Z.to_nat off) l)).
  { apply StronglySorted_app_right with (l1 := firstn (Z.to_nat off) l).
    now rewrite firstn_skipn. }
  destruct (lim <? 0); [exact Hskip|].
  apply StronglySorted_app_left
    with (l2 := skipn (Z.to_nat lim) (skipn (Z.to_nat off) l)).
  now rewrite firstn_skipn.
Qed.

Lemma ordenadas_sorted (db : Store) (busca : pystr) :
  StronglySorted razao_asc (ordenadas db busca).
Proof.
  unfold ordenadas.
  apply StronglySorted_impl with (R := fun a b => by_razao_social a b = true).
  - intros a b H. exact H.
  - apply order_by_sorted.
    + intros a b. apply text_leb_total.
    + intros a b c. apply text_leb_trans.
Qed.

(** X1: every envelope lists its rows by legal name ascending (code points
    compared from the left), whatever the page, the limit (also a negative
    one) and the filter are. *)
Theorem listar_slice_sorted (db : Store) (args : Args) (w : World)
        (p l0 : Z) :
  int_arg args (str "page") 1 = Ok p ->
  int_arg args (str "limit") 10 = Ok l0 ->
  fits_int64 (Z.min l0 100) = true ->
  fits_int64 ((p - 1) * Z.min l0 100) = true ->
  Z.min l0 100 <> 0 ->
  padrao_aceito (busca_de args) ->
  exists pg : Pagina,
    fst (listar_operadoras db args w) = Ok (jsonify (JPagina pg))
    /\ StronglySorted razao_asc (data pg)
    /\ (forall o, In o (data pg) ->
          In o (operadoras db) /\ casa_like (busca_de args) o = true).
Proof.
  intros Hp Hl Hfl Hfo Hnz Hpat.
  rewrite (listar_operadoras_ok db args w p l0 Hp Hl Hfl Hfo Hnz Hpat).
  eexists. split; [reflexivity|]. cbn [data]. split.
  - apply limit_offset_sorted, ordenadas_sorted.
  - intros o Ho. apply limit_offset_incl in Ho.
    unfold ordenadas in Ho. apply order_by_In in Ho.
    unfold filtradas in Ho. now apply filter_In in Ho.
Qed.

Lemma listar_slice_sorted_witness :
  exists pg : Pagina,
    fst (listar_operadoras db_exemplo
           (pedido [("page", "1"); ("limit", "-2")]%string) mundo_inicial)
    = Ok (jsonify (JPagina pg))
    /\ StronglySorted razao_asc (data pg).
Proof.
  destruct (listar_slice_sorted db_exemplo
              (pedido [("page", "1"); ("limit", "-2")]%string)
              mundo_inicial 1 (-2)) as [pg [H1 [H2 _]]].
  - reflexivity.
  - reflexivity.
  - reflexivity.
  - reflexivity.
  - discriminate.
  - padrao_computado.
  - exists pg. split; assumption.
Defined.

Lemma firstn_plus {A} (a b : nat) (l : list A) :
  firstn (a + b) l = firstn a l ++ firstn b (skipn a l).
Proof.
  revert l. induction a as [|a IH]; intros l; simpl.
  - reflexivity.
  - destruct l as [|x t]; simpl.
    + now rewrite firstn_nil.
    + now rewrite IH.
Qed.

(** Windows of [k] rows laid end to end. *)
Lemma windows_concat {A} (k m : nat) (l : list A) :
  concat (map (fun i => firstn k (skipn (i * k) l)) (seq 0 m))
  = firstn (m * k) l.
Proof.
  induction m as [|m IH].
  - reflexivity.
  - rewrite seq_S, map_app, concat_app, IH. cbn [map concat Nat.add].
    rewrite app_nil_r. cbn [Nat.mul].
    rewrite (Nat.add_comm k (m * k)). symmetry. apply firstn_plus.
Qed.

(** X2: the pages of one listing tile the filtered rows.  For a limit in
    1..100, requests for pages 1, 2, ..., total_pages with the same limit
    and the same filter return slices that, laid end to end, are exactly
    the filtered rows in legal-name order: no row is skipped or repeated
    across pages. *)
Theorem listar_pages_tile (db : Store) (w : World) (req : nat -> Args)
        (busca : pystr) (l : Z) (paginas : nat) :
  1 <= l <= 100 ->
  padrao_aceito busca ->
  Z.of_nat (length (filtradas db busca)) <= int64_max ->
  paginas
  = Z.to_nat ((Z.of_nat (length (filtradas db busca)) + l - 1) / l) ->
  (forall i : nat,
      (1 <= i <= paginas)%nat ->
      int_arg (req i) (str "page") 1 = Ok (Z.of_nat i)
      /\ int_arg (req i) (str "limit") 10 = Ok l
      /\ busca_de (req i) = busca) ->
  concat (map (fun i => dados_de (fst (listar_operadoras db (req i) w)))
              (seq 1 paginas))
  = ordenadas db busca.
Proof.
  intros Hl Hpat Hmax Hpaginas Hreq.
  set (T := Z.of_nat (length (filtradas db busca))) in *.
  assert (HT : 0 <= T) by (unfold T; lia).
  assert (Hmin : Z.min l 100 = l) by lia.
  pose proof (Z.mul_div_le (T + l - 1) l ltac:(lia)) as Hlo.
  pose proof (Z.mul_succ_div_gt (T + l - 1) l ltac:(lia)) as Hhi.
  assert (Hn : 0 <= (T + l - 1) / l) by (apply Z.div_pos; lia).
  assert (Hpage : forall i, In i (seq 1 paginas) ->
            dados_de (fst (listar_operadoras db (req i) w))
            = firstn (Z.to_nat l)
                     (skipn ((i - 1) * Z.to_nat l) (ordenadas db busca))).
  { intros i Hi. apply in_seq in Hi.
    destruct (Hreq i ltac:(lia)) as [Hp [Hlim Hb]].
    assert (Hoff : 0 <= (Z.of_nat i - 1) * l <= int64_max).
    { rewrite Hpaginas in Hi. split; [nia|].
      assert (Z.of_nat i <= (T + l - 1) / l) by lia. nia. }
    rewrite (listar_operadoras_ok db (req i) w (Z.of_nat i) l Hp Hlim).
    - cbn [dados_de jsonify body data]. rewrite Hmin, Hb.
      unfold limit_offset.
      destruct (l <? 0) eqn:E; [apply Z.ltb_lt in E; lia|].
      f_equal. f_equal.
      rewrite Z2Nat.inj_mul by lia. f_equal. lia.
    - rewrite Hmin. apply fits_int64_range.
      unfold int64_min, int64_max. lia.
    - rewrite Hmin. apply fits_int64_range.
      unfold int64_min, int64_max in *. lia.
    - lia.
    - now rewrite Hb. }
  rewrite (map_ext_in _ _ _ Hpage).
  rewrite <- seq_shift, map_map.
  rewrite (map_ext (fun i => firstn (Z.to_nat l)
                               (skipn ((S i - 1) * Z.to_nat l)
                                      (ordenadas db busca)))
                   (fun i => firstn (Z.to_nat l)
                               (skipn (i * Z.to_nat l) (ordenadas db busca)))).
  2:{ intros i. now rewrite Nat.sub_succ, Nat.sub_0_r. }
  rewrite windows_concat. apply firstn_all2.
  unfold ordenadas. rewrite order_by_length.
  rewrite Hpaginas. fold T in Hlo, Hhi.
  assert (Z.of_nat (length (filtradas db busca))
          <= Z.of_nat (Z.to_nat ((T + l - 1) / l) * Z.to_nat l)).
  { rewrite Nat2Z.inj_mul, !Z2Nat.id by lia. fold T. nia. }
  lia.
Qed.

Lemma listar_pages_tile_witness :
  concat (map (fun i =>
                 dados_de (fst (listar_operadoras db_exemplo
                     (match i with
                      | 1%nat => pedido [("page", "1"); ("limit", "2")]%string
                      | _ => pedido [("page", "2"); ("limit", "2")]%string
                      end) mundo_inicial)))
              (seq 1 2))
  = ordenadas db_exemplo [].
Proof.
  apply (listar_pages_tile db_exemplo mundo_inicial
           (fun i => match i with
                     | 1%nat => pedido [("page", "1"); ("limit", "2")]%string
                     | _ => pedido [("page", "2"); ("limit", "2")]%string
                     end) [] 2 2).
  - lia.
  - padrao_computado.
  - vm_compute. discriminate.
  - reflexivity.
  - intros i Hi.
    assert (Hc : i = 1%nat \/ i = 2%nat) by lia.
    destruct Hc as [-> | ->]; repeat split; reflexivity.
Defined.

(** X3: the page number has no lower bound either.  A page of 0 or below
    gives a negative offset, which the store reads as no offset: the
    answer is the first [limit] rows, the same slice as page 1, while the
    [page] field repeats the number that was asked. *)
Theorem listar_page_below_one (db : Store) (args : Args) (w : World)
        (p l : Z) :
  int_arg args (str "page") 1 = Ok p ->
  int_arg args (str "limit") 10 = Ok l ->
  p <= 0 ->
  1 <= l <= 100 ->
  int64_min <= (p - 1) * l ->
  padrao_aceito (busca_de args) ->
  exists pg : Pagina,
    fst (listar_operadoras db args w) = Ok (jsonify (JPagina pg))
    /\ page pg = p
    /\ data pg = firstn (Z.to_nat l) (ordenadas db (busca_de args))
    /\ total pg = Z.of_nat (length (filtradas db (busca_de args))).
Proof.
  intros Hp Hl Hp0 Hl1 Hoff Hpat.
  assert (Hmin : Z.min l 100 = l) by lia.
  rewrite (listar_operadoras_ok db args w p l Hp Hl).
  - eexists. split; [reflexivity|]. cbn [page data total]. rewrite Hmin.
    repeat split. unfold limit_offset.
    destruct (l <? 0) eqn:E; [apply Z.ltb_lt in E; lia|].
    replace (Z.to_nat ((p - 1) * l)) with 0%nat by nia. reflexivity.
  - rewrite Hmin. apply fits_int64_range. unfold int64_min, int64_max. lia.
  - rewrite Hmin. apply fits_int64_range.
    unfold int64_min, int64_max in *. nia.
  - lia.
  - exact Hpat.
Qed.

Lemma listar_page_below_one_witness :
  exists pg : Pagina,
    fst (listar_operadoras db_exemplo
           (pedido [("page", "-4"); ("limit", "2")]%string) mundo_inicial)
    = Ok (jsonify (JPagina pg))
    /\ page pg = -4
    /\ data pg
       = firstn (Z.to_nat 2)
                (ordenadas db_exemplo
                   (busca_de (pedido [("page", "-4"); ("limit", "2")]%string)))
    /\ total pg
       = Z.of_nat (length (filtradas db_exemplo
            (busca_de (pedido [("page", "-4"); ("limit", "2")]%string)))).
Proof.
  apply (listar_page_below_one db_exemplo
           (pedido [("page", "-4"); ("limit", "2")]%string)
           mundo_inicial (-4) 2).
  - reflexivity.
  - reflexivity.
  - lia.
  - lia.
  - vm_compute. discriminate.
  - padrao_computado.
Defined.

(** X4: when the limit (after the cap) or the offset is outside SQLite's
    INTEGER range, binding the parameters of the slice statement raises
    [OverflowError]: the handler stops there, the count statement is never
    sent and the client gets a 500. *)
Theorem listar_offset_overflow (db : Store) (args : Args) (w : World)
        (p l0 : Z) :
  int_arg args (str "page") 1 = Ok p ->
  int_arg args (str "limit") 10 = Ok l0 ->
  fits_int64 (Z.min l0 100) && fits_int64 ((p - 1) * Z.min l0 100) = false ->
  listar_operadoras db args w
  = (Raise OverflowError,
     {| cache_estatisticas := cache_estatisticas w;
        executed :=
          executed w
          ++ [SelectPage (tem_busca (busca_de args))
                         (params_busca (busca_de args)
                          ++ [VInt (Z.min l0 100);
                              VInt ((p - 1) * Z.min l0 100)])] |}).
Proof.
  intros Hp Hl Hfits.
  unfold listar_operadoras, bind, lift. rewrite Hp, Hl.
  fold (busca_de args). unfold params_busca, tem_busca.
  destruct (busca_de args) as [|c t];
    unfold execute, query_operadoras; simpl;
    destruct (fits_int64 (Z.min l0 100));
    destruct (fits_int64 ((p - 1) * Z.min l0 100));
    try discriminate; reflexivity.
Qed.

Lemma listar_offset_overflow_witness :
  fst (listar_operadoras db_exemplo
         (pedido [("page", "92233720368547758090"); ("limit", "50")]%string)
         mundo_inicial)
  = Raise OverflowError.
Proof.
  rewrite (listar_offset_overflow db_exemplo
             (pedido [("page", "92233720368547758090"); ("limit", "50")]%string)
             mundo_inicial 92233720368547758090 50).
  - reflexivity.
  - reflexivity.
  - reflexivity.
  - reflexivity.
Defined.

Lemma scan_where_too_long (busca : pystr) (rows : list Operadora) :
  ~ padrao_aceito busca -> rows <> [] ->
  scan_where (padrao busca) (padrao busca) rows = Raise OperationalError.
Proof.
  intros Hlong Hrows. destruct rows as [|o t]; [contradiction|].
  simpl. unfold where_like, like. unfold padrao_aceito in Hlong.
  destruct (max_like_pattern_length <? utf8_len (padrao busca)) eqn:E;
    [reflexivity | apply Z.ltb_ge in E; contradiction].
Qed.

(** X5: a filter text whose pattern [%busca%] exceeds SQLite's LIKE limit
    (50000 bytes of UTF-8) makes the slice statement fail as soon as the
    table has a row: the handler raises [OperationalError] (a 500) and the
    count statement is not sent.  On an empty table the same request is
    answered with an empty envelope. *)
Theorem listar_pattern_too_long (db : Store) (args : Args) (w : World)
        (p l0 : Z) :
  int_arg args (str "page") 1 = Ok p ->
  int_arg args (str "limit") 10 = Ok l0 ->
  fits_int64 (Z.min l0 100) = true ->
  fits_int64 ((p - 1) * Z.min l0 100) = true ->
  Z.min l0 100 <> 0 ->
  ~ padrao_aceito (busca_de args) ->
  (operadoras db <> [] ->
   fst (listar_operadoras db args w) = Raise OperationalError
   /\ executed (snd (listar_operadoras db args w))
      = executed w
        ++ [SelectPage true
              [VText (padrao (busca_de args)); VText (padrao (busca_de args));
               VInt (Z.min l0 100); VInt ((p - 1) * Z.min l0 100)]])
  /\ (operadoras db = [] ->
      exists pg : Pagina,
        fst (listar_operadoras db args w) = Ok (jsonify (JPagina pg))
        /\ data pg = [] /\ total pg = 0).
Proof.
  intros Hp Hl Hfl Hfo Hnz Hlong.
  assert (Hnonempty : exists c t, busca_de args = c :: t).
  { destruct (busca_de args) as [|c t]; [|eauto].
    exfalso. apply Hlong. unfold padrao_aceito. vm_compute. discriminate. }
  destruct Hnonempty as [c [t Hb]].
  unfold listar_operadoras, bind, lift. rewrite Hp, Hl.
  fold (busca_de args). rewrite Hb in *.
  unfold execute, query_operadoras, count_operadoras, select_page. simpl.
  rewrite Hfl, Hfo.
  destruct (Z.min l0 100 =? 0) eqn:E; [apply Z.eqb_eq in E; contradiction|].
  change (percent :: c :: t ++ [percent]) with (padrao (c :: t)).
  split.
  - intros Hrows. rewrite (scan_where_too_long _ _ Hlong Hrows).
    split; reflexivity.
  - intros Hrows. rewrite Hrows. simpl. unfold floordiv. rewrite E.
    eexists. split; [reflexivity|]. cbn [data total].
    repeat split.
    unfold limit_offset. destruct (Z.min l0 100 <? 0).
    + now rewrite skipn_nil.
    + now rewrite skipn_nil, firstn_nil.
Qed.

Lemma rev_repeat_same {A} (x : A) (n : nat) : rev (repeat x n) = repeat x n.
Proof.
  induction n as [|n IH]; simpl; [reflexivity|].
  rewrite IH. symmetry. apply repeat_cons.
Qed.

Lemma strip_repeat (c : N) (n : nat) :
  isspace c = false -> strip (repeat c n) = repeat c n.
Proof.
  intros Hc.
  assert (Hl : lstrip (repeat c n) = repeat c n).
  { destruct n; simpl; [reflexivity | now rewrite Hc]. }
  unfold strip, rstrip. now rewrite Hl, rev_repeat_same, Hl, rev_repeat_same.
Qed.

Lemma utf8_len_repeat (c : N) (n : nat) :
  utf8_len (repeat c n) = Z.of_nat n * utf8_len1 c.
Proof.
  unfold utf8_len. induction n as [|n IH]; [reflexivity|].
  cbn [repeat fold_right]. rewrite IH. lia.
Qed.

Lemma listar_pattern_too_long_witness :
  fst (listar_operadoras db_exemplo
         [(str "busca", repeat 128512%N (125 * 100))] mundo_inicial)
  = Raise OperationalError.
Proof.
  destruct (listar_pattern_too_long db_exemplo
              [(str "busca", repeat 128512%N (125 * 100))] mundo_inicial 1 10)
    as [H _].
  - reflexivity.
  - reflexivity.
  - reflexivity.
  - reflexivity.
  - discriminate.
  - unfold padrao_aceito, busca_de. rewrite args_get_first.
    rewrite strip_repeat by reflexivity.
    rewrite utf8_len_padrao, utf8_len_repeat, Nat2Z.inj_mul.
    change (utf8_len1 128512) with 4. unfold max_like_pattern_length. lia.
  - apply H. discriminate.
Defined.

(** ** The filter text: letter case and blanks *)

Lemma ascii_lower_idem (c : N) : ascii_lower (ascii_lower c) = ascii_lower c.
Proof.
  unfold ascii_lower, between.
  destruct ((65 <=? c) && (c <=? 90))%N eqn:E; [|now rewrite E].
  apply andb_true_iff in E. destruct E as [E1 E2].
  apply N.leb_le in E1, E2.
  destruct ((65 <=? c + 32) && (c + 32 <=? 90))%N eqn:E'; [|reflexivity].
  apply andb_true_iff in E'. destruct E' as [_ E4]. apply N.leb_le in E4. lia.
Qed.

Lemma ascii_lower_special (c x : N) :
  (x < 65 \/ (90 < x < 97) \/ 122 < x)%N ->
  (ascii_lower c =? x)%N = (c =? x)%N.
Proof.
  intros Hx. unfold ascii_lower, between.
  destruct ((65 <=? c) && (c <=? 90))%N eqn:E; [|reflexivity].
  apply andb_true_iff in E. destruct E as [E1 E2].
  apply N.leb_le in E1, E2.
  destruct (c + 32 =? x)%N eqn:A, (c =? x)%N eqn:B; try reflexivity;
    rewrite ?N.eqb_eq, ?N.eqb_neq in *; lia.
Qed.

Lemma utf8_len_lower (s : pystr) : utf8_len (map ascii_lower s) = utf8_len s.
Proof.
  unfold utf8_len. induction s as [|c t IH]; simpl; [reflexivity|].
  rewrite IH. f_equal. unfold utf8_len1, ascii_lower, between.
  destruct ((65 <=? c) && (c <=? 90))%N eqn:E; [|reflexivity].
  apply andb_true_iff in E. destruct E as [E1 E2].
  apply N.leb_le in E1, E2.
  destruct (c + 32 <? 128)%N eqn:A, (c <? 128)%N eqn:B; try reflexivity;
    rewrite ?N.ltb_lt, ?N.ltb_ge in *; lia.
Qed.

Lemma c_str_lower (s : pystr) : c_str (map ascii_lower s) = map ascii_lower (c_str s).
Proof.
  induction s as [|c t IH]; simpl; [reflexivity|].
  rewrite (ascii_lower_special c 0) by lia.
  destruct (c =? 0)%N; [reflexivity | simpl; now rewrite IH].
Qed.

Lemma like_match_lower (p s : pystr) :
  like_match (map ascii_lower p) s = like_match p s.
Proof.
  revert s. induction p as [|c p IH]; intros s; [reflexivity|].
  cbn [map].
  destruct (c =? percent)%N eqn:Ep.
  - apply N.eqb_eq in Ep. subst c.
    change (ascii_lower percent) with percent.
    induction s as [|d s IHs].
    + rewrite !like_percent_cons. now rewrite IH.
    + rewrite (like_percent_cons (map ascii_lower p)), (like_percent_cons p).
      now rewrite IH, IHs.
  - destruct (c =? underscore)%N eqn:Eu.
    + apply N.eqb_eq in Eu. subst c.
      change (ascii_lower underscore) with underscore.
      destruct s as [|d s]; simpl; [reflexivity | apply IH].
    + simpl. unfold percent, underscore in *.
      rewrite (ascii_lower_special c 37), (ascii_lower_special c 95) by lia.
      rewrite Ep, Eu.
      destruct s as [|d s]; [reflexivity|].
      unfold char_eq_nocase. now rewrite ascii_lower_idem, IH.
Qed.

Lemma padrao_lower (b : pystr) :
  padrao (map ascii_lower b) = map ascii_lower (padrao b).
Proof. unfold padrao. now rewrite !map_app. Qed.

Lemma like_lower (t b : pystr) :
  like t (padrao (map ascii_lower b)) = like t (padrao b).
Proof.
  unfold like. rewrite padrao_lower, utf8_len_lower, c_str_lower.
  now rewrite like_match_lower.
Qed.

Lemma scan_where_lower (b : pystr) (rows : list Operadora) :
  scan_where (padrao (map ascii_lower b)) (padrao (map ascii_lower b)) rows
  = scan_where (padrao b) (padrao b) rows.
Proof.
  induction rows as [|o t IH]; simpl; [reflexivity|].
  unfold where_like. now rewrite !like_lower, IH.
Qed.

Lemma query_operadoras_lower (db : Store) (b : pystr) (l o : Z) :
  query_operadoras db true
    [VText (padrao (map ascii_lower b)); VText (padrao (map ascii_lower b));
     VInt l; VInt o]
  = query_operadoras db true
      [VText (padrao b); VText (padrao b); VInt l; VInt o].
Proof.
  unfold query_operadoras. cbn [length Nat.eqb negb bind_params bind_param].
  destruct (fits_int64 l); [|reflexivity].
  destruct (fits_int64 o); [|reflexivity].
  unfold select_page. now rewrite scan_where_lower.
Qed.

Lemma count_operadoras_lower (db : Store) (b : pystr) :
  count_operadoras db true
    [VText (padrao (map ascii_lower b)); VText (padrao (map ascii_lower b))]
  = count_operadoras db true [VText (padrao b); VText (padrao b)].
Proof.
  unfold count_operadoras. cbn [length Nat.eqb negb bind_params bind_param].
  now rewrite scan_where_lower.
Qed.

(** X6: the filter ignores the case of ASCII letters.  Two requests with
    the same page and limit whose filter texts differ only in that one is
    the other with [A-Z] lowered get the same answer: the same envelope or
    the same exception. *)
Theorem listar_busca_case_blind (db : Store) (args1 args2 : Args)
        (w : World) :
  int_arg args2 (str "page") 1 = int_arg args1 (str "page") 1 ->
  int_arg args2 (str "limit") 10 = int_arg args1 (str "limit") 10 ->
  busca_de args2 = map ascii_lower (busca_de args1) ->
  fst (listar_operadoras db args2 w) = fst (listar_operadoras db args1 w).
Proof.
  intros Hp Hl Hb.
  unfold listar_operadoras, bind, lift. rewrite Hp, Hl.
  destruct (int_arg args1 (str "page") 1) as [p|e]; [|reflexivity].
  destruct (int_arg args1 (str "limit") 10) as [l0|e]; [|reflexivity].
  fold (busca_de args1). fold (busca_de args2). rewrite Hb.
  destruct (busca_de args1) as [|c t]; [reflexivity|].
  remember (map ascii_lower (c :: t)) as b2 eqn:Hb2.
  destruct b2 as [|c2 t2]; [discriminate|].
  fold (padrao (c2 :: t2)). fold (padrao (c :: t)).
  cbn [app length firstn Nat.sub]. unfold execute.
  rewrite Hb2, query_operadoras_lower, count_operadoras_lower.
  destruct (query_operadoras db true _) as [rows|e]; [|reflexivity].
  destruct (count_operadoras db true _) as [n|e]; [|reflexivity].
  destruct (floordiv _ _); reflexivity.
Qed.

Lemma listar_busca_case_blind_witness :
  fst (listar_operadoras db_exemplo (pedido [("busca", "alfa")]%string)
                         mundo_inicial)
  = fst (listar_operadoras db_exemplo (pedido [("busca", "ALfa")]%string)
                           mundo_inicial).
Proof.
  apply (listar_busca_case_blind db_exemplo
           (pedido [("busca", "ALfa")]%string)
           (pedido [("busca", "alfa")]%string) mundo_inicial); reflexivity.
Defined.

Lemma lstrip_blank (s : pystr) : forallb isspace s = true -> lstrip s = [].
Proof.
  induction s as [|c t IH]; simpl; [reflexivity|].
  intros H. apply andb_true_iff in H. destruct H as [Hc Ht].
  rewrite Hc. now apply IH.
Qed.

Lemma strip_blank (s : pystr) : forallb isspace s = true -> strip s = [].
Proof.
  intros H. unfold strip, rstrip. now rewrite (lstrip_blank s H).
Qed.

(** X7: a [busca] made of blanks only is no filter at all.  The text is
    trimmed to nothing, no WHERE text and no pattern are sent, and [total]
    is the number of all operators: the answer is the one of a request
    without [busca]. *)
Theorem listar_blank_busca (db : Store) (args : Args) (w : World)
        (s : pystr) (p l0 : Z) :
  args_get args (str "busca") = Some s ->
  forallb isspace s = true ->
  int_arg args (str "page") 1 = Ok p ->
  int_arg args (str "limit") 10 = Ok l0 ->
  fits_int64 (Z.min l0 100) = true ->
  fits_int64 ((p - 1) * Z.min l0 100) = true ->
  Z.min l0 100 <> 0 ->
  exists pg : Pagina,
    fst (listar_operadoras db args w) = Ok (jsonify (JPagina pg))
    /\ total pg = Z.of_nat (length (operadoras db))
    /\ data pg = limit_offset (Z.min l0 100) ((p - 1) * Z.min l0 100)
                              (order_by by_razao_social (operadoras db))
    /\ executed (snd (listar_operadoras db args w))
       = executed w
         ++ [SelectPage false [VInt (Z.min l0 100);
                               VInt ((p - 1) * Z.min l0 100)];
             SelectCount false []].
Proof.
  intros Hget Hblank Hp Hl Hfl Hfo Hnz.
  assert (Hb : busca_de args = []).
  { unfold busca_de. rewrite Hget. now apply strip_blank. }
  assert (Hpat : padrao_aceito (busca_de args)).
  { rewrite Hb. unfold padrao_aceito. vm_compute. discriminate. }
  pose proof (listar_operadoras_run db args w p l0 Hp Hl Hfl Hfo Hpat) as Hrun.
  cbv zeta in Hrun. rewrite Hrun. clear Hrun. rewrite Hb.
  unfold floordiv.
  destruct (Z.min l0 100 =? 0) eqn:E; [apply Z.eqb_eq in E; contradiction|].
  eexists. cbn [fst snd executed]. split; [reflexivity|].
  cbn [total data]. unfold ordenadas. rewrite filtradas_vazia.
  repeat split. cbn. now rewrite <- app_assoc.
Qed.

Lemma listar_blank_busca_witness :
  exists pg : Pagina,
    fst (listar_operadoras db_exemplo (pedido [("busca", "   ")]%string)
                           mundo_inicial)
    = Ok (jsonify (JPagina pg))
    /\ total pg = Z.of_nat (length (operadoras db_exemplo)).
Proof.
  destruct (listar_blank_busca db_exemplo (pedido [("busca", "   ")]%string)
              mundo_inicial (str "   ") 1 10) as [pg [H1 [H2 _]]].
  - reflexivity.
  - reflexivity.
  - reflexivity.
  - reflexivity.
  - reflexivity.
  - reflexivity.
  - discriminate.
  - exists pg. split; assumption.
Defined.

(** ** What the three lookups leave alone *)

(** X8: the listing, the detail lookup and the history lookup are
    read-only towards the process state: on every input, also one that
    makes them raise, the statistics cache is what it was and the
    statements already sent stay in the log, in order, before the new
    ones. *)
Theorem lookups_leave_cache_alone (db : Store) (args : Args) (c : pystr)
        (w : World) :
  (cache_estatisticas (snd (listar_operadoras db args w)) = cache_estatisticas w
   /\ exists l, executed (snd (listar_operadoras db args w)) = executed w ++ l)
  /\ (cache_estatisticas (snd (detalhes_operadora db c w)) = cache_estatisticas w
      /\ exists l, executed (snd (detalhes_operadora db c w)) = executed w ++ l)
  /\ (cache_estatisticas (snd (historico_despesas db c w)) = cache_estatisticas w
      /\ exists l, executed (snd (historico_despesas db c w)) = executed w ++ l).
Proof.
  split; [|split].
  - unfold listar_operadoras, bind, lift.
    destruct (int_arg args (str "page") 1) as [p|e].
    2:{ split; [reflexivity | exists []; now rewrite app_nil_r]. }
    destruct (int_arg args (str "limit") 10) as [l0|e].
    2:{ split; [reflexivity | exists []; now rewrite app_nil_r]. }
    unfold execute.
    destruct (query_operadoras db _ _) as [rows|e].
    2:{ split; [reflexivity | eexists; reflexivity]. }
    destruct (count_operadoras db _ _) as [n|e].
    2:{ split; [reflexivity | eexists; cbn; now rewrite <- app_assoc]. }
    destruct (floordiv _ _);
      (split; [reflexivity | eexists; cbn; now rewrite <- app_assoc]).
  - unfold detalhes_operadora, bind, execute.
    destruct (select_operadora db c);
      (split; [reflexivity | eexists; reflexivity]).
  - unfold historico_despesas, bind, execute.
    destruct (select_razao_social db c).
    + split; [reflexivity | eexists; cbn; now rewrite <- app_assoc].
    + split; [reflexivity | eexists; reflexivity].
Qed.

(** ** Detail and history of an operator that exists *)

Lemma select_operadora_key (db : Store) (o : Operadora) :
  primary_key db -> In o (operadoras db) ->
  select_operadora db (cnpj o) = Some o.
Proof.
  unfold primary_key, select_operadora.
  induction (operadoras db) as [|x t IH]; intros Hnd Hin; [contradiction|].
  inversion Hnd as [|c cs Hnotin Hnd']; subst. simpl.
  destruct Hin as [-> | Hin].
  - now rewrite pystr_eqb_refl.
  - destruct (pystr_eqb (cnpj x) (cnpj o)) eqn:E.
    + apply pystr_eqb_eq in E. exfalso. apply Hnotin. rewrite E.
      now apply in_map.
    + now apply IH.
Qed.

(** X9: on a store whose [cnpj] column is a key, the detail lookup of an
    operator's tax identifier answers 200 with that very row (all five
    columns), and the history lookup answers 200 under the same legal
    name, after one more statement. *)
Theorem detalhes_returns_the_row (db : Store) (w : World) (o : Operadora) :
  primary_key db ->
  In o (operadoras db) ->
  detalhes_operadora db (cnpj o) w
  = (Ok {| status := 200; body := JOperadora o |},
     {| cache_estatisticas := cache_estatisticas w;
        executed := executed w ++ [SelectOperadora (cnpj o)] |})
  /\ historico_despesas db (cnpj o) w
     = (Ok {| status := 200;
              body := JHistorico {| h_cnpj := cnpj o;
                                    h_razao_social := razao_social o;
                                    h_despesas := select_despesas db (cnpj o) |} |},
        {| cache_estatisticas := cache_estatisticas w;
           executed := executed w ++ [SelectRazaoSocial (cnpj o);
                                      SelectDespesas (cnpj o)] |}).
Proof.
  intros Hpk Hin. pose proof (select_operadora_key db o Hpk Hin) as Hsel.
  split.
  - unfold detalhes_operadora, bind, execute. now rewrite Hsel.
  - unfold historico_despesas, bind, execute, select_razao_social.
    rewrite Hsel. cbn. now rewrite <- app_assoc.
Qed.

Lemma detalhes_returns_the_row_witness :
  fst (detalhes_operadora db_exemplo (str "B") mundo_inicial)
  = Ok {| status := 200; body := JOperadora (operadora_ex "B" "Beta" "RJ") |}.
Proof.
  destruct (detalhes_returns_the_row db_exemplo mundo_inicial
              (operadora_ex "B" "Beta" "RJ") db_exemplo_primary_key)
    as [H _].
  - simpl. right. now left.
  - change (cnpj (operadora_ex "B" "Beta" "RJ")) with (str "B") in H.
    now rewrite H.
Defined.

(** X10: the two lookups by tax identifier always agree on the status,
    which is 200 exactly when some operator row carries the identifier and
    404 otherwise; an operator without any expense record still gets a 200
    from the history lookup, with an empty list. *)
Theorem lookups_status (db : Store) (c : pystr) (w : World) :
  http_status (fst (historico_despesas db c w))
  = http_status (fst (detalhes_operadora db c w))
  /\ (http_status (fst (detalhes_operadora db c w)) = 200
      <-> exists o, In o (operadoras db) /\ cnpj o = c)
  /\ (http_status (fst (detalhes_operadora db c w)) = 404
      <-> forall o, In o (operadoras db) -> cnpj o <> c)
  /\ ((exists o, In o (operadoras db) /\ cnpj o = c) ->
      despesas_de db c = [] ->
      exists nome,
        fst (historico_despesas db c w)
        = Ok (jsonify (JHistorico {| h_cnpj := c; h_razao_social := nome;
                                     h_despesas := [] |}))).
Proof.
  unfold historico_despesas, detalhes_operadora, bind, execute,
    select_razao_social.
  destruct (select_operadora db c) as [o|] eqn:E; cbn.
  - assert (Hex : exists o, In o (operadoras db) /\ cnpj o = c).
    { unfold select_operadora in E. apply find_some in E.
      destruct E as [Hin Heq]. apply pystr_eqb_eq in Heq. eauto. }
    split; [reflexivity|]. split; [tauto|]. split.
    + split; [discriminate|].
      intros H. destruct Hex as [o' [Hin Hc]]. now apply H in Hin.
    + intros _ Hnone. exists (razao_social o).
      unfold select_despesas. now rewrite Hnone.
  - assert (Hno : forall o, In o (operadoras db) -> cnpj o <> c).
    { intros o Hin Hc. unfold select_operadora in E.
      apply (find_none _ _ E) in Hin. rewrite Hc, pystr_eqb_refl in Hin.
      discriminate. }
    split; [reflexivity|]. split.
    + split; [discriminate|]. intros [o [Hin Hc]]. now apply Hno in Hin.
    + split; [tauto|]. intros [o [Hin Hc]]. now apply Hno in Hin.
Qed.

(** ** The totals of the ranking and the history *)

Lemma qsum_app (a b : list Q) : (qsum (a ++ b) == qsum a + qsum b)%Q.
Proof.
  induction a as [|x t IH]; simpl.
  - now rewrite Qplus_0_l.
  - rewrite IH. apply Qplus_assoc.
Qed.

Lemma qsum_perm (a b : list Q) : Permutation a b -> (qsum a == qsum b)%Q.
Proof.
  induction 1 as [|x l l' _ IH|x y l|l l' l'' _ IH1 _ IH2]; simpl.
  - reflexivity.
  - now rewrite IH.
  - rewrite !Qplus_assoc. now rewrite (Qplus_comm y x).
  - now rewrite IH1.
Qed.

Lemma select_top_rows (db : Store) (r : TopRow) :
  primary_key db -> In r (select_top db) ->
  exists o, In o (operadoras db) /\ tem_despesas db o = true
            /\ r = linha_total db o.
Proof.
  intros Hpk Hr. rewrite select_top_firstn in Hr.
  assert (Hr' : In r (order_by by_total_desc (totais_por_operadora db))).
  { rewrite <- (firstn_skipn 5). apply in_or_app. left. exact Hr. }
  apply order_by_In in Hr'.
  apply (Permutation_in _ (totais_por_operadora_key db Hpk)) in Hr'.
  apply in_map_iff in Hr'. destruct Hr' as [o [<- Ho]].
  apply filter_In in Ho. destruct Ho as [Ho Ht]. eauto.
Qed.

(** The amounts a history lists add up, as rationals, to the own sum of
    the tax identifier. *)
Lemma soma_do_historico (db : Store) (c : pystr) :
  (soma_exata (map r_valor (select_despesas db c))
   == soma_de c (despesas db))%Q.
Proof.
  rewrite soma_de_filter. unfold soma_exata, select_despesas.
  rewrite !map_map. apply qsum_perm.
  change (fun x => exact (r_valor (despesa_row x)))
    with (fun x => exact (valor x)).
  apply Permutation_map, order_by_perm.
Qed.

(** X11: ranking and history agree.  On a store whose [cnpj] column is a
    key and whose amounts are whole numbers with a sum below 2^53, every
    row of a freshly computed [top_operadoras] names an operator whose
    history lookup answers 200 under the same legal name, and the row's
    [total_despesas] is exactly the sum of the amounts that history
    lists. *)
Theorem top_total_is_history_sum (db : Store) (agora : Z) (w w' : World)
        (r : TopRow) :
  primary_key db ->
  valores_inteiros db ->
  cache_valido (cache_estatisticas w) agora = None ->
  In r (select_top db) ->
  fst (estatisticas db agora w)
  = Ok (jsonify (JEstatisticas (estatisticas_de db)))
  /\ In r (top_operadoras (estatisticas_de db))
  /\ exists (h : Historico) (t : double),
       fst (historico_despesas db (t_cnpj r) w')
       = Ok (jsonify (JHistorico h))
       /\ h_razao_social h = t_razao_social r
       /\ t_total_despesas r = Some t
       /\ (exact t == soma_exata (map r_valor (h_despesas h)))%Q.
Proof.
  intros Hpk Hint Hmiss Hr.
  split; [now rewrite estatisticas_miss|]. split; [exact Hr|].
  destruct (select_top_rows db r Hpk Hr) as [o [Ho [_ ->]]].
  cbn [linha_total t_cnpj t_razao_social t_total_despesas].
  destruct (total_inteiro db (cnpj o) Hint) as [S [HS [Hs Ht]]].
  eexists. exists (of_int S). split.
  { unfold historico_despesas, bind, execute, select_razao_social.
    rewrite (select_operadora_key db o Hpk Ho). reflexivity. }
  cbn [h_razao_social h_despesas]. split; [reflexivity|].
  split; [exact Ht|].
  rewrite soma_do_historico, Hs. now apply exact_of_int.
Qed.

Lemma top_total_is_history_sum_witness :
  exists (h : Historico) (t : double),
    fst (historico_despesas db_exemplo (str "A") mundo_inicial)
    = Ok (jsonify (JHistorico h))
    /\ (soma_exata (map r_valor (h_despesas h)) == 300)%Q
    /\ (exact t == 300)%Q.
Proof.
  destruct (top_total_is_history_sum db_exemplo 0 mundo_inicial mundo_inicial
              (linha_total db_exemplo (operadora_ex "A" "Alfa" "SP"))
              db_exemplo_primary_key db_exemplo_inteiros eq_refl)
    as [_ [_ [h [t [H1 [_ [H3 H4]]]]]]].
  - vm_compute. now left.
  - exists h, t. split; [exact H1|].
    injection H3 as <-. split; [|reflexivity].
    rewrite <- H4. reflexivity.
Defined.

Lemma lookups_status_witness :
  exists nome,
    fst (historico_despesas db_exemplo (str "B") mundo_inicial)
    = Ok (jsonify (JHistorico {| h_cnpj := str "B"; h_razao_social := nome;
                                 h_despesas := [] |})).
Proof.
  destruct (lookups_status db_exemplo (str "B") mundo_inicial)
    as [_ [_ [_ H]]].
  apply H.
  - exists (operadora_ex "B" "Beta" "RJ"). split; [|reflexivity].
    simpl. right. now left.
  - reflexivity.
Defined.

(** ** The distribution by region *)

Lemma uf_eqb_eq (a b : option pystr) : uf_eqb a b = true <-> a = b.
Proof.
  destruct a as [x|], b as [y|]; simpl; try (split; congruence).
  rewrite pystr_eqb_eq. split; congruence.
Qed.

Lemma qsum_map_ext {A} (f g : A -> Q) (l : list A) :
  (forall x, In x l -> (f x == g x)%Q) ->
  (qsum (map f l) == qsum (map g l))%Q.
Proof.
  induction l as [|x t IH]; intros H; [reflexivity|].
  cbn [map qsum fold_right]. change (fold_right Qplus 0%Q) with qsum.
  rewrite (H x) by now left. rewrite IH; [reflexivity|].
  intros y Hy. apply H. now right.
Qed.

(** Sums over the cells of a partition by key add up to the whole. *)
Lemma qsum_partition {A K} (keq : K -> K -> bool) (key : A -> K)
      (v : A -> Q) (ks : list K) (rows : list A) :
  (forall a b, keq a b = true <-> a = b) ->
  NoDup ks ->
  (forall r, In r rows -> In (key r) ks) ->
  (qsum (map (fun k => qsum (map v (filter (fun r => keq (key r) k) rows))) ks)
   == qsum (map v rows))%Q.
Proof.
  intros Hkeq Hnd. induction rows as [|r t IH]; intros Hcov.
  - simpl. clear Hnd Hcov.
    induction ks as [|k ks IHk]; simpl; [reflexivity|].
    rewrite IHk. apply Qplus_0_l.
  - assert (Hone : forall ks', NoDup ks' ->
              (qsum (map (fun k => qsum (map v (filter (fun r => keq (key r) k)
                                                       (r :: t)))) ks')
               == (if existsb (keq (key r)) ks' then v r else 0)
                  + qsum (map (fun k => qsum (map v (filter
                                 (fun r => keq (key r) k) t))) ks'))%Q).
    { induction ks' as [|k ks' IHk]; intros Hnd'.
      - simpl. now rewrite Qplus_0_l.
      - inversion Hnd' as [|k' l' Hnotin Hnd'']; subst.
        cbn [map qsum fold_right filter existsb].
        change (fold_right Qplus 0%Q) with qsum.
        rewrite (IHk Hnd'').
        destruct (keq (key r) k) eqn:E.
        + apply Hkeq in E. subst k. cbn [orb map qsum fold_right].
          change (fold_right Qplus 0%Q) with qsum.
          assert (Hex : existsb (keq (key r)) ks' = false).
          { destruct (existsb (keq (key r)) ks') eqn:Ex; [|reflexivity].
            apply existsb_exists in Ex. destruct Ex as [x [Hx Hk]].
            apply Hkeq in Hk. subst x. contradiction. }
          rewrite Hex. ring.
        + cbn [orb]. ring. }
    rewrite (Hone ks Hnd), IH.
    + assert (Hex : existsb (keq (key r)) ks = true).
      { apply existsb_exists. exists (key r). split.
        - apply Hcov. now left.
        - now apply Hkeq. }
      rewrite Hex. reflexivity.
    + intros x Hx. apply Hcov. now right.
Qed.

Lemma filter_filter_comm {A} (f g : A -> bool) (l : list A) :
  filter f (filter g l) = filter g (filter f l).
Proof.
  induction l as [|x t IH]; [reflexivity|]. cbn [filter].
  destruct (f x) eqn:Ef, (g x) eqn:Eg; cbn [filter];
    rewrite ?Ef, ?Eg, IH; reflexivity.
Qed.

Lemma soma_exata_filter_le (g : Despesa -> bool) (l : list Despesa) :
  Forall (fun d => inteiro (valor d)) l ->
  (soma_exata (map valor (filter g l)) <= soma_exata (map valor l))%Q.
Proof.
  induction 1 as [|d t Hd Ht IH]; [apply Qle_refl|].
  cbn [filter map]. rewrite soma_exata_cons.
  destruct (exact_inteiro _ Hd) as [n [Hn [_ He]]].
  destruct (g d).
  - cbn [map]. rewrite soma_exata_cons.
    apply Qplus_le_compat; [apply Qle_refl | exact IH].
  - rewrite <- (Qplus_0_l (soma_exata (map valor (filter g t)))).
    apply Qplus_le_compat; [|exact IH].
    rewrite He. apply (proj2 (Qle_inject_Z 0 n)). lia.
Qed.

(** With [cnpj] a key, the lookup of an identifier finds one operator or
    none. *)
Lemma operadora_ou_nada (ops : list Operadora) (c : pystr) :
  NoDup (map cnpj ops) ->
  filter (fun o => pystr_eqb (cnpj o) c) ops = []
  \/ exists o, In o ops /\ cnpj o = c
               /\ filter (fun o => pystr_eqb (cnpj o) c) ops = [o].
Proof.
  intros Hnd.
  destruct (filter (fun o => pystr_eqb (cnpj o) c) ops) as [|o l] eqn:E;
    [now left|].
  right. exists o.
  assert (Hin : In o (filter (fun o => pystr_eqb (cnpj o) c) ops))
    by (rewrite E; now left).
  apply filter_In in Hin. destruct Hin as [Ho Hc].
  apply pystr_eqb_eq in Hc. repeat split; try assumption.
  rewrite <- E, <- Hc. now apply operadora_unica.
Qed.

Section RegionFacts.
Variable db : Store.

Let rows_u (u : option pystr) : list (Operadora * Despesa) :=
  filter (fun od => uf_eqb (uf (fst od)) u) (joined db).

Let na_uf (u : option pystr) (d : Despesa) : bool :=
  existsb (fun o => uf_eqb (uf o) u)
          (filter (fun o => pystr_eqb (cnpj o) (d_cnpj d)) (operadoras db)).

Lemma cnpj_inj (a b : Operadora) :
  primary_key db -> In a (operadoras db) -> In b (operadoras db) ->
  cnpj a = cnpj b -> a = b.
Proof.
  intros Hpk Ha Hb Hc.
  assert (H : In a (filter (fun o' => pystr_eqb (cnpj o') (cnpj b))
                           (operadoras db))).
  { apply filter_In. split; [exact Ha | now apply pystr_eqb_eq]. }
  rewrite (operadora_unica _ b Hpk Hb) in H.
  destruct H as [H | []]. now symmetry.
Qed.

Lemma rows_of_cnpj (o : Operadora) :
  primary_key db -> In o (operadoras db) ->
  filter (fun r => pystr_eqb (cnpj (fst r)) (cnpj o)) (joined db)
  = map (pair o) (despesas_de db (cnpj o)).
Proof.
  intros Hpk Ho. rewrite <- (rows_of_group db o Hpk Ho).
  apply filter_ext_in. intros [o' d] Hin. cbn [fst].
  apply joined_In in Hin. destruct Hin as [Ho' _].
  destruct (pystr_eqb (cnpj o') (cnpj o)) eqn:E.
  - apply pystr_eqb_eq in E.
    rewrite (cnpj_inj o' o Hpk Ho' Ho E). symmetry. apply key_eqb_refl.
  - destruct (key_eqb (cnpj o', razao_social o') (cnpj o, razao_social o))
      eqn:Ek; [|reflexivity].
    apply key_eqb_eq in Ek. injection Ek as E1 E2.
    rewrite E1, pystr_eqb_refl in E. discriminate.
Qed.

Lemma regioes_perm :
  Permutation (map u_uf (select_distribuicao_uf db))
              (distinct uf_eqb (map (fun od => uf (fst od)) (joined db))).
Proof.
  unfold select_distribuicao_uf.
  eapply Permutation_trans; [apply Permutation_map, order_by_perm|].
  unfold group_by. rewrite !map_map. cbn [uf_row u_uf fst].
  rewrite map_id. apply order_by_perm.
Qed.

(** The rows of the distribution, before they are ordered. *)
Lemma distribuicao_row (r : UfRow) :
  In r (select_distribuicao_uf db) ->
  In (u_uf r) (map (fun od => uf (fst od)) (joined db))
  /\ r = uf_row (u_uf r, rows_u (u_uf r)).
Proof.
  intros Hr. unfold select_distribuicao_uf in Hr. apply order_by_In in Hr.
  apply in_map_iff in Hr. destruct Hr as [[u rows] [<- Hg]].
  unfold group_by in Hg. apply in_map_iff in Hg.
  destruct Hg as [u' [Heq Hu]]. injection Heq as Hu' Hrows. subst u' rows.
  apply order_by_In in Hu.
  apply (proj1 (distinct_In uf_eqb uf_eqb_eq _ _)) in Hu.
  cbn [uf_row u_uf fst]. split; [exact Hu | reflexivity].
Qed.

Lemma regioes_listadas (u : option pystr) :
  In u (map u_uf (select_distribuicao_uf db))
  <-> exists o, In o (operadoras db) /\ tem_despesas db o = true /\ uf o = u.
Proof.
  split.
  - intros Hu. apply (Permutation_in _ regioes_perm) in Hu.
    apply (proj1 (distinct_In uf_eqb uf_eqb_eq _ _)) in Hu.
    apply in_map_iff in Hu. destruct Hu as [[o d] [Hu Hin]].
    apply joined_In in Hin. destruct Hin as [Ho Hd].
    exists o. repeat split; [exact Ho | | exact Hu].
    unfold tem_despesas. destruct (despesas_de db (cnpj o)); [contradiction|].
    reflexivity.
  - intros [o [Ho [Ht Hu]]].
    apply (Permutation_in _ (Permutation_sym regioes_perm)).
    apply (proj2 (distinct_In uf_eqb uf_eqb_eq _ _)).
    unfold tem_despesas in Ht.
    destruct (despesas_de db (cnpj o)) as [|d ds] eqn:E; [discriminate|].
    apply in_map_iff. exists (o, d). split; [exact Hu|].
    apply joined_In. split; [exact Ho|]. rewrite E. now left.
Qed.

Lemma regioes_NoDup : NoDup (map u_uf (select_distribuicao_uf db)).
Proof.
  apply (Permutation_NoDup (Permutation_sym regioes_perm)),
        (distinct_NoDup uf_eqb uf_eqb_eq).
Qed.

Lemma regioes_sorted : StronglySorted uf_total_desc (select_distribuicao_uf db).
Proof.
  apply StronglySorted_impl with (R := fun a b => by_uf_total_desc a b = true).
  - intros a b H. exact H.
  - apply order_by_sorted.
    + intros a b H. unfold by_uf_total_desc in *. now apply real_leb_total.
    + intros a b c H1 H2. unfold by_uf_total_desc in *.
      eapply real_leb_trans; eauto.
Qed.

(** The operators a region counts are its operators with expense
    records. *)
Lemma contagem_da_regiao (u : option pystr) :
  primary_key db ->
  length (distinct pystr_eqb (map (fun od => cnpj (fst od)) (rows_u u)))
  = length (filter (tem_despesas db) (operadoras_da_uf db u)).
Proof.
  intros Hpk.
  rewrite <- (length_map cnpj (filter _ _)).
  apply Permutation_length, NoDup_Permutation.
  - apply (distinct_NoDup pystr_eqb pystr_eqb_eq).
  - unfold operadoras_da_uf. now do 2 apply NoDup_map_filter.
  - intros c. rewrite (distinct_In pystr_eqb pystr_eqb_eq), !in_map_iff.
    split.
    + intros [[o d] [Hc Hin]]. cbn [fst] in Hc.
      apply filter_In in Hin. destruct Hin as [Hin Hu]. cbn [fst] in Hu.
      apply joined_In in Hin. destruct Hin as [Ho Hd].
      exists o. split; [exact Hc|].
      apply filter_In. split.
      * apply filter_In. now split.
      * unfold tem_despesas. destruct (despesas_de db (cnpj o));
          [contradiction | reflexivity].
    + intros [o [Hc Hin]]. apply filter_In in Hin. destruct Hin as [Hin Ht].
      apply filter_In in Hin. destruct Hin as [Ho Hu].
      unfold tem_despesas in Ht.
      destruct (despesas_de db (cnpj o)) as [|d ds] eqn:E; [discriminate|].
      exists (o, d). split; [exact Hc|].
      apply filter_In. split; [|exact Hu].
      apply joined_In. split; [exact Ho|]. rewrite E. now left.
Qed.

(** With [cnpj] a key, each expense record enters a region at most once. *)
Lemma despesas_da_regiao (u : option pystr) :
  primary_key db ->
  map snd (rows_u u) = filter (na_uf u) (despesas db).
Proof.
  intros Hpk. unfold rows_u, joined, na_uf.
  induction (despesas db) as [|d t IH]; [reflexivity|].
  cbn [flat_map filter]. rewrite filter_app, map_app, IH.
  destruct (operadora_ou_nada (operadoras db) (d_cnpj d) Hpk)
    as [E | [o [_ [_ E]]]]; rewrite E; cbn [map filter existsb fst].
  - reflexivity.
  - rewrite orb_false_r. destruct (uf_eqb (uf o) u); reflexivity.
Qed.

(** Over whole numbers the total of a region is exact. *)
Lemma total_da_regiao_inteiro (u : option pystr) :
  primary_key db -> valores_inteiros db ->
  exists S : Z,
    0 <= S < 2 ^ 53
    /\ (soma_exata (map (fun od => valor (snd od)) (rows_u u))
        == inject_Z S)%Q
    /\ sql_real (rSum (map (fun od => valor (snd od)) (rows_u u)))
       = Some (of_int S).
Proof.
  intros Hpk [Hint Hb].
  assert (Hmap : map (fun od => valor (snd od)) (rows_u u)
                 = map valor (filter (na_uf u) (despesas db))).
  { rewrite <- (despesas_da_regiao u Hpk). now rewrite map_map. }
  rewrite Hmap.
  assert (Hsub : Forall inteiro (map valor (filter (na_uf u) (despesas db)))).
  { apply Forall_map. rewrite Forall_forall in *. intros d Hd.
    apply filter_In in Hd. now apply Hint. }
  assert (Hlt : (soma_exata (map valor (filter (na_uf u) (despesas db)))
                 < inject_Z (2 ^ 53))%Q).
  { eapply Qle_lt_trans; [apply (soma_exata_filter_le _ _ Hint) | exact Hb]. }
  destruct (rSum_inteiros _ Hsub Hlt) as [S [HS [Hs Hr]]].
  exists S. split; [exact HS|]. split; [exact Hs|].
  rewrite Hr. unfold sql_real. now rewrite is_nan_of_int.
Qed.

(** The amounts of a region are the own amounts of its operators. *)
Lemma soma_da_regiao (u : option pystr) :
  primary_key db ->
  (soma_exata (map (fun od => valor (snd od)) (rows_u u))
   == qsum (map (soma_propria db) (operadoras_da_uf db u)))%Q.
Proof.
  intros Hpk. unfold soma_exata. rewrite map_map.
  rewrite <- (qsum_partition pystr_eqb (fun od => cnpj (fst od))
                (fun od => exact (valor (snd od)))
                (map cnpj (operadoras_da_uf db u)) (rows_u u) pystr_eqb_eq).
  - rewrite map_map. apply qsum_map_ext. intros o Ho.
    apply filter_In in Ho. destruct Ho as [Ho Hu].
    unfold rows_u. rewrite filter_filter_comm, (rows_of_cnpj o Hpk Ho).
    rewrite filter_keep_all.
    + rewrite map_map. cbn [snd]. unfold soma_propria.
      rewrite soma_de_filter. unfold soma_exata. rewrite map_map.
      reflexivity.
    + intros [o' d] Hin. apply in_map_iff in Hin.
      destruct Hin as [d' [[= <- <-] _]]. exact Hu.
  - unfold operadoras_da_uf. now apply NoDup_map_filter.
  - intros [o d] Hin. cbn [fst]. apply filter_In in Hin.
    destruct Hin as [Hin Hu]. cbn [fst] in Hu.
    apply joined_In in Hin. destruct Hin as [Ho _].
    apply in_map. apply filter_In. now split.
Qed.

(** With [cnpj] a key and every record owned, the join holds each
    expense record once. *)
Lemma despesas_do_join :
  primary_key db -> integridade_referencial db ->
  map snd (joined db) = despesas db.
Proof.
  intros Hpk Hfk. unfold joined.
  assert (H : forall l, (forall d, In d l -> In d (despesas db)) ->
            map snd (flat_map (fun d =>
                       map (fun o => (o, d))
                           (filter (fun o => pystr_eqb (cnpj o) (d_cnpj d))
                                   (operadoras db))) l) = l).
  { induction l as [|d t IH]; intros Hl; [reflexivity|].
    cbn [flat_map]. rewrite map_app, IH by (intros x Hx; apply Hl; now right).
    destruct (operadora_ou_nada (operadoras db) (d_cnpj d) Hpk)
      as [E | [o [_ [_ E]]]]; rewrite E; [|reflexivity].
    exfalso. destruct (Hfk d (Hl d (or_introl eq_refl))) as [o [Ho Hc]].
    assert (Hin : In o (filter (fun o => pystr_eqb (cnpj o) (d_cnpj d))
                               (operadoras db))).
    { apply filter_In. split; [exact Ho | now apply pystr_eqb_eq]. }
    rewrite E in Hin. contradiction. }
  apply H. auto.
Qed.
End RegionFacts.

(** X12: a recomputation lists in [distribuicao_uf] exactly the regions
    (a missing region counts as one of them) of the operators that have at
    least one expense record, each region once, ordered by summed total
    descending. *)
Theorem distribuicao_uf_regions (db : Store) (agora : Z) (w : World) :
  cache_valido (cache_estatisticas w) agora = None ->
  exists e : Estatisticas,
    fst (estatisticas db agora w) = Ok (jsonify (JEstatisticas e))
    /\ NoDup (map u_uf (distribuicao_uf e))
    /\ StronglySorted uf_total_desc (distribuicao_uf e)
    /\ (forall u : option pystr,
          In u (map u_uf (distribuicao_uf e))
          <-> exists o, In o (operadoras db)
                        /\ tem_despesas db o = true /\ uf o = u).
Proof.
  intros Hmiss. exists (estatisticas_de db). split.
  { now rewrite estatisticas_miss. }
  cbn [estatisticas_de distribuicao_uf].
  split; [apply regioes_NoDup|]. split; [apply regioes_sorted|].
  apply regioes_listadas.
Qed.

Lemma distribuicao_uf_regions_witness :
  exists e : Estatisticas,
    fst (estatisticas db_exemplo 0 mundo_inicial)
    = Ok (jsonify (JEstatisticas e))
    /\ NoDup (map u_uf (distribuicao_uf e)).
Proof.
  destruct (distribuicao_uf_regions db_exemplo 0 mundo_inicial eq_refl)
    as [e [H1 [H2 _]]].
  exists e. split; assumption.
Defined.

(** X13: on a store whose [cnpj] column is a key, each row of a freshly
    computed [distribuicao_uf] counts in [num_operadoras] the operators of
    that region that have expense records (at least one); where the
    amounts are whole numbers with a sum below 2^53, its [total_despesas]
    is exactly the sum of the own sums of the region's operators. *)
Theorem distribuicao_uf_row_contents (db : Store) (agora : Z) (w : World)
        (r : UfRow) :
  primary_key db ->
  cache_valido (cache_estatisticas w) agora = None ->
  In r (select_distribuicao_uf db) ->
  fst (estatisticas db agora w)
  = Ok (jsonify (JEstatisticas (estatisticas_de db)))
  /\ In r (distribuicao_uf (estatisticas_de db))
  /\ u_num_operadoras r
     = Z.of_nat (length (filter (tem_despesas db)
                                (operadoras_da_uf db (u_uf r))))
  /\ 1 <= u_num_operadoras r
  /\ (valores_inteiros db ->
      exists t : double,
        u_total_despesas r = Some t
        /\ (exact t
            == qsum (map (soma_propria db)
                         (operadoras_da_uf db (u_uf r))))%Q).
Proof.
  intros Hpk Hmiss Hr.
  split; [now rewrite estatisticas_miss|]. split; [exact Hr|].
  destruct (distribuicao_row db r Hr) as [Hu Hrow].
  assert (Hnum : u_num_operadoras r
                 = Z.of_nat (length (filter (tem_despesas db)
                                            (operadoras_da_uf db (u_uf r))))).
  { rewrite Hrow at 1. cbn [uf_row u_num_operadoras snd].
    now rewrite (contagem_da_regiao db (u_uf r) Hpk). }
  split; [exact Hnum|]. split.
  - rewrite Hnum.
    assert (Hex : exists o, In o (operadoras db)
                            /\ tem_despesas db o = true /\ uf o = u_uf r).
    { apply regioes_listadas. now apply in_map. }
    destruct Hex as [o [Ho [Ht Huf]]].
    assert (Hin : In o (filter (tem_despesas db)
                               (operadoras_da_uf db (u_uf r)))).
    { apply filter_In. split; [|exact Ht].
      unfold operadoras_da_uf. apply filter_In. split; [exact Ho|].
      now apply uf_eqb_eq. }
    destruct (filter (tem_despesas db) (operadoras_da_uf db (u_uf r)));
      [contradiction | cbn [length]; lia].
  - intros Hint.
    destruct (total_da_regiao_inteiro db (u_uf r) Hpk Hint)
      as [S [HS [Hs Ht]]].
    exists (of_int S). split.
    + rewrite Hrow at 1. cbn [uf_row u_total_despesas snd]. exact Ht.
    + rewrite <- (soma_da_regiao db (u_uf r) Hpk), Hs.
      now apply exact_of_int.
Qed.

Lemma distribuicao_uf_row_contents_witness :
  exists r : UfRow,
    In r (distribuicao_uf (estatisticas_de db_exemplo))
    /\ u_uf r = Some (str "SP")
    /\ u_num_operadoras r = 2
    /\ u_total_despesas r = Some (of_int 350).
Proof.
  exists {| u_uf := Some (str "SP"); u_num_operadoras := 2;
            u_total_despesas := Some (of_int 350) |}.
  destruct (distribuicao_uf_row_contents db_exemplo 0 mundo_inicial
              {| u_uf := Some (str "SP"); u_num_operadoras := 2;
                 u_total_despesas := Some (of_int 350) |}
              db_exemplo_primary_key eq_refl)
    as [_ [H _]].
  - vm_compute. now left.
  - split; [exact H | repeat split; reflexivity].
Defined.

(** X14: the regions add up to the whole.  On a store whose [cnpj] column
    is a key, whose expense rows all belong to an operator of the store
    and whose amounts are whole numbers with a sum below 2^53, the
    [total_despesas] of the rows of a freshly computed [distribuicao_uf]
    sum exactly to the sum of all expense amounts, which is the summary's
    [total_despesas]. *)
Theorem distribuicao_uf_adds_up (db : Store) (agora : Z) (w : World) :
  primary_key db ->
  integridade_referencial db ->
  valores_inteiros db ->
  cache_valido (cache_estatisticas w) agora = None ->
  exists e : Estatisticas,
    fst (estatisticas db agora w) = Ok (jsonify (JEstatisticas e))
    /\ (qsum (map (fun r => total_exato (u_total_despesas r))
                  (distribuicao_uf e))
        == soma_exata (map valor (despesas db)))%Q
    /\ (numero (total_despesas (resumo e))
        == qsum (map (fun r => total_exato (u_total_despesas r))
                     (distribuicao_uf e)))%Q.
Proof.
  intros Hpk Hfk Hint Hmiss. exists (estatisticas_de db). split.
  { now rewrite estatisticas_miss. }
  cbn [estatisticas_de distribuicao_uf resumo total_despesas].
  assert (Hsum : (qsum (map (fun r => total_exato (u_total_despesas r))
                            (select_distribuicao_uf db))
                  == soma_exata (map valor (despesas db)))%Q).
  { unfold select_distribuicao_uf.
    rewrite (qsum_perm _ _ (Permutation_map _ (order_by_perm _ _))).
    unfold group_by. rewrite !map_map. cbn [uf_row u_total_despesas snd].
    rewrite (qsum_perm _ _ (Permutation_map _ (order_by_perm _ _))).
    rewrite (qsum_map_ext _
               (fun u => qsum (map (fun od => exact (valor (snd od)))
                                   (filter (fun od => uf_eqb (uf (fst od)) u)
                                           (joined db))))).
    - rewrite (qsum_partition uf_eqb (fun od => uf (fst od))
                 (fun od => exact (valor (snd od))) _ (joined db) uf_eqb_eq).
      + rewrite <- (despesas_do_join db Hpk Hfk).
        unfold soma_exata. now rewrite !map_map.
      + apply (distinct_NoDup uf_eqb uf_eqb_eq).
      + intros od Hod. apply (proj2 (distinct_In uf_eqb uf_eqb_eq _ _)).
        now apply in_map with (f := fun od => uf (fst od)).
    - intros u _.
      destruct (total_da_regiao_inteiro db u Hpk Hint) as [S [HS [Hs Ht]]].
      rewrite Ht. cbn [total_exato]. rewrite exact_of_int by assumption.
      rewrite <- Hs. unfold soma_exata. now rewrite map_map. }
  split; [exact Hsum|].
  rewrite Hsum.
  now apply resumo_total_inteiro.
Qed.

Lemma db_exemplo_integridade : integridade_referencial db_exemplo.
Proof.
  intros d Hd. unfold db_exemplo in Hd. cbn [despesas In] in Hd.
  destruct Hd as [<- | [<- | [<- | []]]].
  - exists (operadora_ex "A" "Alfa" "SP"). split; [now left | reflexivity].
  - exists (operadora_ex "A" "Alfa" "SP"). split; [now left | reflexivity].
  - exists (operadora_ex "C" "Gama" "SP").
    split; [right; right; now left | reflexivity].
Qed.

Lemma distribuicao_uf_adds_up_witness :
  exists e : Estatisticas,
    fst (estatisticas db_exemplo 0 mundo_inicial)
    = Ok (jsonify (JEstatisticas e))
    /\ (qsum (map (fun r => total_exato (u_total_despesas r))
                  (distribuicao_uf e))
        == 350)%Q
    /\ (numero (total_despesas (resumo e)) == 350)%Q.
Proof.
  destruct (distribuicao_uf_adds_up db_exemplo 0 mundo_inicial
              db_exemplo_primary_key db_exemplo_integridade
              db_exemplo_inteiros eq_refl)
    as [e [H1 [H2 H3]]].
  exists e. split; [exact H1|]. split.
  - rewrite H2. reflexivity.
  - rewrite H3, H2. reflexivity.
Defined.

(** ** The cache over a run of calls *)

Lemma cache_valido_Some (c : Cache) (agora : Z) (d : Estatisticas) :
  cache_valido c agora = Some d ->
  exists t, dados c = Some d /\ timestamp c = Some t
            /\ agora - t < timeout c * 1000000.
Proof.
  unfold cache_valido.
  destruct (dados c) as [d'|]; [|discriminate].
  destruct (timestamp c) as [t|]; [|discriminate].
  destruct (agora - t <? timeout c * 1000000) eqn:E; [|discriminate].
  intros [= ->]. apply Z.ltb_lt in E. eauto.
Qed.

Lemma atender_staleness (calls pre : list (Store * Z)) (w : World) :
  cache_de pre w ->
  forall i db agora,
    nth_error calls i = Some (db, agora) ->
    exists db' t',
      In (db', t') (pre ++ firstn (S i) calls)
      /\ nth_error (fst (atender calls w)) i
         = Some (Ok (jsonify (JEstatisticas (estatisticas_de db'))))
      /\ agora - t' < cinco_minutos.
Proof.
  revert pre w. induction calls as [|[db0 t0] rest IH]; intros pre w Hinv i db agora Hi.
  - destruct i; discriminate.
  - cbn [atender].
    destruct (cache_valido (cache_estatisticas w) t0) as [d|] eqn:Ev.
    + rewrite (estatisticas_hit db0 t0 w d Ev).
      destruct (cache_valido_Some _ _ _ Ev) as [t [Hd [Ht Hage]]].
      destruct Hinv as [Hto Hprov].
      destruct (Hprov d t Hd Ht) as [db' [Hin ->]].
      assert (Hinv' : cache_de (pre ++ [(db0, t0)]) w).
      { split; [exact Hto|]. intros d1 t1 Hd1 Ht1.
        destruct (Hprov d1 t1 Hd1 Ht1) as [db1 [Hin1 ->]].
        exists db1. split; [apply in_or_app; now left | reflexivity]. }
      destruct (atender rest w) as [rs w2] eqn:Er.
      destruct i as [|i].
      * injection Hi as -> ->. exists db', t. cbn [fst nth_error].
        split; [apply in_or_app; now left|]. split; [reflexivity|].
        rewrite Hto in Hage. exact Hage.
      * cbn [nth_error] in Hi.
        destruct (IH _ w Hinv' i db agora Hi) as [db1 [t1 [Hin1 [Hn Hage1]]]].
        exists db1, t1. rewrite Er in Hn. cbn [fst nth_error firstn].
        split; [|split; assumption].
        rewrite <- app_assoc in Hin1. exact Hin1.
    + rewrite (estatisticas_miss db0 t0 w Ev).
      set (w1 := {| cache_estatisticas := _; executed := _ |}).
      assert (Hinv' : cache_de (pre ++ [(db0, t0)]) w1).
      { destruct Hinv as [Hto _]. split; [exact Hto|].
        intros d1 t1 [= <-] [= <-]. exists db0.
        split; [apply in_or_app; right; now left | reflexivity]. }
      destruct (atender rest w1) as [rs w2] eqn:Er.
      destruct i as [|i].
      * injection Hi as -> ->. exists db, agora. cbn [fst nth_error firstn].
        split; [apply in_or_app; right; now left|]. split; [reflexivity|].
        unfold cinco_minutos. lia.
      * cbn [nth_error] in Hi.
        destruct (IH _ w1 Hinv' i db agora Hi) as [db1 [t1 [Hin1 [Hn Hage1]]]].
        exists db1, t1. rewrite Er in Hn. cbn [fst nth_error firstn].
        split; [|split; assumption].
        rewrite <- app_assoc in Hin1. exact Hin1.
Qed.

(** X15: bounded staleness.  In any run of calls to the statistics
    endpoint of a freshly started process, the answer to each call is a 200
    carrying the statistics of the store as it was at that call or at an
    earlier call of the run whose clock reading is less than five minutes
    behind. *)
Theorem estatisticas_bounded_staleness (calls : list (Store * Z)) (i : nat)
        (db : Store) (agora : Z) :
  nth_error calls i = Some (db, agora) ->
  exists db' t',
    In (db', t') (firstn (S i) calls)
    /\ nth_error (fst (atender calls mundo_inicial)) i
       = Some (Ok (jsonify (JEstatisticas (estatisticas_de db'))))
    /\ agora - t' < cinco_minutos.
Proof.
  intros Hi.
  apply (atender_staleness calls [] mundo_inicial) with (db := db).
  - split; [reflexivity|]. intros d t Hd. discriminate.
  - exact Hi.
Qed.

Lemma estatisticas_bounded_staleness_witness :
  exists db' t',
    In (db', t') (firstn 2 [(db_exemplo, 0); (db_historico, 7000000)])
    /\ nth_error (fst (atender [(db_exemplo, 0); (db_historico, 7000000)]
                               mundo_inicial)) 1
       = Some (Ok (jsonify (JEstatisticas (estatisticas_de db'))))
    /\ 7000000 - t' < cinco_minutos.
Proof.
  apply (estatisticas_bounded_staleness
           [(db_exemplo, 0); (db_historico, 7000000)] 1 db_historico 7000000).
  reflexivity.
Defined.

Lemma atender_hits (resp : Estatisticas) (t0 : Z) (log : list Statement)
      (rest : list (Store * Z)) :
  (forall db t, In (db, t) rest -> t - t0 < cinco_minutos) ->
  atender rest {| cache_estatisticas :=
                    {| dados := Some resp; timestamp := Some t0;
                       timeout := 300 |};
                  executed := log |}
  = (repeat (Ok (jsonify (JEstatisticas resp))) (length rest),
     {| cache_estatisticas :=
          {| dados := Some resp; timestamp := Some t0; timeout := 300 |};
        executed := log |}).
Proof.
  induction rest as [|[db t] rest IH]; intros Hwin; [reflexivity|].
  cbn [atender]. rewrite (estatisticas_hit db t _ resp).
  - rewrite IH; [reflexivity|]. intros db' t' Hin. apply (Hwin db' t').
    now right.
  - unfold cache_valido. cbn [cache_estatisticas dados timestamp timeout].
    specialize (Hwin db t (or_introl eq_refl)). unfold cinco_minutos in Hwin.
    destruct (t - t0 <? 300 * 1000000) eqn:E;
      [reflexivity | apply Z.ltb_ge in E; lia].
Qed.

(** X16: one computation serves the window.  After the first call of a
    freshly started process, all further calls whose clock reading is less
    than five minutes after the first get the first call's answer, whatever
    the store has become, and the four aggregation statements are sent
    once for the whole run. *)
Theorem estatisticas_one_batch_per_window
        (db0 : Store) (t0 : Z) (rest : list (Store * Z)) :
  (forall db t, In (db, t) rest -> t - t0 < cinco_minutos) ->
  fst (atender ((db0, t0) :: rest) mundo_inicial)
  = repeat (Ok (jsonify (JEstatisticas (estatisticas_de db0))))
           (S (length rest))
  /\ executed (snd (atender ((db0, t0) :: rest) mundo_inicial))
     = consultas_estatisticas.
Proof.
  intros Hwin. cbn [atender].
  rewrite (estatisticas_miss db0 t0 mundo_inicial eq_refl).
  cbn [mundo_inicial cache_estatisticas cache_inicial timeout executed app].
  rewrite (atender_hits (estatisticas_de db0) t0 consultas_estatisticas rest Hwin).
  split; reflexivity.
Qed.

Lemma estatisticas_one_batch_per_window_witness :
  executed (snd (atender [(db_exemplo, 0); (db_historico, 100000000);
                          (db_exemplo, 299999999)] mundo_inicial))
  = consultas_estatisticas.
Proof.
  apply (estatisticas_one_batch_per_window db_exemplo 0
           [(db_historico, 100000000); (db_exemplo, 299999999)]).
  intros db t Hin. unfold cinco_minutos.
  destruct Hin as [[= <- <-] | [[= <- <-] | []]]; lia.
Defined.

(** ** [init_db]: what a start of the server does to the file *)

Lemma fold_max_ge (s : Z) (l : list Z) :
  s <= fold_right Z.max s l /\ forall x, In x l -> x <= fold_right Z.max s l.
Proof.
  induction l as [|y t [IH1 IH2]]; simpl.
  - split; [lia | contradiction].
  - split; [lia|]. intros x [<- | Hx]; [lia|]. specialize (IH2 x Hx). lia.
Qed.

Lemma fold_max_top (s : Z) (l : list Z) :
  (forall x, In x l -> x <= s) -> fold_right Z.max s l = s.
Proof.
  induction l as [|y t IH]; simpl; intros H; [reflexivity|].
  rewrite IH by (intros x Hx; apply H; now right).
  specialize (H y (or_introl eq_refl)). lia.
Qed.


(** Room for all rows: they get the next ids in order. *)
Lemma insert_despesas_ok (ls : list LinhaDespesa) (ds : list Despesa) (seq : Z) :
  fold_right Z.max seq (map id ds) + Z.of_nat (length ls) <= int64_max ->
  insert_despesas (ds, seq) ls
  = Ok (ds ++ numerar (fold_right Z.max seq (map id ds)) ls,
        match ls with
        | [] => seq
        | _ :: _ => fold_right Z.max seq (map id ds) + Z.of_nat (length ls)
        end).
Proof.
  revert ds seq. induction ls as [|l t IH]; intros ds seq Hroom.
  - simpl. now rewrite app_nil_r.
  - cbn [insert_despesas]. unfold insert_despesa. cbn [fst snd].
    set (m := fold_right Z.max seq (map id ds)) in *.
    cbn [length] in Hroom.
    destruct (int64_max <=? m) eqn:E; [apply Z.leb_le in E; lia|].
    assert (Hm : fold_right Z.max (m + 1)
                   (map id (ds ++ [{| id := m + 1; d_cnpj := l_cnpj l;
                                      trimestre := l_trimestre l;
                                      ano := l_ano l; valor := l_valor l |}]))
                 = m + 1).
    { apply fold_max_top. intros x Hx. rewrite map_app in Hx.
      apply in_app_or in Hx. destruct Hx as [Hx | [<- | []]]; [|simpl; lia].
      pose proof (proj2 (fold_max_ge seq (map id ds)) x Hx). fold m in H. lia. }
    rewrite IH; rewrite Hm; [|lia].
    cbn [numerar]. rewrite <- app_assoc. cbn [app]. f_equal. f_equal.
    destruct t; cbn [length]; lia.
Qed.

(** No room for all rows: the statement that would pass the largest
    INTEGER fails. *)
Lemma insert_despesas_full (ls : list LinhaDespesa) (ds : list Despesa)
      (seq : Z) :
  ls <> [] ->
  int64_max < fold_right Z.max seq (map id ds) + Z.of_nat (length ls) ->
  insert_despesas (ds, seq) ls = Raise OperationalError.
Proof.
  revert ds seq. induction ls as [|l t IH]; intros ds seq Hne Hfull;
    [contradiction|].
  cbn [insert_despesas]. unfold insert_despesa. cbn [fst snd].
  set (m := fold_right Z.max seq (map id ds)) in *.
  cbn [length] in Hfull.
  destruct (int64_max <=? m) eqn:E; [reflexivity|]. apply Z.leb_gt in E.
  assert (Hm : fold_right Z.max (m + 1)
                 (map id (ds ++ [{| id := m + 1; d_cnpj := l_cnpj l;
                                    trimestre := l_trimestre l;
                                    ano := l_ano l; valor := l_valor l |}]))
               = m + 1).
  { apply fold_max_top. intros x Hx. rewrite map_app in Hx.
    apply in_app_or in Hx. destruct Hx as [Hx | [<- | []]]; [|simpl; lia].
    pose proof (proj2 (fold_max_ge seq (map id ds)) x Hx). fold m in H. lia. }
  apply IH.
  - destruct t; [cbn [length] in Hfull; lia | discriminate].
  - rewrite Hm. lia.
Qed.

(** The float addition of the seed amount does not round: the amount is
    the whole number [100000 + h mod 500000]. *)
Lemma valor_semeado (h : Z) :
  exists n : Z,
    100000 <= n < 600000
    /\ add (of_int 100000) (of_int (h mod 500000)) = of_int n.
Proof.
  pose proof (Z.mod_pos_bound h 500000 ltac:(lia)) as Hb.
  exists (100000 + h mod 500000). split; [lia|].
  apply add_whole; lia.
Qed.

Lemma linha_exemplo_semeada (hash : pystr -> Z) (c : pystr) (t : Z) :
  In c (map cnpj operadoras_exemplo) -> 1 <= t <= 3 ->
  exists l, linha_exemplo hash c t 2024 = Ok l /\ linha_semeada l.
Proof.
  intros Hc Ht. unfold linha_exemplo.
  assert (Hs : exists s, py_str t = Ok s).
  { assert (Hcases : t = 1 \/ t = 2 \/ t = 3) by lia.
    destruct Hcases as [-> | [-> | ->]]; eexists; reflexivity. }
  destruct Hs as [s ->]. eexists. split; [reflexivity|].
  unfold linha_semeada. cbn [l_cnpj l_trimestre l_ano l_valor].
  repeat split; try assumption; try lia. apply valor_semeado.
Qed.

Lemma sequence_ok {A} (P : A -> Prop) (l : list (Result A)) :
  Forall (fun r => exists a, r = Ok a /\ P a) l ->
  exists l', sequence l = Ok l' /\ length l' = length l /\ Forall P l'.
Proof.
  induction 1 as [|r t [a [-> Ha]] _ [t' [Ht [Hlen HP]]]]; simpl.
  - exists []. repeat split. constructor.
  - rewrite Ht. exists (a :: t'). repeat split.
    + simpl. now rewrite Hlen.
    + now constructor.
Qed.

(** The loops of [init_db] always produce fifteen well-formed rows. *)
Lemma despesas_exemplo_ok (hash : pystr -> Z) :
  exists ls, despesas_exemplo hash = Ok ls
             /\ length ls = 15%nat /\ Forall linha_semeada ls.
Proof.
  unfold despesas_exemplo.
  destruct (sequence_ok linha_semeada
              (flat_map (fun o =>
                 flat_map (fun trimestre =>
                   map (fun ano => linha_exemplo hash (cnpj o) trimestre ano)
                       [2024])
                   [1; 2; 3])
                 operadoras_exemplo)) as [ls [Hs [Hlen HP]]].
  - apply Forall_forall. intros r Hr.
    apply in_flat_map in Hr. destruct Hr as [o [Ho Hr]].
    apply in_flat_map in Hr. destruct Hr as [t [Ht Hr]].
    destruct Hr as [<- | []].
    apply linha_exemplo_semeada.
    + now apply in_map.
    + simpl in Ht. intuition lia.
  - exists ls. repeat split; assumption.
Qed.

Lemma numerar_semeada (m : Z) (ls : list LinhaDespesa) :
  Forall linha_semeada ls -> Forall despesa_semeada (numerar m ls).
Proof.
  intros H. revert m. induction H as [|l t Hl _ IH]; intros m; simpl.
  - constructor.
  - constructor; [exact Hl | apply IH].
Qed.


(** *** [INSERT OR IGNORE] of the seed operators *)

Lemma insert_or_ignore_all (seeds ops : list Operadora) :
  exists extra,
    fold_left insert_or_ignore seeds ops = ops ++ extra
    /\ (forall o, In o extra ->
          In o seeds /\ ~ In (cnpj o) (map cnpj ops))
    /\ (forall s, In s seeds ->
          In (cnpj s) (map cnpj (ops ++ extra)))
    /\ (NoDup (map cnpj ops) -> NoDup (map cnpj (ops ++ extra))).
Proof.
  revert ops. induction seeds as [|s t IH]; intros ops.
  - exists []. simpl. rewrite app_nil_r. repeat split; try contradiction.
    intros H; exact H.
  - cbn [fold_left]. unfold insert_or_ignore at 2.
    destruct (existsb (fun x => pystr_eqb (cnpj x) (cnpj s)) ops) eqn:E.
    + destruct (IH ops) as [extra [H1 [H2 [H3 H4]]]].
      exists extra. split; [exact H1|]. split; [|split; [|exact H4]].
      * intros o Ho. destruct (H2 o Ho) as [Hs Hn]. split; [now right | exact Hn].
      * intros s' [<- | Hs']; [|now apply H3].
        apply existsb_exists in E. destruct E as [x [Hx Heq]].
        apply pystr_eqb_eq in Heq. rewrite <- Heq, map_app.
        apply in_or_app. left. now apply in_map.
    + assert (Hnew : ~ In (cnpj s) (map cnpj ops)).
      { intros Hin. apply in_map_iff in Hin. destruct Hin as [x [Hx Hin]].
        assert (Hex : existsb (fun x => pystr_eqb (cnpj x) (cnpj s)) ops = true).
        { apply existsb_exists. exists x. split; [exact Hin|].
          now apply pystr_eqb_eq. }
        congruence. }
      destruct (IH (ops ++ [s])) as [extra [H1 [H2 [H3 H4]]]].
      exists (s :: extra). rewrite H1, <- app_assoc. cbn [app].
      split; [reflexivity|]. split; [|split].
      * intros o [<- | Ho]; [split; [now left | exact Hnew]|].
        destruct (H2 o Ho) as [Hs Hn]. split; [now right|].
        intros Hin. apply Hn. rewrite map_app. apply in_or_app. now left.
      * intros s' [<- | Hs'].
        -- rewrite map_app. apply in_or_app. right. now left.
        -- specialize (H3 s' Hs'). rewrite <- app_assoc in H3. exact H3.
      * intros Hnd. rewrite <- app_assoc in H4. apply H4.
        rewrite map_app. cbn [map].
        apply (Permutation_NoDup (l := cnpj s :: map cnpj ops)).
        -- apply Permutation_cons_append.
        -- now constructor.
Qed.

Lemma insert_or_ignore_present (seeds ops : list Operadora) :
  (forall s, In s seeds -> In (cnpj s) (map cnpj ops)) ->
  fold_left insert_or_ignore seeds ops = ops.
Proof.
  induction seeds as [|s t IH]; intros Hall; [reflexivity|].
  cbn [fold_left]. unfold insert_or_ignore at 2.
  assert (Hex : existsb (fun x => pystr_eqb (cnpj x) (cnpj s)) ops = true).
  { specialize (Hall s (or_introl eq_refl)).
    apply in_map_iff in Hall. destruct Hall as [x [Hx Hin]].
    apply existsb_exists. exists x. split; [exact Hin|].
    now apply pystr_eqb_eq. }
  rewrite Hex. apply IH. intros s' Hs'. apply Hall. now right.
Qed.

(** A start with room for fifteen more ids. *)
Lemma init_db_success (hash : pystr -> Z) (f : Arquivo) :
  maior_id f + 15 <= int64_max ->
  exists ls,
    despesas_exemplo hash = Ok ls
    /\ length ls = 15%nat
    /\ Forall linha_semeada ls
    /\ init_db hash f
       = (Ok tt,
          {| tab_operadoras :=
               Some (fold_left insert_or_ignore operadoras_exemplo
                               (operadoras_de f));
             tab_despesas :=
               Some (linhas_de f ++ numerar (maior_id f) ls,
                     maior_id f + 15) |}).
Proof.
  intros Hroom.
  destruct (despesas_exemplo_ok hash) as [ls [Hls [Hlen Hsem]]].
  exists ls. split; [exact Hls|]. split; [exact Hlen|]. split; [exact Hsem|].
  unfold init_db. rewrite Hls.
  unfold maior_id, linhas_de, operadoras_de in *.
  destruct (tab_despesas f) as [[ds seq]|].
  - rewrite insert_despesas_ok by (rewrite Hlen; exact Hroom).
    destruct ls as [|l t]; [discriminate|]. now rewrite Hlen.
  - rewrite insert_despesas_ok by (rewrite Hlen; exact Hroom).
    destruct ls as [|l t]; [discriminate|]. now rewrite Hlen.
Qed.

(** X17: what a start does to the table of operators.  The rows already
    there stay as they are and where they are; behind them come exactly
    the seed operators whose [cnpj] the table did not hold; afterwards all
    five seed identifiers are present, and a key stays a key.  A second
    start, whether it succeeds or fails, changes nothing in that table. *)
Theorem init_db_operadoras (hash hash' : pystr -> Z) (f : Arquivo) :
  maior_id f + 15 <= int64_max ->
  fst (init_db hash f) = Ok tt
  /\ (exists extra,
        operadoras_de (snd (init_db hash f)) = operadoras_de f ++ extra
        /\ (forall o, In o extra ->
              In o operadoras_exemplo
              /\ ~ In (cnpj o) (map cnpj (operadoras_de f))))
  /\ (forall s, In s operadoras_exemplo ->
        In (cnpj s) (map cnpj (operadoras_de (snd (init_db hash f)))))
  /\ (NoDup (map cnpj (operadoras_de f)) ->
      NoDup (map cnpj (operadoras_de (snd (init_db hash f)))))
  /\ operadoras_de (snd (init_db hash' (snd (init_db hash f))))
     = operadoras_de (snd (init_db hash f)).
Proof.
  intros Hroom.
  destruct (init_db_success hash f Hroom) as [ls [_ [_ [_ Hinit]]]].
  rewrite Hinit. cbn [fst snd operadoras_de tab_operadoras].
  destruct (insert_or_ignore_all operadoras_exemplo (operadoras_de f))
    as [extra [H1 [H2 [H3 H4]]]].
  split; [reflexivity|]. split; [|split; [|split]].
  - exists extra. split; [exact H1 | exact H2].
  - intros s Hs. rewrite H1. now apply H3.
  - intros Hnd. rewrite H1. now apply H4.
  - set (f1 := {| tab_operadoras := _; tab_despesas := _ |}).
    assert (Hops : operadoras_de f1
                   = fold_left insert_or_ignore operadoras_exemplo
                               (operadoras_de f)) by reflexivity.
    assert (Hsame : fold_left insert_or_ignore operadoras_exemplo
                              (operadoras_de f1) = operadoras_de f1).
    { apply insert_or_ignore_present. intros s Hs.
      rewrite Hops, H1. now apply H3. }
    unfold init_db.
    destruct (despesas_exemplo hash') as [ls'|e]; [|reflexivity].
    destruct (insert_despesas _ ls') as [des1|e]; [|reflexivity].
    cbn [snd operadoras_de tab_operadoras]. exact Hsame.
Qed.

Lemma init_db_operadoras_witness :
  fst (init_db (fun _ => 7) arquivo_novo) = Ok tt
  /\ operadoras_de (snd (init_db (fun _ => 9)
                           (snd (init_db (fun _ => 7) arquivo_novo))))
     = operadoras_de (snd (init_db (fun _ => 7) arquivo_novo)).
Proof.
  destruct (init_db_operadoras (fun _ => 7) (fun _ => 9) arquivo_novo)
    as [H1 [_ [_ [_ H5]]]].
  - vm_compute. discriminate.
  - split; assumption.
Defined.



(** X19: a start without room.  When fewer than fifteen ids are left below
    the largest INTEGER, [init_db] raises [OperationalError] and the whole
    transaction is undone: both tables exist afterwards, but no operator
    and no expense row has been added. *)
Theorem init_db_full_rolls_back (hash : pystr -> Z) (f : Arquivo) :
  int64_max < maior_id f + 15 ->
  fst (init_db hash f) = Raise OperationalError
  /\ operadoras_de (snd (init_db hash f)) = operadoras_de f
  /\ linhas_de (snd (init_db hash f)) = linhas_de f
  /\ maior_id (snd (init_db hash f)) = maior_id f
  /\ store_de (snd (init_db hash f))
     = Some {| operadoras := operadoras_de f; despesas := linhas_de f |}.
Proof.
  intros Hfull.
  destruct (despesas_exemplo_ok hash) as [ls [Hls [Hlen _]]].
  unfold init_db. rewrite Hls.
  assert (Hne : ls <> []) by (destruct ls; [discriminate | discriminate]).
  unfold maior_id, linhas_de, operadoras_de, store_de in *.
  destruct (tab_despesas f) as [[ds seq]|];
    (rewrite insert_despesas_full;
     [| exact Hne | rewrite Hlen; exact Hfull]);
    cbn; destruct (tab_operadoras f); repeat split.
Qed.

Lemma init_db_full_rolls_back_witness :
  fst (init_db (fun _ => 7)
               {| tab_operadoras := None;
                  tab_despesas := Some ([], int64_max - 3) |})
  = Raise OperationalError.
Proof.
  destruct (init_db_full_rolls_back (fun _ => 7)
              {| tab_operadoras := None;
                 tab_despesas := Some ([], int64_max - 3) |}) as [H _].
  - vm_compute. reflexivity.
  - exact H.
Defined.

(** X20: a successful start keeps the store well formed.  Both tables
    exist afterwards; if [cnpj] was a key it still is, and if every
    expense row belonged to an operator of the store, every row, old and
    new, still does. *)
Theorem init_db_keeps_integrity (hash : pystr -> Z) (f : Arquivo) :
  maior_id f + 15 <= int64_max ->
  exists db' : Store,
    store_de (snd (init_db hash f)) = Some db'
    /\ operadoras db' = operadoras_de (snd (init_db hash f))
    /\ despesas db' = linhas_de (snd (init_db hash f))
    /\ (NoDup (map cnpj (operadoras_de f)) -> primary_key db')
    /\ ((forall d, In d (linhas_de f) ->
           exists o, In o (operadoras_de f) /\ cnpj o = d_cnpj d) ->
        integridade_referencial db').
Proof.
  intros Hroom.
  destruct (init_db_success hash f Hroom) as [ls [_ [_ [Hsem Hinit]]]].
  rewrite Hinit. cbn [snd store_de tab_operadoras tab_despesas
                        operadoras_de linhas_de].
  eexists. split; [reflexivity|]. cbn [operadoras despesas].
  destruct (insert_or_ignore_all operadoras_exemplo (operadoras_de f))
    as [extra [H1 [H2 [H3 H4]]]].
  split; [reflexivity|]. split; [reflexivity|]. split.
  - intros Hnd. unfold primary_key. cbn [operadoras]. rewrite H1.
    now apply H4.
  - intros Hfk d Hd. cbn [despesas operadoras] in *. rewrite H1.
    apply in_app_or in Hd. destruct Hd as [Hd | Hd].
    + destruct (Hfk d Hd) as [o [Ho Hc]]. exists o.
      split; [apply in_or_app; now left | exact Hc].
    + pose proof (numerar_semeada (maior_id f) ls Hsem) as Hall.
      rewrite Forall_forall in Hall. destruct (Hall d Hd) as [Hc _].
      apply in_map_iff in Hc. destruct Hc as [s [Hs Hin]].
      specialize (H3 s Hin). rewrite Hs in H3.
      apply in_map_iff in H3. destruct H3 as [o [Ho Hino]].
      exists o. split; assumption.
Qed.

Lemma init_db_keeps_integrity_witness :
  exists db' : Store,
    store_de (snd (init_db (fun _ => 7) arquivo_novo)) = Some db'
    /\ primary_key db' /\ integridade_referencial db'.
Proof.
  destruct (init_db_keeps_integrity (fun _ => 7) arquivo_novo)
    as [db' [H1 [_ [_ [H2 H3]]]]].
  - vm_compute. discriminate.
  - exists db'. split; [exact H1|]. split.
    + apply H2. constructor.
    + apply H3. intros d Hd. contradiction.
Defined.

Lemma despesas_exemplo_shape (hash : pystr -> Z) :
  exists v : pystr -> Z -> double,
    despesas_exemplo hash
    = Ok (flat_map (fun o =>
            map (fun t => {| l_cnpj := cnpj o; l_trimestre := t;
                             l_ano := 2024; l_valor := v (cnpj o) t |})
                [1; 2; 3])
            operadoras_exemplo).
Proof.
  exists (fun c t =>
            match py_str t with
            | Ok s => add (of_int 100000) (of_int (hash (c ++ s) mod 500000))
            | Raise _ => zero
            end).
  reflexivity.
Qed.

(** X21: the first start, seen through the lookups.  On the store a first
    start leaves in a new file, whatever [hash] is, the detail lookup of
    each seed identifier answers 200 with the seed row, and its history
    lists three records: quarters 3, 2 and 1 of 2024, in that order. *)
Theorem first_start_lookups (hash : pystr -> Z) (s : Operadora) (w : World) :
  In s operadoras_exemplo ->
  exists db : Store,
    store_de (snd (init_db hash arquivo_novo)) = Some db
    /\ fst (detalhes_operadora db (cnpj s) w) = Ok (jsonify (JOperadora s))
    /\ exists h : Historico,
         fst (historico_despesas db (cnpj s) w) = Ok (jsonify (JHistorico h))
         /\ h_razao_social h = razao_social s
         /\ map (fun r => (r_trimestre r, r_ano r)) (h_despesas h)
            = [(3, 2024); (2, 2024); (1, 2024)].
Proof.
  intros Hs. destruct (despesas_exemplo_shape hash) as [v Hd].
  unfold init_db. rewrite Hd. clear Hd.
  eexists. split; [vm_compute; reflexivity|].
  cbn [In operadoras_exemplo] in Hs.
  destruct Hs as [<- | [<- | [<- | [<- | [<- | []]]]]];
    (split; [vm_compute; reflexivity|]);
    eexists; (split; [vm_compute; reflexivity|]);
    split; vm_compute; reflexivity.
Qed.

Lemma first_start_lookups_witness :
  exists db : Store,
    store_de (snd (init_db (fun _ => 7) arquivo_novo)) = Some db
    /\ fst (detalhes_operadora db (str "98.765.432/0001-10") mundo_inicial)
       = Ok (jsonify (JOperadora
               (semente (str "98.765.432/0001-10")
                  (str "Plano Sa" ++ [250%N] ++ str "de Total S.A.")
                  (str "654321")
                  (str "Cooperativa M" ++ [233%N] ++ str "dica")
                  (str "RJ")))).
Proof.
  destruct (first_start_lookups (fun _ => 7)
              (semente (str "98.765.432/0001-10")
                 (str "Plano Sa" ++ [250%N] ++ str "de Total S.A.")
                 (str "654321")
                 (str "Cooperativa M" ++ [233%N] ++ str "dica")
                 (str "RJ")) mundo_inicial) as [db [H1 [H2 _]]].
  - right. left. reflexivity.
  - exists db. split; assumption.
Defined.

(** ** Statistics of a store without expenses *)

Lemma joined_no_despesas (db : Store) : despesas db = [] -> joined db = [].
Proof.
  intros H. unfold joined. now rewrite H.
Qed.

(** X22: statistics of a store that has no expense row, however many
    operators it holds: a recomputation answers 200 with totals 0 and 0,
    [num_operadoras] 0, an empty [top_operadoras] and an empty
    [distribuicao_uf]; no operator and no region is listed. *)
Theorem estatisticas_without_despesas (db : Store) (agora : Z) (w : World) :
  despesas db = [] ->
  cache_valido (cache_estatisticas w) agora = None ->
  fst (estatisticas db agora w)
  = Ok {| status := 200;
          body := JEstatisticas
                    {| resumo := {| total_despesas := PyInt 0;
                                    media_despesas := PyInt 0;
                                    num_operadoras := 0 |};
                       top_operadoras := [];
                       distribuicao_uf := [] |} |}.
Proof.
  intros Hnone Hmiss. rewrite (estatisticas_miss db agora w Hmiss).
  cbn [fst jsonify]. unfold estatisticas_de.
  unfold select_top, select_distribuicao_uf, totais_por_operadora,
    sum_valor, avg_valor.
  rewrite (joined_no_despesas db Hnone), Hnone. reflexivity.
Qed.

Lemma estatisticas_without_despesas_witness :
  fst (estatisticas {| operadoras := operadoras db_exemplo; despesas := [] |}
                    0 mundo_inicial)
  = Ok {| status := 200;
          body := JEstatisticas
                    {| resumo := {| total_despesas := PyInt 0;
                                    media_despesas := PyInt 0;
                                    num_operadoras := 0 |};
                       top_operadoras := [];
                       distribuicao_uf := [] |} |}.
Proof.
  apply (estatisticas_without_despesas
           {| operadoras := operadoras db_exemplo; despesas := [] |}
           0 mundo_inicial); reflexivity.
Defined.
